(** * dayflow-sync: day boundary, aggregation and sync decision

    A shallow embedding of [src/dayflow-sync.js].  The script reads the
    Dayflow timeline database, decides for each logical day (04:00 to
    04:00) whether its markdown note is skipped, created or updated, and
    aggregates the day's timeline cards.

    Conventions of the model.
    - A JS [Date] is its time value: an integer number of milliseconds
      since the epoch.  The local time zone has a constant offset from
      UTC ([tzOffset], in milliseconds); zones whose offset changes during
      the year are outside the model.  Time values are not clipped to the
      range of [Date].
    - A JS string is a [string] of 8-bit code units.
    - The SQLite columns [start_ts] and [end_ts] are integers.
    - Functions that read the clock, the file system or the database are
      written in the monad [M] over [World]; [console.warn] of the
      aggregation functions is returned as a list of lines.
    - [JSON.parse], the conversion of a value to a property key,
      [yaml.dump] and the generators of the sections of a note after the
      front matter are parameters.
    - The run starts on an open database: the checks of the platform and
      of the database file come before it. *)

From Stdlib Require Import ZArith QArith Qround String Ascii List DecimalString.
From Stdlib Require Import Sorting Permutation Lia.
From stdpp Require Import gmap strings list sorting.

Set Warnings "-register-all,-clear-no-such-hyp".

Open Scope Z_scope.

(** ** Strings *)

Definition ascii_code (c : ascii) : N := N_of_ascii c.

Definition char_eqb (a b : ascii) : bool := Ascii.eqb a b.

Definition LF : ascii := ascii_of_nat 10.
Definition APOSTROPHE : ascii := ascii_of_nat 39.
Definition QUOTATION_MARK : ascii := ascii_of_nat 34.

(** [\s] of a regular expression, and the characters [trim] removes:
    TAB, LF, VT, FF, CR, SPACE and NO-BREAK SPACE among the 8-bit units. *)
Definition is_space (c : ascii) : bool :=
  let n := ascii_code c in
  ((9 <=? n)%N && (n <=? 13)%N) || (n =? 32)%N || (n =? 160)%N.

Definition is_digit (c : ascii) : bool :=
  let n := ascii_code c in (48 <=? n)%N && (n <=? 57)%N.

Definition digit_value (c : ascii) : Z := Z.of_N (ascii_code c) - 48.

Fixpoint string_to_list (s : string) : list ascii :=
  match s with
  | EmptyString => []
  | String c r => c :: string_to_list r
  end.

Fixpoint string_of_list (l : list ascii) : string :=
  match l with
  | [] => EmptyString
  | c :: r => String c (string_of_list r)
  end.

Fixpoint takeWhile (p : ascii -> bool) (s : string) : string :=
  match s with
  | EmptyString => EmptyString
  | String c r => if p c then String c (takeWhile p r) else EmptyString
  end.

Fixpoint dropWhile (p : ascii -> bool) (s : string) : string :=
  match s with
  | EmptyString => EmptyString
  | String c r => if p c then dropWhile p r else s
  end.

Fixpoint dropChars (n : nat) (s : string) : string :=
  match n, s with
  | O, _ => s
  | S n', String _ r => dropChars n' r
  | S _, EmptyString => EmptyString
  end.

Definition isEmpty (s : string) : bool :=
  match s with EmptyString => true | _ => false end.

(** [String.prototype.includes]. *)
Fixpoint includes (s needle : string) : bool :=
  String.prefix needle s ||
  match s with
  | EmptyString => false
  | String _ r => includes r needle
  end.

(** [String.prototype.trim]. *)
Definition trimStart (s : string) : string := dropWhile is_space s.

Definition trimEnd (s : string) : string :=
  string_of_list (rev (string_to_list
    (dropWhile is_space (string_of_list (rev (string_to_list s)))))).

Definition trim (s : string) : string := trimEnd (trimStart s).

(** [String.prototype.toLowerCase] on 8-bit code units: A-Z and the
    Latin-1 capitals. *)
Definition lower_char (c : ascii) : ascii :=
  let n := ascii_code c in
  if ((65 <=? n)%N && (n <=? 90)%N)
     || ((192 <=? n)%N && (n <=? 222)%N && negb (n =? 215)%N)
  then ascii_of_N (n + 32) else c.

Fixpoint toLowerCase (s : string) : string :=
  match s with
  | EmptyString => EmptyString
  | String c r => String (lower_char c) (toLowerCase r)
  end.

(** Decimal text of a natural number, and [padStart(len, '0')]. *)
Definition decimal (n : Z) : string :=
  NilZero.string_of_uint (N.to_uint (Z.to_N n)).

Fixpoint zeros (n : nat) : string :=
  match n with
  | O => EmptyString
  | S n' => String "0" (zeros n')
  end.

Definition addLeadingZeros (n : Z) (targetLength : nat) : string :=
  let s := decimal n in
  zeros (targetLength - String.length s) +:+ s.

(** Reads a run of exactly [n] decimal digits. *)
Fixpoint read_digits (n : nat) (acc : Z) (s : string) : option (Z * string) :=
  match n with
  | O => Some (acc, s)
  | S n' =>
      match s with
      | String c r =>
          if is_digit c then read_digits n' (10 * acc + digit_value c) r
          else None
      | EmptyString => None
      end
  end.

Definition expect (c : ascii) (s : string) : option string :=
  match s with
  | String c' r => if char_eqb c c' then Some r else None
  | EmptyString => None
  end.

(** ** The proleptic Gregorian calendar of [Date] *)

Definition msPerSecond : Z := 1000.
Definition msPerMinute : Z := 60000.
Definition msPerHour : Z := 3600000.
Definition msPerDay : Z := 86400000.

(** Year, month (1-12) and day of month of a day number (days since
    1970-01-01). *)
Definition civil_from_days (z : Z) : Z * Z * Z :=
  let z := z + 719468 in
  let era := z / 146097 in
  let doe := z - era * 146097 in
  let yoe := (doe - doe / 1460 + doe / 36524 - doe / 146096) / 365 in
  let y := yoe + era * 400 in
  let doy := doe - (365 * yoe + yoe / 4 - yoe / 100) in
  let mp := (5 * doy + 2) / 153 in
  let d := doy - (153 * mp + 2) / 5 + 1 in
  let m := if mp <? 10 then mp + 3 else mp - 9 in
  (if m <=? 2 then y + 1 else y, m, d).

(** Day number of a year, month and day of month; a day of month past
    the end of the month runs on into the next one, as in [MakeDay]. *)
Definition days_from_civil (y m d : Z) : Z :=
  let y := if m <=? 2 then y - 1 else y in
  let era := y / 400 in
  let yoe := y - era * 400 in
  let mp := if m <=? 2 then m + 9 else m - 3 in
  let doy := (153 * mp + 2) / 5 + d - 1 in
  let doe := yoe * 365 + yoe / 4 - yoe / 100 + doy in
  era * 146097 + doe - 719468.

(** ** The world the script runs in *)

Record FileEntry := mkFile {
  f_content : string;
  f_readable : bool
}.

(** The clock is the sequence of values successive [new Date()] calls
    return; [w_write_ok] tells whether the file system accepts a write
    to a path. *)
Record World := mkWorld {
  w_clock : nat -> Z;
  w_reads : nat;
  w_files : gmap string FileEntry;
  w_write_ok : string -> bool
}.

(** A computation returns a value, throws an [Error] with a message, or
    ends the process ([process.exit]). *)
Inductive Res (A : Type) : Type :=
| Val (a : A)
| Throw (message : string)
| Exit (code : Z).

Arguments Val {A} a.
Arguments Throw {A} message.
Arguments Exit {A} code.

Definition M (A : Type) : Type := World -> Res A * World.

Definition ret {A} (a : A) : M A := fun w => (Val a, w).

Definition bind {A B} (m : M A) (k : A -> M B) : M B :=
  fun w =>
    match m w with
    | (Val a, w') => k a w'
    | (Throw msg, w') => (Throw msg, w')
    | (Exit code, w') => (Exit code, w')
    end.

Definition throw {A} (msg : string) : M A := fun w => (Throw msg, w).

Definition process_exit {A} (code : Z) : M A := fun w => (Exit code, w).

(** [try { m } catch (error) { handler(error.message) }]. *)
Definition try_catch {A} (m : M A) (handler : string -> M A) : M A :=
  fun w =>
    match m w with
    | (Throw msg, w') => handler msg w'
    | r => r
    end.

Notation "'bind!' x ':=' m 'in' k" := (bind m (fun x => k))
  (at level 10, x name, m at level 100, k at level 200).

(** [new Date()]. *)
Definition newDate : M Z :=
  fun w => (Val (w_clock w (w_reads w)),
            mkWorld (w_clock w) (S (w_reads w)) (w_files w) (w_write_ok w)).

(** ** Date functions *)

Section Dayflow.

(** Offset of local time from UTC, in milliseconds. *)
Variable tzOffset : Z.

(** Day number of the local calendar date of a time value. *)
Definition localDay (t : Z) : Z := (t + tzOffset) / msPerDay.

(** Time value of a local calendar date at a local time of day. *)
Definition makeLocal (day h m s ms : Z) : Z :=
  day * msPerDay + h * msPerHour + m * msPerMinute + s * msPerSecond + ms
  - tzOffset.

(** [Date.prototype.setHours(h, m, s, ms)], as the new time value. *)
Definition setHours (date h m s ms : Z) : Z :=
  makeLocal (localDay date) h m s ms.

(** [addDays] and [subDays] of date-fns. *)
Definition addDays (date amount : Z) : Z := date + amount * msPerDay.

Definition subDays (date amount : Z) : Z := addDays date (- amount).

(** Text of a calendar date as [format(_, 'yyyy-MM-dd')] of date-fns
    prints it; the year token prints [1 - year] for the years up to 0. *)
Definition format_date (day : Z) : string :=
  let '(y, m, d) := civil_from_days day in
  addLeadingZeros (if 0 <? y then y else 1 - y) 4 +:+ "-" +:+
  addLeadingZeros m 2 +:+ "-" +:+ addLeadingZeros d 2.

(** [format(date, 'yyyy-MM-dd')]. *)
Definition format_yyyy_MM_dd (date : Z) : string := format_date (localDay date).

(** [Date.prototype.toISOString()]: the UTC date and time. *)
Definition toISOString (date : Z) : string :=
  let day := date / msPerDay in
  let t := date mod msPerDay in
  let '(y, m, d) := civil_from_days day in
  (if (0 <=? y) && (y <=? 9999) then addLeadingZeros y 4
   else (if y <? 0 then "-" else "+") +:+ addLeadingZeros (Z.abs y) 6)
  +:+ "-" +:+ addLeadingZeros m 2 +:+ "-" +:+ addLeadingZeros d 2
  +:+ "T" +:+ addLeadingZeros (t / msPerHour) 2
  +:+ ":" +:+ addLeadingZeros (t mod msPerHour / msPerMinute) 2
  +:+ ":" +:+ addLeadingZeros (t mod msPerMinute / msPerSecond) 2
  +:+ "." +:+ addLeadingZeros (t mod msPerSecond) 3 +:+ "Z".

(** [new Date(text)] for a text of the form [YYYY-MM-DDTHH:mm:ss], which
    is read as local time; [None] is the invalid date.  Texts of another
    form are taken to be invalid. *)
Definition parseLocalDateTime (text : string) : option Z :=
  '(y, r) ← read_digits 4 0 text;
  r ← expect "-" r;
  '(m, r) ← read_digits 2 0 r;
  r ← expect "-" r;
  '(d, r) ← read_digits 2 0 r;
  r ← expect "T" r;
  '(hh, r) ← read_digits 2 0 r;
  r ← expect ":" r;
  '(mm, r) ← read_digits 2 0 r;
  r ← expect ":" r;
  '(ss, r) ← read_digits 2 0 r;
  if isEmpty r
     && (1 <=? m) && (m <=? 12) && (1 <=? d) && (d <=? 31)
     && ((hh <=? 23) || ((hh =? 24) && (mm =? 0) && (ss =? 0)))
     && (mm <=? 59) && (ss <=? 59)
  then Some (makeLocal (days_from_civil y m d) hh mm ss 0)
  else None.

(** Check if a day is complete (current time is past 4 AM of the next
    day). *)
Definition isDayComplete (dayString : string) : M bool :=
  let dayDate := parseLocalDateTime (dayString +:+ "T04:00:00") in
  let nextDay4AM := (fun d => addDays d 1) <$> dayDate in
  bind! now := newDate in
  ret match nextDay4AM with
      | Some t => t <=? now
      | None => false
      end.

Record DayInfo := mkDayInfo {
  dayString : string;
  startOfDay : Z;
  endOfDay : Z
}.

Definition getDayInfoFor4AMBoundary (date : Z) : DayInfo :=
  let fourAMToday := setHours date 4 0 0 0 in
  if date <? fourAMToday then
    let startOfDay := subDays fourAMToday 1 in
    {| dayString := format_yyyy_MM_dd startOfDay;
       startOfDay := startOfDay;
       endOfDay := fourAMToday |}
  else
    {| dayString := format_yyyy_MM_dd fourAMToday;
       startOfDay := fourAMToday;
       endOfDay := addDays fourAMToday 1 |}.

(** [Array.prototype.includes] on an array of strings. *)
Definition array_includes (l : list string) (x : string) : bool :=
  bool_decide (x ∈ l).

(** [[...new Set(l)]]: the distinct elements in order of first
    occurrence. *)
Definition Set_of (l : list string) : list string :=
  fold_left (fun acc x => if array_includes acc x then acc else acc ++ [x]) l [].

(** The loop of [calculateDateRange] from [i] up, [n] iterations left. *)
Fixpoint dateRangeLoop (today : Z) (i : Z) (n : nat) (dates : list string)
  : list string :=
  match n with
  | O => dates
  | S n' =>
      let date := subDays today i in
      let dayInfo := getDayInfoFor4AMBoundary date in
      let dates' :=
        if negb (array_includes dates (dayString dayInfo))
        then dates ++ [dayString dayInfo] else dates in
      dateRangeLoop today (i + 1) n' dates'
  end.

Definition calculateDateRange (days : Z) : M (list string) :=
  bind! today := newDate in
  ret (Set_of (dateRangeLoop today 0 (Z.to_nat days) [])).

(** ** Timeline cards, journal entries and card metadata *)

(** A row of [timeline_cards], with the columns the script selects. *)
Record Card := mkCard {
  id : Z;
  batch_id : Z;
  start : string;
  end_ : string;
  start_ts : Z;
  end_ts : Z;
  day : string;
  title : option string;
  summary : option string;
  detailed_summary : option string;
  category : option string;
  subcategory : option string;
  metadata : option string;
  video_summary_url : option string
}.

(** A row of [journal_entries]. *)
Record Journal := mkJournal {
  intentions : option string;
  notes : option string;
  goals : option string;
  reflections : option string;
  journal_summary : option string;
  status : option string
}.

(** A value [JSON.parse] returns.  An object lists each of its keys
    once. *)
Inductive json : Type :=
| JNull
| JBool (b : bool)
| JNum (q : Q)
| JStr (s : string)
| JArr (items : list json)
| JObj (fields : list (string * json)).

(** [JSON.parse]: the message of the [SyntaxError], or the value. *)
Variable JSON_parse : string -> string + json.

(** The property key a value turns into when it indexes an object
    ([ToPropertyKey]); [None] when the conversion throws a [TypeError].
    A string is its own key. *)
Variable ToPropertyKey : json -> option string.
Hypothesis ToPropertyKey_string : forall s, ToPropertyKey (JStr s) = Some s.

(** Truthiness of a string, an optional string and a JSON value. *)
Definition truthy_text (s : option string) : bool :=
  match s with
  | Some s => negb (isEmpty s)
  | None => false
  end.

Definition truthy (v : json) : bool :=
  match v with
  | JNull => false
  | JBool b => b
  | JNum q => negb (Qeq_bool q 0)
  | JStr s => negb (isEmpty s)
  | JArr _ | JObj _ => true
  end.

Fixpoint assoc {A} (k : string) (l : list (string * A)) : option A :=
  match l with
  | [] => None
  | (k', v) :: r => if bool_decide (k' = k) then Some v else assoc k r
  end.

(** [v.name] for a value [v] other than [null], and a name that no
    prototype defines; [None] is [undefined]. *)
Definition get_property (v : json) (name : string) : option json :=
  match v with
  | JObj fields => assoc name fields
  | _ => None
  end.

Record Metadata := mkMetadata {
  distractions : list json;
  appSites : json
}.

Definition emptyMetadata : Metadata :=
  {| distractions := []; appSites := JObj [] |}.

Definition null_property_message : string :=
  "Cannot read properties of null (reading 'distractions')".

(** Returns the metadata and the lines written with [console.warn]. *)
Definition parseMetadata (metadataJson : option string)
  : Metadata * list string :=
  if negb (truthy_text metadataJson) then (emptyMetadata, [])
  else
    match JSON_parse (default EmptyString metadataJson) with
    | inr JNull =>
        (emptyMetadata, ["Failed to parse metadata: " +:+ null_property_message])
    | inr parsed =>
        ({| distractions :=
              match get_property parsed "distractions" with
              | Some (JArr items) => items
              | _ => []
              end;
            appSites :=
              match get_property parsed "appSites" with
              | Some v => if truthy v then v else JObj []
              | None => JObj []
              end |}, [])
    | inl message =>
        (emptyMetadata, ["Failed to parse metadata: " +:+ message])
    end.

(** ** Data processing functions *)

(** [Math.round]: the nearest integer, a half rounding up. *)
Definition Math_round (x : Q) : Z := Qfloor (x + (1 # 2)).

Definition calculateDuration (startTs endTs : Z) : Z :=
  Math_round (inject_Z (endTs - startTs) / inject_Z 60).

Definition extractCategories (cards : list Card) : list string :=
  Set_of (omap (fun card =>
                  if truthy_text (category card) then category card else None)
               cards).

Definition calculateTotalMinutes (cards : list Card) : Z :=
  fold_left (fun total card =>
               total + calculateDuration (start_ts card) (end_ts card))
            cards 0.

Record Stats := mkStats {
  sessions : Z;
  totalMinutes : Z
}.

(** The object [appStats]: its own properties in order of creation. *)
Definition AppStats : Type := list (string * Stats).

(** The properties every object inherits from [Object.prototype]; each
    holds a function or an object. *)
Definition Object_prototype_names : list string :=
  [ "constructor"; "__defineGetter__"; "__defineSetter__"; "hasOwnProperty";
    "__lookupGetter__"; "__lookupSetter__"; "isPrototypeOf";
    "propertyIsEnumerable"; "toString"; "valueOf"; "__proto__";
    "toLocaleString" ]%string.

Definition inherited (name : string) : bool :=
  bool_decide (name ∈ Object_prototype_names).

Fixpoint update_own (app : string) (f : Stats -> Stats) (o : AppStats)
  : AppStats :=
  match o with
  | [] => []
  | (k, v) :: r =>
      if bool_decide (k = app) then (k, f v) :: r
      else (k, v) :: update_own app f r
  end.

(** The body of the inner [forEach]: [appStats[app]] finds an own
    property or an inherited one; the two updates go to the object it
    finds, which for an inherited name is not [appStats]. *)
Definition countApp (duration : Z) (appStats : AppStats) (app : string)
  : AppStats :=
  match assoc app appStats with
  | Some _ =>
      update_own app
        (fun st => mkStats (sessions st + 1) (totalMinutes st + duration))
        appStats
  | None =>
      if inherited app then appStats
      else appStats ++ [(app, mkStats (0 + 1) (0 + duration))]
  end.

(** [[metadata.appSites?.primary, metadata.appSites?.secondary]
    .filter(Boolean)]. *)
Definition appSlots (m : Metadata) : list json :=
  filter (fun v => truthy v = true)
         (omap (get_property (appSites m)) ["primary"; "secondary"]%string).

(** The inner [forEach]; [None] when a property key cannot be made. *)
Fixpoint forEachApp (duration : Z) (apps : list json) (appStats : AppStats)
  : option AppStats :=
  match apps with
  | [] => Some appStats
  | app :: rest =>
      match ToPropertyKey app with
      | Some key => forEachApp duration rest (countApp duration appStats key)
      | None => None
      end
  end.

(** The outer [forEach], with the lines written with [console.warn]. *)
Fixpoint forEachCard (cards : list Card) (appStats : AppStats)
  : option AppStats * list string :=
  match cards with
  | [] => (Some appStats, [])
  | card :: rest =>
      let '(metadata, warned) := parseMetadata (metadata card) in
      let duration := calculateDuration (start_ts card) (end_ts card) in
      match forEachApp duration (appSlots metadata) appStats with
      | Some appStats' =>
          let '(result, warned') := forEachCard rest appStats' in
          (result, warned ++ warned')
      | None => (None, warned)
      end
  end.

(** A property key that is an array index: the decimal text, without
    leading zeros, of an integer from 0 to 2^32 - 2. *)
Fixpoint digits_value (acc : Z) (s : string) : option Z :=
  match s with
  | EmptyString => Some acc
  | String c r =>
      if is_digit c then digits_value (10 * acc + digit_value c) r else None
  end.

Definition array_index (key : string) : option Z :=
  match key with
  | EmptyString => None
  | String c r =>
      if char_eqb c "0" && negb (isEmpty r) then None
      else
        match digits_value 0 key with
        | Some n => if n <=? 4294967294 then Some n else None
        | None => None
        end
  end.

Fixpoint insert_index {A} (n : Z) (e : string * A)
  (l : list (Z * (string * A))) : list (Z * (string * A)) :=
  match l with
  | [] => [(n, e)]
  | (m, e') :: r =>
      if n <? m then (n, e) :: l else (m, e') :: insert_index n e r
  end.

(** [Object.entries]: the array-index keys in ascending order, then the
    other keys in order of creation. *)
Definition Object_entries {A} (o : list (string * A)) : list (string * A) :=
  map snd
    (fold_right (fun e acc =>
                   match array_index (fst e) with
                   | Some n => insert_index n e acc
                   | None => acc
                   end) [] o)
  ++ filter (fun e => array_index (fst e) = None) o.

(** [Array.prototype.sort] with the comparator
    [(a, b) => b[1].totalMinutes - a[1].totalMinutes]: a stable sort,
    larger totals first. *)
Fixpoint sort_insert (e : string * Stats) (l : list (string * Stats))
  : list (string * Stats) :=
  match l with
  | [] => [e]
  | e' :: r =>
      if totalMinutes (snd e') - totalMinutes (snd e) <=? 0
      then e :: l else e' :: sort_insert e r
  end.

Definition sort_by_totalMinutes (l : list (string * Stats))
  : list (string * Stats) :=
  fold_right sort_insert [] l.

(** An element [{ app, ...stats }] of the result. *)
Record AppUsage := mkAppUsage {
  app_ : string;
  stats : Stats
}.

(** The result, [None] when a [TypeError] ends the call, and the lines
    written with [console.warn]. *)
Definition aggregateAppUsage (cards : list Card)
  : option (list AppUsage) * list string :=
  let '(appStats, warned) := forEachCard cards [] in
  ((fun o => map (fun e => mkAppUsage (fst e) (snd e))
                 (sort_by_totalMinutes (Object_entries o))) <$> appStats,
   warned).

(** An element [{ ...d, cardStart, cardEnd }]. *)
Record CardDistraction := mkCardDistraction {
  distraction : json;
  cardStart : string;
  cardEnd : string
}.

Fixpoint extractAllDistractions (cards : list Card)
  : list CardDistraction * list string :=
  match cards with
  | [] => ([], [])
  | card :: rest =>
      let '(metadata, warned) := parseMetadata (metadata card) in
      let '(more, warned') := extractAllDistractions rest in
      (map (fun d => mkCardDistraction d (start card) (end_ card))
           (distractions metadata) ++ more,
       warned ++ warned')
  end.

(** ** Markdown generation *)

Definition nl : string := String LF EmptyString.

(** The object [frontmatter] of [generateFrontmatter]. *)
Record Frontmatter := mkFrontmatter {
  dayflow_day : string;
  day_boundary : string;
  total_cards : Z;
  total_minutes : Z;
  categories : list string;
  has_journal : bool;
  journal_status : option string;
  created_at : string;
  updated_at : string;
  tags : list string
}.

(** [yaml.dump] of js-yaml. *)
Variable yaml_dump : Frontmatter -> string.

(** The text of the sections after the front matter, in the order
    [generateMarkdownNote] joins them: daily summary, journal, timeline,
    reflection, distractions and app usage; [inl] is the message of an
    error a section generator throws. *)
Variable renderSections :
  string -> list Card -> option Journal -> string + string.

Definition frontmatterObject (dayString : string) (cards : list Card)
  (journal : option Journal) (createdAt updatedAt : string) : Frontmatter :=
  let totalMinutes := calculateTotalMinutes cards in
  let categories := extractCategories cards in
  {| dayflow_day := dayString;
     day_boundary := "4am";
     total_cards := Z.of_nat (length cards);
     total_minutes := totalMinutes;
     categories := categories;
     has_journal := bool_decide (is_Some journal);
     journal_status :=
       match journal with
       | Some j => if truthy_text (status j) then status j else None
       | None => None
       end;
     created_at := createdAt;
     updated_at := updatedAt;
     tags := ["dayflow"; "timeline"]%string ++ map toLowerCase categories |}.

(** The metadata block of a note, as an object and as text. *)
Definition buildFrontmatter (dayString : string) (cards : list Card)
  (journal : option Journal) (existingCreatedAt : option string)
  : M Frontmatter :=
  bind! createdAt :=
    (if truthy_text existingCreatedAt
     then ret (default EmptyString existingCreatedAt)
     else bind! now := newDate in ret (toISOString now)) in
  bind! now := newDate in
  ret (frontmatterObject dayString cards journal createdAt (toISOString now)).

Definition frontmatterText (fm : Frontmatter) : string :=
  "---" +:+ nl +:+ yaml_dump fm +:+ "---" +:+ nl.

Definition generateFrontmatter (dayString : string) (cards : list Card)
  (journal : option Journal) (existingCreatedAt : option string) : M string :=
  bind! fm := buildFrontmatter dayString cards journal existingCreatedAt in
  ret (frontmatterText fm).

Definition generateMarkdownNote (dayString : string) (cards : list Card)
  (journal : option Journal) (existingCreatedAt : option string) : M string :=
  bind! frontmatter :=
    generateFrontmatter dayString cards journal existingCreatedAt in
  match renderSections dayString cards journal with
  | inr sections => ret (frontmatter +:+ nl +:+ sections)
  | inl message => throw message
  end.

(** ** File operations *)

Definition generateFilename (dayString : string) : string :=
  "Dayflow_" +:+ dayString +:+ ".md".

(** [path.join] of a directory other than the root, as [path.resolve]
    returns it, and a file name. *)
Definition path_join (directory filename : string) : string :=
  directory +:+ "/" +:+ filename.

Definition fs_access (filePath : string) : M unit :=
  fun w =>
    match w_files w !! filePath with
    | Some _ => (Val tt, w)
    | None => (Throw ("ENOENT: no such file or directory, access '"
                      +:+ filePath +:+ "'"), w)
    end.

Definition fs_readFile (filePath : string) : M string :=
  fun w =>
    match w_files w !! filePath with
    | Some f =>
        if f_readable f then (Val (f_content f), w)
        else (Throw ("EACCES: permission denied, open '"
                     +:+ filePath +:+ "'"), w)
    | None => (Throw ("ENOENT: no such file or directory, open '"
                      +:+ filePath +:+ "'"), w)
    end.

(** A write keeps the permissions of a file that exists. *)
Definition fs_writeFile (filePath content : string) : M unit :=
  fun w =>
    if w_write_ok w filePath then
      let readable :=
        match w_files w !! filePath with
        | Some f => f_readable f
        | None => true
        end in
      (Val tt, mkWorld (w_clock w) (w_reads w)
                 (<[filePath := mkFile content readable]> (w_files w))
                 (w_write_ok w))
    else (Throw ("EACCES: permission denied, open '"
                 +:+ filePath +:+ "'"), w).

(** [fs.mkdir(directory, { recursive: true })]: making the directory is
    a write to its path; no file changes. *)
Definition fs_mkdir (directory : string) : M unit :=
  fun w =>
    if w_write_ok w directory then (Val tt, w)
    else (Throw ("EACCES: permission denied, mkdir '"
                 +:+ directory +:+ "'"), w).

Definition findExistingNoteByDay (dayString directory : string)
  : M (option string) :=
  let filename := generateFilename dayString in
  let filePath := path_join directory filename in
  try_catch (bind! _ := fs_access filePath in ret (Some filePath))
            (fun _ => ret None).

(** The regular expression of [getExistingCreatedAt]: the text
    [created_at:], white space, an optional quote, one or more
    characters other than a quote or a line feed (the group that is
    returned), an optional quote. *)
Definition is_quote (c : ascii) : bool :=
  char_eqb c APOSTROPHE || char_eqb c QUOTATION_MARK.

Definition is_value_char (c : ascii) : bool :=
  negb (is_quote c || char_eqb c LF).

(** The optional quote and the group, at [r]. *)
Definition match_value (r : string) : option string :=
  let r' := match r with
            | String c t => if is_quote c then t else r
            | EmptyString => r
            end in
  let v := takeWhile is_value_char r' in
  if isEmpty v then None else Some v.

(** The white space, longest run first, and the rest of the pattern. *)
Fixpoint match_after_key (r : string) : option string :=
  match r with
  | String c t =>
      if is_space c then
        match match_after_key t with
        | Some v => Some v
        | None => match_value r
        end
      else match_value r
  | EmptyString => match_value r
  end.

(** [content.match(...)]: the group of the leftmost match. *)
Fixpoint match_created_at (content : string) : option string :=
  match (if String.prefix "created_at:" content
         then match_after_key (dropChars 11 content) else None) with
  | Some v => Some v
  | None =>
      match content with
      | String _ r => match_created_at r
      | EmptyString => None
      end
  end.

Definition getExistingCreatedAt (dayString directory : string)
  : M (option string) :=
  let filePath := path_join directory (generateFilename dayString) in
  try_catch (bind! content := fs_readFile filePath in
             ret (trim <$> match_created_at content))
            (fun _ => ret None).

(** [w_write_ok] at the path of the note tells whether the two steps of
    the [try] block go through, making the directory (which the run has
    made before the loop) and writing the file; a refusal ends the
    process. *)
Definition saveNote (filename content directory : string) : M string :=
  let filePath := path_join directory filename in
  try_catch (bind! _ := fs_writeFile filePath content in ret filePath)
            (fun _ => process_exit 1).

(** ** Database functions *)

(** The open database: the rows the two queries return for a day, or the
    message of the error the query throws. *)
Record Database := mkDatabase {
  timeline_cards : string -> bool -> string + list Card;
  journal_entries : string -> string + option Journal
}.

Definition fetchTimelineCardsForDay (db : Database) (dayString : string)
  (includeDeleted : bool) : M (list Card) :=
  match timeline_cards db dayString includeDeleted with
  | inr rows => ret rows
  | inl message => throw message
  end.

Definition fetchJournalEntryForDay (db : Database) (dayString : string)
  : M (option Journal) :=
  match journal_entries db dayString with
  | inr row => ret row
  | inl message => throw message
  end.

(** ** Main sync function *)

Variable FORCE : bool.
Variable INCLUDE_DELETED : bool.
Variable OUTPUT_DIR : string.
Variable DAYS : Z.

(** What the loop prints for a day. *)
Inductive DayResult : Type :=
| SkippedComplete
| SkippedEmpty
| Updated (filename : string) (cards : nat)
| Created (filename : string) (cards : nat)
| Failed (message : string).

Definition optional_includes (s : option string) (needle : string) : bool :=
  match s with
  | Some s => includes s needle
  | None => false
  end.

Definition isFailed (card : Card) : bool :=
  bool_decide (category card = Some "System"%string) &&
  (optional_includes (title card) "Processing failed"
   || optional_includes (title card) "Error"
   || bool_decide (subcategory card = Some "Error"%string)).

(** The body of the loop over the days. *)
Definition processDay (db : Database) (dayString : string) : M DayResult :=
  try_catch
    (bind! existingPath := findExistingNoteByDay dayString OUTPUT_DIR in
     bind! dayComplete := isDayComplete dayString in
     if negb FORCE && bool_decide (is_Some existingPath) && dayComplete
     then ret SkippedComplete
     else
       bind! allCards :=
         fetchTimelineCardsForDay db dayString INCLUDE_DELETED in
       let timelineCards :=
         filter (fun card => isFailed card = false) allCards in
       bind! journalEntry := fetchJournalEntryForDay db dayString in
       if bool_decide (length timelineCards = 0%nat)
          && negb (bool_decide (is_Some journalEntry))
       then ret SkippedEmpty
       else
         bind! existingCreatedAt :=
           (if negb FORCE && bool_decide (is_Some existingPath)
            then getExistingCreatedAt dayString OUTPUT_DIR
            else ret None) in
         bind! markdown :=
           generateMarkdownNote dayString timelineCards journalEntry
                                existingCreatedAt in
         let filename := generateFilename dayString in
         bind! _ := saveNote filename markdown OUTPUT_DIR in
         ret (if bool_decide (is_Some existingPath)
              then Updated filename (length timelineCards)
              else Created filename (length timelineCards)))
    (fun message => ret (Failed message)).

Record Counts := mkCounts {
  savedCount : Z;
  updatedCount : Z;
  skippedCount : Z
}.

Definition count (c : Counts) (r : DayResult) : Counts :=
  match r with
  | Created _ _ => mkCounts (savedCount c + 1) (updatedCount c) (skippedCount c)
  | Updated _ _ => mkCounts (savedCount c) (updatedCount c + 1) (skippedCount c)
  | SkippedComplete | SkippedEmpty | Failed _ =>
      mkCounts (savedCount c) (updatedCount c) (skippedCount c + 1)
  end.

Fixpoint syncDays (db : Database) (dates : list string) (c : Counts)
  : M Counts :=
  match dates with
  | [] => ret c
  | dayString :: rest =>
      bind! r := processDay db dayString in
      syncDays db rest (count c r)
  end.

(** The run on an open database, to the counts of the final summary. *)
Definition syncDayflowData (db : Database) : M Counts :=
  bind! dates := calculateDateRange DAYS in
  bind! _ := fs_mkdir OUTPUT_DIR in
  syncDays db dates (mkCounts 0 0 0).

(** The top level of the script, on an open database: an error that
    leaves [syncDayflowData] ends the process with status 1. *)
Definition main (db : Database) : M Counts :=
  try_catch (syncDayflowData db) (fun _ => process_exit 1).

(** ** Further functions of the script *)

Definition month_names : list string :=
  [ "January"; "February"; "March"; "April"; "May"; "June"; "July";
    "August"; "September"; "October"; "November"; "December" ]%string.

(** Text of a calendar date as [format(_, 'MMMM d, yyyy')] of date-fns
    prints it. *)
Definition format_long_date (day : Z) : string :=
  let '(y, m, d) := civil_from_days day in
  nth (Z.to_nat (m - 1)) month_names EmptyString +:+ " " +:+ decimal d
  +:+ ", " +:+ addLeadingZeros (if 0 <? y then y else 1 - y) 4.

(** The headline date of a note; [inl] is the message of the
    [RangeError] that [format] throws on an invalid date. *)
Definition formatDayString (dayString : string) : string + string :=
  match parseLocalDateTime (dayString +:+ "T00:00:00") with
  | Some date => inr (format_long_date (localDay date))
  | None => inl "Invalid time value"%string
  end.

(** A heading and a text, when the text is truthy. *)
Definition journal_block (heading : string) (text : option string) : string :=
  if truthy_text text
  then heading +:+ nl +:+ default EmptyString text +:+ nl +:+ nl
  else EmptyString.

Definition generateJournalSection (journal : option Journal) : string :=
  match journal with
  | None => EmptyString
  | Some j =>
      let section :=
        journal_block "## Morning Intentions" (intentions j)
        +:+ journal_block "## Daily Goals" (goals j)
        +:+ journal_block "## Journal Notes" (notes j) in
      if isEmpty section then EmptyString
      else section +:+ "---" +:+ nl +:+ nl
  end.

Definition generateJournalReflectionSection (journal : option Journal)
  : string :=
  match journal with
  | None => EmptyString
  | Some j =>
      let section :=
        journal_block "## Evening Reflection" (reflections j)
        +:+ journal_block "## AI Summary" (journal_summary j) in
      if isEmpty section then EmptyString
      else section +:+ "---" +:+ nl +:+ nl
  end.

(** The text of an integer in a template literal. *)
Definition number_text (n : Z) : string :=
  if n <? 0 then "-" +:+ decimal (- n) else decimal n.

(** [Array.prototype.join]. *)
Fixpoint join (separator : string) (items : list string) : string :=
  match items with
  | [] => EmptyString
  | [item] => item
  | item :: rest => item +:+ separator +:+ join separator rest
  end.

(** The text, [None] when [aggregateAppUsage] ends with a [TypeError],
    and the lines written with [console.warn]. *)
Definition generateAppUsageSection (cards : list Card)
  : option string * list string :=
  let '(appUsage, warned) := aggregateAppUsage cards in
  ((fun usage =>
      if bool_decide (length usage = 0%nat)
      then "## App Usage Summary" +:+ nl +:+ "*No app usage recorded*" +:+ nl
      else
        let items :=
          map (fun u =>
                 "- " +:+ app_ u +:+ " ("
                 +:+ number_text (sessions (stats u)) +:+ " sessions, "
                 +:+ number_text (totalMinutes (stats u)) +:+ " min)")
              usage in
        "## App Usage Summary" +:+ nl +:+ join nl items +:+ nl)
   <$> appUsage,
   warned).

(** The number of days the final summary accounts for. *)
Definition counted (c : Counts) : Z :=
  savedCount c + updatedCount c + skippedCount c.

(** A card's metadata is absent or is no JSON text. *)
Definition unusable_metadata (card : Card) : Prop :=
  truthy_text (metadata card) = false
  \/ exists message,
       JSON_parse (default EmptyString (metadata card)) = inl message.

(** ** Notions the properties are stated with *)

(** The year of a calendar date. *)
Definition yearOf (day : Z) : Z := fst (fst (civil_from_days day)).

(** A check on all the integers from [z] up, [n] of them. *)
Fixpoint forall_from (check : Z -> bool) (n : nat) (z : Z) : bool :=
  match n with
  | O => true
  | S n' => check z && forall_from check n' (z + 1)
  end.

(** A number is read back from its text of [width] digits. *)
Definition digits_ok (width : nat) (n : Z) : bool :=
  match read_digits width 0 (addLeadingZeros n width) with
  | Some (v, rest) => (v =? n) && isEmpty rest
  | None => false
  end.

(** The distinct elements of a list in order of first occurrence. *)
Fixpoint first_seen (l : list string) : list string :=
  match l with
  | [] => []
  | x :: r => x :: filter (fun y => y <> x) (first_seen r)
  end.

(** The property keys of a list of identifiers, [None] when one of them
    cannot be made. *)
Fixpoint slot_keys (apps : list json) : option (list string) :=
  match apps with
  | [] => Some []
  | v :: rest =>
      match ToPropertyKey v, slot_keys rest with
      | Some key, Some keys => Some (key :: keys)
      | _, _ => None
      end
  end.

(** The application-usage sub-record of a card, read from the payload
    itself and not through the functions of the script: the slots of the
    object under [appSites] in the metadata, none when the metadata is
    absent, empty or no JSON text, or holds no such object. *)
Definition usage_record (card : Card) : list (string * json) :=
  match metadata card with
  | Some text =>
      if isEmpty text then []
      else
        match JSON_parse text with
        | inr (JObj fields) =>
            match assoc "appSites" fields with
            | Some (JObj slots) => slots
            | _ => []
            end
        | _ => []
        end
  | None => []
  end.

(** The identifier in a named slot of a card, when it is present and
    non-empty; a value that is no text is present when it is truthy. *)
Definition slot_identifier (card : Card) (slot : string) : list json :=
  match assoc slot (usage_record card) with
  | Some v => if truthy v then [v] else []
  | None => []
  end.

(** Up to two identifiers: the primary one, then the secondary one. *)
Definition card_identifiers (card : Card) : list json :=
  slot_identifier card "primary" ++ slot_identifier card "secondary".

(** The sessions of a list of cards as the specification words them:
    one for each identifier of each card, with the duration of the card,
    in the order of the cards, the primary slot before the secondary
    one.  [None] when an identifier has no text as a property key. *)
Fixpoint usage_events (cards : list Card) : option (list (string * Z)) :=
  match cards with
  | [] => Some []
  | card :: rest =>
      match slot_keys (card_identifiers card), usage_events rest with
      | Some keys, Some events =>
          Some (map (fun key =>
                       (key, calculateDuration (start_ts card) (end_ts card)))
                    keys ++ events)
      | _, _ => None
      end
  end.

(** The sessions that count: those of the identifiers that are no name
    of a property every object inherits. *)
Definition counted_events (events : list (string * Z))
  : list (string * Z) :=
  filter (fun e => inherited (fst e) = false) events.

Definition sessions_of (name : string) (events : list (string * Z)) : Z :=
  Z.of_nat (length (filter (fun e => fst e = name) events)).

Definition minutes_of (name : string) (events : list (string * Z)) : Z :=
  foldr Z.add 0 (map snd (filter (fun e => fst e = name) events)).

(** The applications in order of first appearance, each with the number
    of its sessions and the sum of their durations. *)
Definition usage_table (events : list (string * Z)) : list (string * Stats) :=
  map (fun name =>
         (name, mkStats (sessions_of name events) (minutes_of name events)))
      (first_seen (map fst events)).


(** A card with its metadata column empty. *)
Definition without_metadata (card : Card) : Card :=
  {| id := id card; batch_id := batch_id card;
     start := start card; end_ := end_ card;
     start_ts := start_ts card; end_ts := end_ts card;
     day := day card;
     title := title card; summary := summary card;
     detailed_summary := detailed_summary card;
     category := category card; subcategory := subcategory card;
     metadata := None; video_summary_url := video_summary_url card |}.

(** The world after one reading of the clock, and after a note is
    written. *)
Definition advance (w : World) : World :=
  mkWorld (w_clock w) (S (w_reads w)) (w_files w) (w_write_ok w).

Definition written (w : World) (filePath content : string) : World :=
  mkWorld (w_clock w) (w_reads w)
    (<[filePath := mkFile content
                     match w_files w !! filePath with
                     | Some f => f_readable f
                     | None => true
                     end]> (w_files w))
    (w_write_ok w).

(** The world after the clock has been read up to the reading [n]. *)
Definition at_reading (w : World) (n : nat) : World :=
  mkWorld (w_clock w) n (w_files w) (w_write_ok w).

(** The path of the note of a day. *)
Definition note_path (directory dayString : string) : string :=
  path_join directory (generateFilename dayString).

(** Every character of a text, and its first character, pass a test. *)
Definition string_forall (p : ascii -> bool) (s : string) : bool :=
  forallb p (string_to_list s).

Definition head_is (p : ascii -> bool) (s : string) : bool :=
  match s with
  | String c _ => p c
  | EmptyString => false
  end.

(** No occurrence of [key] in [s] starts within the first [n]
    characters. *)
Fixpoint absent_before (key : string) (n : nat) (s : string) : bool :=
  match n with
  | O => true
  | S n' =>
      negb (String.prefix key s)
      && match s with
         | String _ r => absent_before key n' r
         | EmptyString => true
         end
  end.

(** What [getExistingCreatedAt] finds in a file. *)
Definition recorded_created_at (file : option FileEntry) : option string :=
  match file with
  | Some f =>
      if f_readable f then trim <$> match_created_at (f_content f) else None
  | None => None
  end.

(** ** Sample data

    A clock that starts at 2024-12-20T02:00:00.000Z and advances by a
    millisecond at each reading, in a zone at UTC; cards whose metadata
    names applications; a note of the day 2024-12-19. *)

Definition sample_now : Z := 1734660000000.

Definition sample_clock (n : nat) : Z := sample_now + Z.of_nat n.

Definition double_quoted (s : string) : string :=
  String QUOTATION_MARK s +:+ String QUOTATION_MARK EmptyString.

Definition single_quoted (s : string) : string :=
  String APOSTROPHE s +:+ String APOSTROPHE EmptyString.

(** The JSON text and the value of a metadata payload with the two
    application slots. *)
Definition slots_text (slots : list (string * string)) : string :=
  fold_right (fun '(k, v) r =>
                double_quoted k +:+ ":" +:+ double_quoted v +:+
                (if isEmpty r then r else "," +:+ r))
             EmptyString slots.

Definition metadata_text (slots : list (string * string)) : string :=
  "{" +:+ double_quoted "appSites" +:+ ":{" +:+ slots_text slots +:+ "}}".

Definition metadata_value (slots : list (string * string)) : json :=
  JObj [("appSites"%string, JObj (map (fun '(k, v) => (k, JStr v)) slots))].

Definition sample_payloads : list (list (string * string)) :=
  [ [("primary", "A")];
    [("primary", "A"); ("secondary", "B")];
    [("primary", "B"); ("secondary", "B")];
    [("primary", "2048")];
    [("primary", "1")];
    [("primary", "constructor"); ("secondary", "constructor")];
    [("primary", ""); ("secondary", "")] ]%string.

(** [JSON.parse] on the sample payloads and on the text [null]; any other
    text is taken not to be JSON. *)
Definition sample_JSON_parse (text : string) : string + json :=
  if bool_decide (text = "null"%string) then inr JNull
  else
    match list_find (fun slots => metadata_text slots = text)
                    sample_payloads with
    | Some (_, slots) => inr (metadata_value slots)
    | None => inl ("Unexpected token in JSON at position 0"%string)
    end.

(** [ToPropertyKey] on strings; the samples hold no other value in a
    slot. *)
Definition sample_ToPropertyKey (v : json) : option string :=
  match v with
  | JStr s => Some s
  | _ => None
  end.

Definition yaml_list (items : list string) : string :=
  fold_right (fun item r => "  - " +:+ item +:+ nl +:+ r) EmptyString items.

(** The front matter as js-yaml lays it out. *)
Definition sample_yaml_dump (fm : Frontmatter) : string :=
  "dayflow_day: " +:+ single_quoted (dayflow_day fm) +:+ nl +:+
  "day_boundary: " +:+ day_boundary fm +:+ nl +:+
  "total_cards: " +:+ decimal (total_cards fm) +:+ nl +:+
  "total_minutes: " +:+ decimal (total_minutes fm) +:+ nl +:+
  "categories:" +:+ nl +:+ yaml_list (categories fm) +:+
  "has_journal: " +:+ (if has_journal fm then "true" else "false") +:+ nl +:+
  "journal_status: " +:+ default "null"%string (journal_status fm) +:+ nl +:+
  "created_at: " +:+ single_quoted (created_at fm) +:+ nl +:+
  "updated_at: " +:+ single_quoted (updated_at fm) +:+ nl +:+
  "tags:" +:+ nl +:+ yaml_list (tags fm).

Definition sample_renderSections (dayString : string) (cards : list Card)
  (journal : option Journal) : string + string :=
  inr ("# Dayflow: " +:+ dayString +:+ nl).

(** A card of [minutes] minutes with a category and a metadata text. *)
Definition sample_card (n minutes : Z) (cat : string)
  (meta : option string) : Card :=
  {| id := n; batch_id := 1;
     start := "9:00 AM"; end_ := "10:00 AM";
     start_ts := 1734598800 + n * 7200;
     end_ts := 1734598800 + n * 7200 + minutes * 60;
     day := "2024-12-19";
     title := Some "Writing"%string; summary := None;
     detailed_summary := None;
     category := Some cat; subcategory := None;
     metadata := meta; video_summary_url := None |}.

Definition card_A30 : Card :=
  sample_card 0 30 "Work" (Some (metadata_text [("primary", "A")]%string)).

Definition card_A45 : Card :=
  sample_card 1 45 "Work" (Some (metadata_text [("primary", "A")]%string)).

Definition card_2048 : Card :=
  sample_card 2 10 "Play" (Some (metadata_text [("primary", "2048")]%string)).


Definition card_BB : Card :=
  sample_card 4 20 "Work"
    (Some (metadata_text [("primary", "B"); ("secondary", "B")]%string)).

Definition card_constructor : Card :=
  sample_card 5 20 "Work"
    (Some (metadata_text
             [("primary", "constructor"); ("secondary", "constructor")]%string)).

Definition card_blank : Card :=
  sample_card 6 20 "Work"
    (Some (metadata_text [("primary", ""); ("secondary", "")]%string)).

Definition card_broken : Card :=
  sample_card 7 15 "Work" (Some "{not json"%string).

Definition card_bare : Card := sample_card 8 15 "Work" None.

Definition sample_db (cards : list Card) (journal : option Journal)
  : Database :=
  {| timeline_cards := fun _ _ => inr cards;
     journal_entries := fun _ => inr journal |}.

Definition sample_dir : string := "/notes".

Definition sample_path : string :=
  path_join sample_dir (generateFilename "2024-12-19").

(** The note of 2024-12-19 as it was first written. *)
Definition sample_note : string :=
  "---" +:+ nl +:+
  "dayflow_day: " +:+ single_quoted "2024-12-19" +:+ nl +:+
  "created_at: " +:+ single_quoted "2024-12-19T21:30:00.000Z" +:+ nl +:+
  "updated_at: " +:+ single_quoted "2024-12-19T21:30:00.000Z" +:+ nl +:+
  "---" +:+ nl.

Definition sample_world (files : gmap string FileEntry) : World :=
  mkWorld sample_clock 0 files (fun _ => true).

(** A clock that reads 02:00 three times and later 05:00, when the day
    2024-12-19 is complete. *)
Definition late_clock (n : nat) : Z :=
  if (n <? 3)%nat then sample_now + Z.of_nat n else sample_now + 3 * msPerHour.

Definition late_world (files : gmap string FileEntry) : World :=
  mkWorld late_clock 0 files (fun _ => true).

(** A file system that refuses every write. *)
Definition readonly_world (files : gmap string FileEntry) : World :=
  mkWorld sample_clock 0 files (fun _ => false).

(** A database whose timeline query fails. *)
Definition broken_db : Database :=
  {| timeline_cards := fun _ _ => inl "database disk image is malformed"%string;
     journal_entries := fun _ => inr None |}.

Definition sample_journal : Journal :=
  {| intentions := Some "Write the report"%string;
     notes := None; goals := Some EmptyString;
     reflections := None; journal_summary := None;
     status := Some "draft"%string |}.

(** * Properties *)

#[local] Set Default Proof Using "Type".

(** Puts aside the parameters that a goal does not mention, so that
    proof search does not pick them up. *)
Ltac forget_run_parameters :=
  try clear yaml_dump; try clear renderSections;
  try clear OUTPUT_DIR; try clear FORCE; try clear INCLUDE_DELETED;
  try clear DAYS; try clear tzOffset.

Ltac forget_parameters :=
  try clear ToPropertyKey_string; try clear ToPropertyKey;
  try clear JSON_parse; forget_run_parameters.

Ltac forget_data_parameters :=
  try clear ToPropertyKey_string; try clear ToPropertyKey;
  try clear JSON_parse; try clear DAYS.

Ltac unfold_time :=
  unfold setHours, subDays, addDays, makeLocal, localDay,
    msPerDay, msPerHour, msPerMinute, msPerSecond in *.

(** Division by a constant, as equations for [lia]. *)
Ltac div_mod_lia := forget_parameters; Z.div_mod_to_equations; lia.

(** ** Rounding and totals *)

Lemma Math_round_quotient (d : Z) :
  Math_round (inject_Z d / inject_Z 60) = (d + 30) / 60.
Proof.
  unfold Math_round.
  rewrite Zdiv_Qdiv.
  apply Qfloor_comp.
  rewrite inject_Z_plus.
  field.
Qed.

Lemma calculateDuration_div (startTs endTs : Z) :
  calculateDuration startTs endTs = (endTs - startTs + 30) / 60.
Proof. apply Math_round_quotient. Qed.

Lemma fold_left_total (cards : list Card) (total : Z) :
  fold_left (fun total card =>
               total + calculateDuration (start_ts card) (end_ts card))
            cards total
  = total + foldr Z.add 0
              (map (fun card =>
                      calculateDuration (start_ts card) (end_ts card)) cards).
Proof.
  revert total.
  induction cards as [|card cards IH]; intros total; simpl.
  - lia.
  - rewrite IH. lia.
Qed.

Lemma calculateTotalMinutes_sum (cards : list Card) :
  calculateTotalMinutes cards
  = foldr Z.add 0
      (map (fun card => calculateDuration (start_ts card) (end_ts card))
           cards).
Proof. unfold calculateTotalMinutes. rewrite fold_left_total. lia. Qed.

(** C5.  The total is the sum over the cards of the duration of each
    card, and the duration of a card is its length in seconds divided by
    60 and rounded to the nearest integer, a half rounding up: it is the
    integer [n] with [n - 1/2 <= seconds / 60 < n + 1/2].  The rounding
    is done card by card: a card of 90 seconds counts 2 minutes, and two
    such cards count 4 minutes, not the 3 that 180 seconds make. *)
Theorem totalDuration_rounds_each_record :
  (forall cards,
     calculateTotalMinutes cards
     = foldr Z.add 0
         (map (fun card => calculateDuration (start_ts card) (end_ts card))
              cards))
  /\ (forall startTs endTs,
        let n := calculateDuration startTs endTs in
        60 * n - 30 <= endTs - startTs < 60 * n + 30)
  /\ calculateDuration 0 90 = 2
  /\ calculateDuration 0 90 + calculateDuration 90 180 = 4
  /\ calculateDuration 0 180 = 3.
Proof.
  split; [exact calculateTotalMinutes_sum|].
  split; [|repeat split; reflexivity].
  intros startTs endTs n. subst n.
  rewrite calculateDuration_div.
  pose proof (Z.div_mod (endTs - startTs + 30) 60 ltac:(lia)) as Hdm.
  pose proof (Z.mod_pos_bound (endTs - startTs + 30) 60 ltac:(lia)) as Hb.
  lia.
Qed.

(** C6.  The total does not depend on the order of the cards. *)
Theorem totalDuration_permutation_invariant (cards cards' : list Card) :
  Permutation cards cards' ->
  calculateTotalMinutes cards = calculateTotalMinutes cards'.
Proof.
  intros Hperm.
  rewrite !calculateTotalMinutes_sum.
  induction Hperm as [|card l l' _ IH|card card' l|l l' l'' _ IH1 _ IH2];
    simpl; lia.
Qed.

(** ** The day boundary *)

Lemma localDay_makeLocal_4AM (D : Z) : localDay (makeLocal D 4 0 0 0) = D.
Proof. unfold_time. div_mod_lia. Qed.

Lemma makeLocal_4AM_time_of_day (D : Z) :
  (makeLocal D 4 0 0 0 + tzOffset) mod msPerDay = 4 * msPerHour.
Proof. unfold_time. div_mod_lia. Qed.

Lemma getDayInfo_before_boundary (date : Z) :
  date < makeLocal (localDay date) 4 0 0 0 ->
  getDayInfoFor4AMBoundary date
  = {| dayString := format_date (localDay date - 1);
       startOfDay := makeLocal (localDay date - 1) 4 0 0 0;
       endOfDay := makeLocal (localDay date) 4 0 0 0 |}.
Proof.
  intros Hcmp.
  unfold getDayInfoFor4AMBoundary, format_yyyy_MM_dd.
  change (setHours date 4 0 0 0) with (makeLocal (localDay date) 4 0 0 0).
  replace (date <? makeLocal (localDay date) 4 0 0 0) with true
    by (symmetry; apply Z.ltb_lt; lia).
  replace (subDays (makeLocal (localDay date) 4 0 0 0) 1)
    with (makeLocal (localDay date - 1) 4 0 0 0)
    by (unfold_time; lia).
  rewrite localDay_makeLocal_4AM. reflexivity.
Qed.

Lemma getDayInfo_from_boundary (date : Z) :
  makeLocal (localDay date) 4 0 0 0 <= date ->
  getDayInfoFor4AMBoundary date
  = {| dayString := format_date (localDay date);
       startOfDay := makeLocal (localDay date) 4 0 0 0;
       endOfDay := makeLocal (localDay date + 1) 4 0 0 0 |}.
Proof.
  intros Hcmp.
  unfold getDayInfoFor4AMBoundary, format_yyyy_MM_dd.
  change (setHours date 4 0 0 0) with (makeLocal (localDay date) 4 0 0 0).
  replace (date <? makeLocal (localDay date) 4 0 0 0) with false
    by (symmetry; apply Z.ltb_ge; lia).
  replace (addDays (makeLocal (localDay date) 4 0 0 0) 1)
    with (makeLocal (localDay date + 1) 4 0 0 0)
    by (unfold_time; lia).
  rewrite localDay_makeLocal_4AM. reflexivity.
Qed.

(** C2.  With [D] the calendar date of the instant and the boundary the
    instant of 04:00:00.000 on [D]: before the boundary the logical day
    is [D - 1] and runs from the boundary of [D - 1] to the boundary of
    [D]; at the boundary and after it the logical day is [D] and runs
    from the boundary of [D] to the boundary of [D + 1]. *)
Theorem resolveDay_at_boundary (date : Z) :
  let D := localDay date in
  let boundary := makeLocal D 4 0 0 0 in
  (localDay boundary = D /\ (boundary + tzOffset) mod msPerDay = 4 * msPerHour)
  /\ (date < boundary ->
      getDayInfoFor4AMBoundary date
      = {| dayString := format_date (D - 1);
           startOfDay := makeLocal (D - 1) 4 0 0 0;
           endOfDay := boundary |})
  /\ (boundary <= date ->
      getDayInfoFor4AMBoundary date
      = {| dayString := format_date D;
           startOfDay := boundary;
           endOfDay := makeLocal (D + 1) 4 0 0 0 |}).
Proof.
  intros D boundary.
  split; [split; [apply localDay_makeLocal_4AM
                 |apply makeLocal_4AM_time_of_day]|].
  split; [apply getDayInfo_before_boundary|apply getDayInfo_from_boundary].
Qed.

(** The logical day of an instant is the calendar date four hours
    earlier. *)
Lemma dayString_logical_day (date : Z) :
  dayString (getDayInfoFor4AMBoundary date)
  = format_date (localDay (date - 4 * msPerHour)).
Proof.
  destruct (Z.lt_ge_cases date (makeLocal (localDay date) 4 0 0 0)) as [H|H].
  - rewrite (getDayInfo_before_boundary date H). simpl. f_equal.
    revert H. unfold_time. intros H. div_mod_lia.
  - rewrite (getDayInfo_from_boundary date H). simpl. f_equal.
    revert H. unfold_time. intros H. div_mod_lia.
Qed.

Lemma localDay_subDays (date i : Z) :
  localDay (subDays date i - 4 * msPerHour)
  = localDay (date - 4 * msPerHour) - i.
Proof. unfold_time. div_mod_lia. Qed.


(** ** The calendar: a date text is read back as its date *)

Lemma forall_from_spec (check : Z -> bool) (n : nat) (z k : Z) :
  forall_from check n z = true -> z <= k < z + Z.of_nat n -> check k = true.
Proof.
  revert z. induction n as [|n IH]; intros z Hall Hk; [lia|].
  simpl in Hall. apply andb_true_iff in Hall as [Hz Hall].
  destruct (Z.eq_dec k z) as [->|Hne]; [exact Hz|].
  apply (IH (z + 1)); [exact Hall|lia].
Qed.

Lemma digits4_ok : forall_from (digits_ok 4) (Z.to_nat 10000) 0 = true.
Proof. vm_cast_no_check (eq_refl true). Qed.

Lemma digits2_ok : forall_from (digits_ok 2) (Z.to_nat 100) 0 = true.
Proof. vm_cast_no_check (eq_refl true). Qed.

(** The day number of the date of a day number is that day number. *)
Lemma civil_round_trip (z : Z) :
  let '(y, m, d) := civil_from_days z in
  days_from_civil y m d = z /\ 1 <= m <= 12 /\ 1 <= d <= 31.
Proof.
  forget_parameters.
  unfold civil_from_days, days_from_civil.
  set (z' := z + 719468).
  set (era := z' / 146097).
  set (doe := z' - era * 146097).
  set (yoe := (doe - doe / 1460 + doe / 36524 - doe / 146096) / 365).
  set (doy := doe - (365 * yoe + yoe / 4 - yoe / 100)).
  set (mp := (5 * doy + 2) / 153).
  assert (Hdoe : 0 <= doe < 146097)
    by (subst doe era; Z.div_mod_to_equations; lia).
  assert (Hyoe : 0 <= yoe < 400 /\ 0 <= doy /\ doy < 366).
  { subst doy yoe. clearbody doe. clear -Hdoe.
    Z.div_mod_to_equations. lia. }
  assert (Hmp : 0 <= mp <= 11)
    by (subst mp; clearbody doy; clear -Hyoe; Z.div_mod_to_equations; lia).
  assert (Hera : (yoe + era * 400) / 400 = era)
    by (clearbody era; clear -Hyoe; Z.div_mod_to_equations; lia).
  assert (Hz : z = era * 146097 + doe - 719468) by (subst doe z'; lia).
  clearbody yoe. clearbody doe. clearbody era. clear z'.
  destruct (mp <? 10) eqn:Emp; [apply Z.ltb_lt in Emp|apply Z.ltb_ge in Emp].
  - replace (mp + 3 <=? 2) with false by (symmetry; apply Z.leb_gt; lia).
    rewrite Hera. subst mp doy.
    Z.div_mod_to_equations. lia.
  - replace (mp - 9 <=? 2) with true by (symmetry; apply Z.leb_le; lia).
    replace (yoe + era * 400 + 1 - 1) with (yoe + era * 400) by lia.
    rewrite Hera. subst mp doy.
    Z.div_mod_to_equations. lia.
Qed.

Lemma append_assoc (a b c : string) : (a +:+ b) +:+ c = a +:+ (b +:+ c).
Proof.
  induction a as [|x a IH]; [reflexivity|].
  change (String x ((a +:+ b) +:+ c) = String x (a +:+ (b +:+ c))).
  by rewrite IH.
Qed.

Lemma read_digits_append (n : nat) (acc v : Z) (s rest : string) :
  read_digits n acc s = Some (v, EmptyString) ->
  read_digits n acc (s +:+ rest) = Some (v, rest).
Proof.
  revert acc s.
  induction n as [|n IH]; intros acc s; simpl.
  - intros [= -> ->]. reflexivity.
  - destruct s as [|c s]; [discriminate|]. simpl.
    destruct (is_digit c); [apply IH|discriminate].
Qed.

Lemma read_padded (width : nat) (bound : nat) (n : Z) :
  forall_from (digits_ok width) bound 0 = true ->
  0 <= n < Z.of_nat bound ->
  read_digits width 0 (addLeadingZeros n width) = Some (n, EmptyString).
Proof.
  intros Hall Hn.
  pose proof (forall_from_spec _ _ 0 n Hall ltac:(lia)) as Hok.
  unfold digits_ok in Hok.
  destruct (read_digits width 0 (addLeadingZeros n width))
    as [[v r]|]; [|discriminate].
  apply andb_true_iff in Hok as [Hv Hr].
  apply Z.eqb_eq in Hv as ->. by destruct r.
Qed.

Lemma append_cons (c : ascii) (s t : string) :
  String c s +:+ t = String c (s +:+ t).
Proof. reflexivity. Qed.

Lemma append_nil (t : string) : EmptyString +:+ t = t.
Proof. reflexivity. Qed.

Lemma expect_head (c : ascii) (s : string) : expect c (String c s) = Some s.
Proof. unfold expect, char_eqb. by rewrite Ascii.eqb_refl. Qed.

(** Reading a date and the time 04:00:00 from texts of four, two and
    two digits. *)
Lemma parse_date_at_4AM (ys ms ds : string) (y m d : Z) :
  read_digits 4 0 ys = Some (y, EmptyString) ->
  read_digits 2 0 ms = Some (m, EmptyString) ->
  read_digits 2 0 ds = Some (d, EmptyString) ->
  parseLocalDateTime
    ((ys +:+ "-" +:+ ms +:+ "-" +:+ ds) +:+ "T04:00:00")
  = if (1 <=? m) && (m <=? 12) && (1 <=? d) && (d <=? 31)
    then Some (makeLocal (days_from_civil y m d) 4 0 0 0)
    else None.
Proof.
  intros Hy Hm Hd. unfold parseLocalDateTime.
  rewrite !append_assoc.
  rewrite (read_digits_append _ _ _ _ _ Hy). cbn [mbind option_bind].
  rewrite append_cons, append_nil, expect_head. cbn [mbind option_bind].
  rewrite (read_digits_append _ _ _ _ _ Hm). cbn [mbind option_bind].
  rewrite append_cons, append_nil, expect_head. cbn [mbind option_bind].
  rewrite (read_digits_append _ _ _ _ _ Hd). cbn [mbind option_bind].
  simpl.
  by destruct ((1 <=? m) && (m <=? 12) && (1 <=? d) && (d <=? 31)).
Qed.

(** The text of a date of the years 1 to 9999, followed by the time
    04:00:00, is read as the instant of 04:00 local time on that
    date. *)
Lemma parse_formatted_date (D : Z) :
  1 <= yearOf D <= 9999 ->
  parseLocalDateTime (format_date D +:+ "T04:00:00")
  = Some (makeLocal D 4 0 0 0).
Proof.
  unfold yearOf, format_date.
  pose proof (civil_round_trip D) as Hcivil.
  destruct (civil_from_days D) as [[y m] d]. cbn [fst].
  destruct Hcivil as (Hday & Hm & Hd). intros Hy.
  replace (0 <? y) with true by (symmetry; apply Z.ltb_lt; lia).
  rewrite (parse_date_at_4AM _ _ _ y m d).
  - replace (1 <=? m) with true by (symmetry; apply Z.leb_le; lia).
    replace (m <=? 12) with true by (symmetry; apply Z.leb_le; lia).
    replace (1 <=? d) with true by (symmetry; apply Z.leb_le; lia).
    replace (d <=? 31) with true by (symmetry; apply Z.leb_le; lia).
    simpl. by rewrite Hday.
  - apply (read_padded 4 (Z.to_nat 10000)); [apply digits4_ok|lia].
  - apply (read_padded 2 (Z.to_nat 100)); [apply digits2_ok|lia].
  - apply (read_padded 2 (Z.to_nat 100)); [apply digits2_ok|lia].
Qed.

(** A day is complete from 04:00 of the next calendar date on. *)
Lemma isDayComplete_next_boundary (D : Z) (w : World) :
  1 <= yearOf D <= 9999 ->
  isDayComplete (format_date D) w
  = (Val (makeLocal (D + 1) 4 0 0 0 <=? w_clock w (w_reads w)), advance w).
Proof.
  intros Hyear. unfold isDayComplete.
  rewrite (parse_formatted_date D Hyear). simpl.
  unfold bind, newDate, ret, advance. repeat f_equal.
  unfold_time. lia.
Qed.

(** ** The list of days *)

Lemma filter_all {A} (P : A -> Prop) `{forall x, Decision (P x)} (l : list A) :
  Forall P l -> filter P l = l.
Proof.
  induction 1 as [|x l Hx _ IH]; [reflexivity|].
  rewrite filter_cons_True by assumption. by rewrite IH.
Qed.

Lemma filter_map_commute {A B} (f : A -> B) (P : B -> Prop)
  `{forall y, Decision (P y)} (l : list A) :
  filter P (map f l) = map f (filter (fun x => P (f x)) l).
Proof.
  induction l as [|x l IH]; [reflexivity|]. simpl.
  rewrite !filter_cons. destruct (decide (P (f x))); simpl; by rewrite IH.
Qed.

Lemma StronglySorted_filter {A} (R : A -> A -> Prop) (P : A -> Prop)
  `{forall x, Decision (P x)} (l : list A) :
  StronglySorted R l -> StronglySorted R (filter P l).
Proof.
  induction 1 as [|x l _ IH Hx]; [constructor|].
  rewrite filter_cons. destruct (decide (P x)); [|assumption].
  constructor; [assumption|].
  apply Forall_forall. intros y Hy.
  apply list_elem_of_filter in Hy as [_ Hy].
  rewrite Forall_forall in Hx. by apply Hx.
Qed.

Lemma elem_of_first_seen (l : list string) (x : string) :
  x ∈ first_seen l <-> x ∈ l.
Proof.
  forget_parameters.
  induction l as [|y l IH]; simpl; [reflexivity|].
  rewrite !elem_of_cons, list_elem_of_filter, IH.
  destruct (decide (x = y)); naive_solver.
Qed.

Lemma NoDup_first_seen (l : list string) : NoDup (first_seen l).
Proof.
  forget_parameters.
  induction l as [|x l IH]; simpl; constructor.
  - rewrite list_elem_of_filter. naive_solver.
  - by apply NoDup_filter.
Qed.

Lemma first_seen_NoDup (l : list string) : NoDup l -> first_seen l = l.
Proof.
  induction 1 as [|x l Hx _ IH]; simpl; [reflexivity|].
  rewrite IH. f_equal. apply filter_all.
  apply Forall_forall. intros y Hy ->. contradiction.
Qed.

Lemma length_first_seen (l : list string) :
  (length (first_seen l) <= length l)%nat.
Proof.
  induction l as [|x l IH]; simpl; [lia|].
  pose proof (length_filter (fun y => y <> x) (first_seen l)). lia.
Qed.

Lemma fold_left_add_new (l acc : list string) :
  fold_left (fun acc x => if array_includes acc x then acc else acc ++ [x])
            l acc
  = acc ++ filter (fun y => y ∉ acc) (first_seen l).
Proof.
  forget_parameters.
  revert acc.
  induction l as [|x l IH]; intros acc; simpl.
  - by rewrite filter_nil, app_nil_r.
  - rewrite IH. unfold array_includes.
    destruct (bool_decide_reflect (x ∈ acc)) as [Hin|Hnin].
    + rewrite filter_cons_False by tauto.
      f_equal. symmetry. apply list_filter_filter_l.
      intros y Hy ->. contradiction.
    + rewrite filter_cons_True by assumption.
      rewrite <- app_assoc. simpl. do 2 f_equal.
      rewrite list_filter_filter. apply list_filter_iff.
      intros y. rewrite elem_of_app, list_elem_of_singleton. tauto.
Qed.

Lemma Set_of_first_seen (l : list string) : Set_of l = first_seen l.
Proof.
  unfold Set_of. rewrite fold_left_add_new. simpl.
  apply filter_all, Forall_forall. intros y _. apply not_elem_of_nil.
Qed.

Lemma dateRangeLoop_fold (today i : Z) (n : nat) (dates : list string) :
  dateRangeLoop today i n dates
  = fold_left (fun acc x => if array_includes acc x then acc else acc ++ [x])
      (map (fun k => dayString (getDayInfoFor4AMBoundary
                                  (subDays today (i + Z.of_nat k))))
           (seq 0 n))
      dates.
Proof.
  revert i dates.
  induction n as [|n IH]; intros i dates; [reflexivity|].
  cbn [dateRangeLoop seq map fold_left]. rewrite IH.
  rewrite <- seq_shift, map_map.
  replace (i + Z.of_nat 0) with i by lia.
  f_equal.
  - apply map_ext. intros k. do 3 f_equal. lia.
  - by destruct (array_includes dates _).
Qed.

Lemma first_seen_map_sorted (f : Z -> string) (R : Z -> Z -> Prop)
  (l : list Z) :
  StronglySorted R l ->
  exists l', first_seen (map f l) = map f l'
             /\ StronglySorted R l' /\ (forall x, x ∈ l' -> x ∈ l).
Proof.
  forget_parameters.
  induction 1 as [|x l _ (l' & Heq & Hsorted & Hsub) Hx].
  - exists []. repeat split; [constructor|auto].
  - exists (x :: filter (fun y => f y <> f x) l').
    simpl. rewrite Heq, filter_map_commute.
    split; [reflexivity|]. split.
    + constructor; [by apply StronglySorted_filter|].
      apply Forall_forall. intros y Hy.
      apply list_elem_of_filter in Hy as [_ Hy].
      rewrite Forall_forall in Hx. apply Hx, Hsub, Hy.
    + intros y. rewrite !elem_of_cons, list_elem_of_filter. naive_solver.
Qed.

Lemma days_before_sorted (L : Z) (i : Z) (n : nat) :
  StronglySorted (fun a b => b < a)
    (map (fun k => L - (i + Z.of_nat k)) (seq 0 n)).
Proof.
  revert i.
  induction n as [|n IH]; intros i; [constructor|].
  cbn [seq map]. rewrite <- seq_shift, map_map.
  constructor.
  - rewrite (map_ext _ (fun k => L - ((i + 1) + Z.of_nat k)))
      by (intros k; lia).
    apply IH.
  - apply Forall_forall. intros y Hy.
    apply list_elem_of_In, in_map_iff in Hy as (k & <- & _). lia.
Qed.

(** C3.  For a positive count, the list of days is the first-seen-order
    deduplication of the logical days of the reference instant minus
    0, 1, ..., count - 1 whole days.  It has no duplicates and at most
    count entries, it starts with the logical day of the reference
    instant, and it lists the texts of strictly decreasing calendar
    dates: newest first. *)
Theorem listDays_first_seen_newest_first (days : Z) (w : World) :
  0 < days ->
  let today := w_clock w (w_reads w) in
  let resolved :=
    map (fun i => dayString (getDayInfoFor4AMBoundary
                               (subDays today (Z.of_nat i))))
        (seq 0 (Z.to_nat days)) in
  exists dates,
    fst (calculateDateRange days w) = Val dates
    /\ dates = first_seen resolved
    /\ NoDup dates
    /\ (0 < length dates <= Z.to_nat days)%nat
    /\ head dates = Some (dayString (getDayInfoFor4AMBoundary today))
    /\ exists ds,
         dates = map format_date ds
         /\ StronglySorted (fun a b => b < a) ds.
Proof.
  intros Hpos today resolved.
  exists (first_seen resolved).
  assert (Hrun : fst (calculateDateRange days w) = Val (first_seen resolved)).
  { unfold calculateDateRange, bind, newDate, ret. simpl. f_equal.
    rewrite Set_of_first_seen, dateRangeLoop_fold, fold_left_add_new.
    simpl. rewrite filter_all
      by (apply Forall_forall; intros y _; apply not_elem_of_nil).
    rewrite first_seen_NoDup by apply NoDup_first_seen.
    reflexivity. }
  split; [exact Hrun|]. split; [reflexivity|].
  split; [apply NoDup_first_seen|].
  assert (Hlen : length resolved = Z.to_nat days)
    by (subst resolved; by rewrite length_map, length_seq).
  assert (Hhead : head (first_seen resolved)
                  = Some (dayString (getDayInfoFor4AMBoundary today))).
  { subst resolved. destruct (Z.to_nat days) as [|n] eqn:Hn; [lia|].
    simpl. do 3 f_equal. unfold subDays, addDays. simpl. lia. }
  split.
  { pose proof (length_first_seen resolved).
    destruct (first_seen resolved); [discriminate|simpl in *; lia]. }
  split; [exact Hhead|].
  set (L := localDay (today - 4 * msPerHour)).
  assert (Hres : resolved
                 = map format_date
                     (map (fun k => L - (0 + Z.of_nat k))
                          (seq 0 (Z.to_nat days)))).
  { subst resolved. rewrite map_map. apply map_ext. intros k.
    rewrite dayString_logical_day, localDay_subDays. reflexivity. }
  destruct (first_seen_map_sorted format_date (fun a b => b < a) _
              (days_before_sorted L 0 (Z.to_nat days)))
    as (ds & Heq & Hsorted & _).
  exists ds. split; [|exact Hsorted].
  rewrite Hres. exact Heq.
Qed.


(** ** Application usage *)

Lemma first_seen_snoc (l : list string) (x : string) :
  first_seen (l ++ [x])
  = if bool_decide (x ∈ l) then first_seen l else first_seen l ++ [x].
Proof.
  forget_parameters.
  induction l as [|y l IH]; cbn [app first_seen].
  - rewrite bool_decide_eq_false_2 by apply not_elem_of_nil. reflexivity.
  - rewrite IH.
    destruct (bool_decide_reflect (x ∈ l)) as [Hin|Hnin].
    + rewrite bool_decide_eq_true_2 by (by right). reflexivity.
    + destruct (decide (x = y)) as [->|Hne].
      * rewrite bool_decide_eq_true_2 by (by left).
        rewrite filter_app, filter_cons_False by tauto.
        by rewrite filter_nil, app_nil_r.
      * rewrite bool_decide_eq_false_2
          by (rewrite elem_of_cons; tauto).
        rewrite filter_app, filter_cons_True by assumption.
        reflexivity.
Qed.

Lemma assoc_map_key {A} (g : string -> A) (names : list string)
  (name : string) :
  assoc name (map (fun n => (n, g n)) names)
  = if bool_decide (name ∈ names) then Some (g name) else None.
Proof.
  induction names as [|n names IH]; cbn [map assoc].
  - rewrite bool_decide_eq_false_2 by apply not_elem_of_nil. reflexivity.
  - destruct (bool_decide_reflect (n = name)) as [->|Hne].
    + rewrite bool_decide_eq_true_2 by (by left). reflexivity.
    + rewrite IH.
      destruct (bool_decide_reflect (name ∈ names)) as [Hin|Hnin].
      * rewrite bool_decide_eq_true_2 by (by right). reflexivity.
      * rewrite bool_decide_eq_false_2
          by (rewrite elem_of_cons; intros [?|?]; congruence).
        reflexivity.
Qed.

Lemma update_own_map (g g' : string -> Stats) (f : Stats -> Stats)
  (names : list string) (name : string) :
  NoDup names ->
  g' name = f (g name) ->
  (forall n, n <> name -> g' n = g n) ->
  update_own name f (map (fun n => (n, g n)) names)
  = map (fun n => (n, g' n)) names.
Proof.
  intros Hnd Hname Hother.
  induction Hnd as [|n names Hn Hnd IH]; simpl; [reflexivity|].
  destruct (bool_decide_reflect (n = name)) as [->|Hne].
  - rewrite Hname. f_equal. apply map_ext_in. intros m Hm.
    rewrite Hother; [reflexivity|].
    intros ->. apply Hn. by apply list_elem_of_In.
  - rewrite IH, (Hother n Hne). reflexivity.
Qed.

Lemma sessions_of_app (name : string) (e1 e2 : list (string * Z)) :
  sessions_of name (e1 ++ e2) = sessions_of name e1 + sessions_of name e2.
Proof. unfold sessions_of. rewrite filter_app, length_app. lia. Qed.

Lemma foldr_add_app (l1 l2 : list Z) :
  foldr Z.add 0 (l1 ++ l2) = foldr Z.add 0 l1 + foldr Z.add 0 l2.
Proof. induction l1 as [|x l1 IH]; simpl; lia. Qed.

Lemma minutes_of_app (name : string) (e1 e2 : list (string * Z)) :
  minutes_of name (e1 ++ e2) = minutes_of name e1 + minutes_of name e2.
Proof. unfold minutes_of. by rewrite filter_app, map_app, foldr_add_app. Qed.

Lemma filter_name_absent (name : string) (events : list (string * Z)) :
  name ∉ map fst events -> filter (fun e => fst e = name) events = [].
Proof.
  intros Hnot.
  induction events as [|e events IH]; [reflexivity|].
  simpl in Hnot. rewrite not_elem_of_cons in Hnot. destruct Hnot as [Hne Hnot].
  rewrite filter_cons_False by congruence. by apply IH.
Qed.

Lemma stats_of_one (name other : string) (d : Z) :
  sessions_of name [(other, d)] = (if bool_decide (other = name) then 1 else 0)
  /\ minutes_of name [(other, d)] = (if bool_decide (other = name) then d else 0).
Proof.
  unfold sessions_of, minutes_of. rewrite filter_cons, filter_nil. simpl.
  destruct (bool_decide_reflect (other = name)) as [Heq|Hne].
  - rewrite decide_True by assumption. simpl. split; lia.
  - rewrite decide_False by assumption. simpl. split; lia.
Qed.

Lemma countApp_usage_table (events : list (string * Z)) (a : string) (d : Z) :
  inherited a = false ->
  countApp d (usage_table events) a = usage_table (events ++ [(a, d)]).
Proof.
  intros Hinh.
  unfold countApp, usage_table.
  rewrite assoc_map_key, map_app. simpl. rewrite first_seen_snoc.
  rewrite (bool_decide_ext _ (a ∈ map fst events))
    by apply elem_of_first_seen.
  destruct (stats_of_one a a d) as [Hs Hm].
  rewrite bool_decide_eq_true_2 in Hs, Hm by reflexivity.
  destruct (bool_decide_reflect (a ∈ map fst events)) as [Hin|Hnin].
  - apply update_own_map; [apply NoDup_first_seen| |].
    + simpl. rewrite sessions_of_app, minutes_of_app, Hs, Hm. reflexivity.
    + intros n Hn.
      destruct (stats_of_one n a d) as [Hs' Hm'].
      rewrite bool_decide_eq_false_2 in Hs', Hm' by congruence.
      rewrite sessions_of_app, minutes_of_app, Hs', Hm', !Z.add_0_r.
      reflexivity.
  - rewrite Hinh, map_app. simpl. f_equal.
    + apply map_ext_in. intros n Hn.
      assert (a <> n).
      { intros ->. apply Hnin, elem_of_first_seen. by apply list_elem_of_In. }
      destruct (stats_of_one n a d) as [Hs' Hm'].
      rewrite bool_decide_eq_false_2 in Hs', Hm' by assumption.
      rewrite sessions_of_app, minutes_of_app, Hs', Hm', !Z.add_0_r.
      reflexivity.
    + rewrite sessions_of_app, minutes_of_app, Hs, Hm.
      unfold sessions_of, minutes_of.
      rewrite filter_name_absent by assumption. reflexivity.
Qed.

Lemma fold_countApp_usage_table (events : list (string * Z)) :
  (forall e, e ∈ events -> inherited (fst e) = false) ->
  fold_left (fun o e => countApp (snd e) o (fst e)) events []
  = usage_table events.
Proof.
  forget_parameters.
  induction events as [|[a d] events IH] using rev_ind; intros Hinh.
  - reflexivity.
  - rewrite fold_left_app. simpl. rewrite IH.
    + apply countApp_usage_table.
      apply (Hinh (a, d)). rewrite elem_of_app, list_elem_of_singleton. tauto.
    + intros e He. apply Hinh. rewrite elem_of_app. tauto.
Qed.

(** The script reads the slots the specification names: the truthy
    values of the primary and the secondary slot, in that order. *)
Lemma card_identifiers_appSlots (card : Card) :
  card_identifiers card = appSlots (fst (parseMetadata (metadata card))).
Proof.
  unfold card_identifiers, slot_identifier, usage_record, appSlots,
    parseMetadata.
  destruct (metadata card) as [[|c text]|]; [reflexivity| |reflexivity].
  simpl.
  destruct (JSON_parse (String c text)) as [message|parsed]; [reflexivity|].
  destruct parsed as [|b|q|t|items|fields]; try reflexivity.
  simpl.
  destruct (assoc "appSites" fields) as [v|]; [|reflexivity].
  destruct v as [|b|q|t|items|slots]; simpl;
    try reflexivity;
    try (by destruct b);
    try (by destruct (negb _)).
  destruct (assoc "primary" slots) as [v1|],
           (assoc "secondary" slots) as [v2|];
    simpl; rewrite ?filter_cons, ?filter_nil;
    try destruct (truthy v1) eqn:H1; try destruct (truthy v2) eqn:H2;
    rewrite ?decide_True by congruence;
    rewrite ?decide_False by congruence;
    reflexivity.
Qed.

Lemma usage_events_cons (card : Card) (rest : list Card) :
  usage_events (card :: rest)
  = match slot_keys (appSlots (fst (parseMetadata (metadata card)))),
          usage_events rest with
    | Some keys, Some events =>
        Some (map (fun key =>
                     (key, calculateDuration (start_ts card) (end_ts card)))
                  keys ++ events)
    | _, _ => None
    end.
Proof. cbn [usage_events]. by rewrite card_identifiers_appSlots. Qed.

Lemma forEachApp_keys (d : Z) (apps : list json) (o : AppStats) :
  forEachApp d apps o
  = (fun keys =>
       fold_left (fun o e => countApp (snd e) o (fst e))
                 (map (fun key => (key, d)) keys) o)
    <$> slot_keys apps.
Proof.
  revert o.
  induction apps as [|v apps IH]; intros o; simpl; [reflexivity|].
  destruct (ToPropertyKey v) as [key|]; [|reflexivity].
  rewrite IH. by destruct (slot_keys apps).
Qed.

Lemma forEachCard_events (cards : list Card) (o : AppStats) :
  fst (forEachCard cards o)
  = (fun events => fold_left (fun o e => countApp (snd e) o (fst e)) events o)
    <$> usage_events cards.
Proof.
  revert o.
  induction cards as [|card cards IH]; intros o; [reflexivity|].
  rewrite usage_events_cons. simpl.
  destruct (parseMetadata (metadata card)) as [m warned]. simpl.
  rewrite forEachApp_keys.
  destruct (slot_keys (appSlots m)) as [keys|]; simpl; [|reflexivity].
  specialize (IH (fold_left (fun o e => countApp (snd e) o (fst e))
                            (map (fun key => (key, calculateDuration
                                                (start_ts card) (end_ts card)))
                                 keys) o)).
  destruct (forEachCard cards _) as [r warned']. simpl in *.
  rewrite IH. destruct (usage_events cards); simpl; [|reflexivity].
  by rewrite fold_left_app.
Qed.

Lemma aggregateAppUsage_events (cards : list Card) :
  fst (aggregateAppUsage cards)
  = (fun events =>
       map (fun e => mkAppUsage (fst e) (snd e))
           (sort_by_totalMinutes
              (Object_entries
                 (fold_left (fun o e => countApp (snd e) o (fst e))
                            events []))))
    <$> usage_events cards.
Proof.
  unfold aggregateAppUsage.
  pose proof (forEachCard_events cards []) as H.
  destruct (forEachCard cards []) as [r warned]. simpl in *.
  rewrite H. by destruct (usage_events cards).
Qed.

(** The sort is a stable sort into descending order of total minutes. *)
Lemma sort_insert_perm (e : string * Stats) (l : list (string * Stats)) :
  sort_insert e l ≡ₚ e :: l.
Proof.
  induction l as [|e' l IH]; simpl; [reflexivity|].
  destruct (_ <=? 0); [reflexivity|].
  rewrite IH. apply perm_swap.
Qed.

Lemma sort_by_totalMinutes_perm (l : list (string * Stats)) :
  sort_by_totalMinutes l ≡ₚ l.
Proof.
  induction l as [|e l IH]; simpl; [reflexivity|].
  rewrite sort_insert_perm. by rewrite IH.
Qed.






Lemma insert_index_perm {A} (n : Z) (e : string * A)
  (l : list (Z * (string * A))) :
  insert_index n e l ≡ₚ (n, e) :: l.
Proof.
  induction l as [|[m e'] l IH]; simpl; [reflexivity|].
  destruct (n <? m); [reflexivity|].
  rewrite IH. apply perm_swap.
Qed.

Lemma Object_entries_perm {A} (o : list (string * A)) : Object_entries o ≡ₚ o.
Proof.
  forget_parameters.
  unfold Object_entries.
  assert (Hindex :
    map snd (fold_right (fun e acc =>
                           match array_index (fst e) with
                           | Some n => insert_index n e acc
                           | None => acc
                           end) [] o)
    ≡ₚ filter (fun e => ~ array_index (fst e) = None) o).
  { induction o as [|e o IH]; simpl; [reflexivity|].
    rewrite filter_cons.
    destruct (array_index (fst e)) as [n|] eqn:Hidx.
    - rewrite decide_True by congruence.
      rewrite insert_index_perm. simpl. by rewrite IH.
    - rewrite decide_False by tauto. exact IH. }
  rewrite Hindex, Permutation_app_comm.
  apply filter_app_complement.
Qed.

Lemma usage_events_app (l1 l2 : list Card) :
  usage_events (l1 ++ l2)
  = match usage_events l1, usage_events l2 with
    | Some e1, Some e2 => Some (e1 ++ e2)
    | _, _ => None
    end.
Proof.
  induction l1 as [|card l1 IH].
  - simpl. by destruct (usage_events l2).
  - rewrite <- app_comm_cons, !usage_events_cons, IH.
    destruct (slot_keys _) as [keys|]; [|reflexivity].
    destruct (usage_events l1) as [e1|]; [|reflexivity].
    destruct (usage_events l2) as [e2|]; [|reflexivity].
    by rewrite app_assoc.
Qed.

Lemma aggregateAppUsage_table (cards : list Card)
  (events : list (string * Z)) :
  usage_events cards = Some events ->
  (forall e, e ∈ events -> inherited (fst e) = false) ->
  fst (aggregateAppUsage cards)
  = Some (map (fun e => mkAppUsage (fst e) (snd e))
              (sort_by_totalMinutes (Object_entries (usage_table events)))).
Proof.
  intros Hevents Hinh.
  rewrite aggregateAppUsage_events, Hevents. simpl.
  by rewrite fold_countApp_usage_table.
Qed.


(** Identifiers that name a property every object inherits are not
    counted: the test [!appStats[app]] finds the inherited property and
    nothing is stored in [appStats]. *)
Lemma counted_events_app (e1 e2 : list (string * Z)) :
  counted_events (e1 ++ e2) = counted_events e1 ++ counted_events e2.
Proof. apply filter_app. Qed.

Lemma counted_events_own (events : list (string * Z)) (e : string * Z) :
  e ∈ counted_events events -> inherited (fst e) = false.
Proof.
  forget_parameters.
  unfold counted_events. rewrite list_elem_of_filter. tauto. Qed.

Lemma countApp_inherited (events : list (string * Z)) (a : string) (d : Z) :
  inherited a = true ->
  (forall e, e ∈ events -> inherited (fst e) = false) ->
  countApp d (usage_table events) a = usage_table events.
Proof.
  intros Hinh Hown.
  unfold countApp, usage_table. rewrite assoc_map_key.
  rewrite bool_decide_eq_false_2; [by rewrite Hinh|].
  rewrite elem_of_first_seen. intros Hin.
  apply list_elem_of_fmap in Hin as (e & -> & He).
  rewrite (Hown e He) in Hinh. discriminate.
Qed.

Lemma fold_countApp_counted (events : list (string * Z)) :
  fold_left (fun o e => countApp (snd e) o (fst e)) events []
  = usage_table (counted_events events).
Proof.
  forget_parameters.
  induction events as [|[a d] events IH] using rev_ind; [reflexivity|].
  rewrite fold_left_app, counted_events_app. simpl. rewrite IH.
  unfold counted_events at 3. rewrite filter_cons, filter_nil. simpl.
  destruct (inherited a) eqn:Hinh.
  - rewrite decide_False by discriminate. rewrite app_nil_r.
    apply countApp_inherited; [exact Hinh|apply counted_events_own].
  - rewrite decide_True by reflexivity.
    by apply countApp_usage_table.
Qed.

Lemma aggregateAppUsage_counted (cards : list Card)
  (events : list (string * Z)) :
  usage_events cards = Some events ->
  fst (aggregateAppUsage cards)
  = Some (map (fun e => mkAppUsage (fst e) (snd e))
              (sort_by_totalMinutes
                 (Object_entries (usage_table (counted_events events))))).
Proof.
  intros Hevents.
  rewrite aggregateAppUsage_events, Hevents. simpl.
  by rewrite fold_countApp_counted.
Qed.

Lemma filter_name_counted (a : string) (events : list (string * Z)) :
  inherited a = false ->
  filter (fun e => fst e = a) (counted_events events)
  = filter (fun e => fst e = a) events.
Proof.
  intros Hinh. unfold counted_events.
  induction events as [|e events IH]; [reflexivity|].
  rewrite !filter_cons.
  destruct (decide (fst e = a)) as [Heq|Hne].
  - rewrite decide_True by (by rewrite Heq).
    rewrite filter_cons, decide_True by exact Heq. by rewrite IH.
  - destruct (decide (inherited (fst e) = false)); [|exact IH].
    rewrite filter_cons, decide_False by exact Hne. exact IH.
Qed.



Lemma usage_table_keys (events : list (string * Z)) :
  map fst (usage_table events) = first_seen (map fst events).
Proof.
  unfold usage_table. rewrite map_map. simpl. apply map_id.
Qed.

(** C10, amended.  A card that names the same application in both slots,
    by a name that is not empty and is no property every object
    inherits, gives that application two sessions and twice its duration
    on top of what the other cards give it, whatever the other cards
    name, as long as the call does not throw. *)
Theorem same_application_in_both_slots (pre post : list Card) (card : Card)
  (a : string) (others : list (string * Z)) :
  let d := calculateDuration (start_ts card) (end_ts card) in
  assoc "primary" (usage_record card) = Some (JStr a) ->
  assoc "secondary" (usage_record card) = Some (JStr a) ->
  a <> EmptyString ->
  inherited a = false ->
  usage_events (pre ++ post) = Some others ->
  exists result,
    fst (aggregateAppUsage (pre ++ card :: post)) = Some result
    /\ NoDup (map app_ result)
    /\ mkAppUsage a (mkStats (sessions_of a others + 2)
                             (minutes_of a others + 2 * d)) ∈ result.
Proof using ToPropertyKey_string.
  forget_run_parameters.
  intros d Hprimary Hsecondary Hne Hinh Hothers.
  rewrite usage_events_app in Hothers.
  destruct (usage_events pre) as [e1|] eqn:Hpre; [|discriminate].
  destruct (usage_events post) as [e2|] eqn:Hpost; [|discriminate].
  injection Hothers as <-.
  assert (Hslots : slot_keys (card_identifiers card) = Some [a; a]).
  { unfold card_identifiers, slot_identifier.
    rewrite Hprimary, Hsecondary. simpl.
    destruct a; [contradiction|]. simpl.
    rewrite !ToPropertyKey_string. reflexivity. }
  assert (Hevents : usage_events (pre ++ card :: post)
                    = Some (e1 ++ [(a, d); (a, d)] ++ e2)).
  { rewrite usage_events_app, Hpre. cbn [usage_events].
    rewrite Hslots, Hpost. reflexivity. }
  eexists. split; [by apply aggregateAppUsage_counted|].
  set (events := counted_events (e1 ++ [(a, d); (a, d)] ++ e2)).
  assert (Hperm : sort_by_totalMinutes (Object_entries (usage_table events))
                  ≡ₚ usage_table events)
    by (by rewrite sort_by_totalMinutes_perm, Object_entries_perm).
  assert (Hcount :
    sessions_of a events = sessions_of a (e1 ++ e2) + 2
    /\ minutes_of a events = minutes_of a (e1 ++ e2) + 2 * d).
  { subst events. unfold sessions_of, minutes_of.
    rewrite (filter_name_counted a _ Hinh).
    change [(a, d); (a, d)] with ([(a, d)] ++ [(a, d)]).
    fold (sessions_of a (e1 ++ ([(a, d)] ++ [(a, d)]) ++ e2)).
    fold (minutes_of a (e1 ++ ([(a, d)] ++ [(a, d)]) ++ e2)).
    fold (sessions_of a (e1 ++ e2)). fold (minutes_of a (e1 ++ e2)).
    rewrite !sessions_of_app, !minutes_of_app.
    destruct (stats_of_one a a d) as [Hs Hm].
    rewrite bool_decide_eq_true_2 in Hs, Hm by reflexivity.
    rewrite Hs, Hm. split; lia. }
  split.
  - rewrite map_map. simpl.
    change (NoDup (map fst (sort_by_totalMinutes
                              (Object_entries (usage_table events))))).
    rewrite Hperm, usage_table_keys. apply NoDup_first_seen.
  - apply list_elem_of_In, in_map_iff.
    exists (a, mkStats (sessions_of a (e1 ++ e2) + 2)
                       (minutes_of a (e1 ++ e2) + 2 * d)).
    split; [reflexivity|].
    apply list_elem_of_In. rewrite Hperm.
    unfold usage_table. apply list_elem_of_In, in_map_iff.
    exists a. split.
    + destruct Hcount as [-> ->]. reflexivity.
    + apply list_elem_of_In, elem_of_first_seen.
      apply list_elem_of_fmap. exists (a, d). split; [reflexivity|].
      subst events. unfold counted_events.
      apply list_elem_of_filter. split; [exact Hinh|].
      rewrite !elem_of_app, elem_of_cons. tauto.
Qed.


(** ** Metadata that is absent or does not parse *)

Lemma parseMetadata_unusable (metadataJson : option string) :
  (truthy_text metadataJson = false
   \/ exists message,
        JSON_parse (default EmptyString metadataJson) = inl message) ->
  fst (parseMetadata metadataJson) = emptyMetadata.
Proof.
  unfold parseMetadata.
  intros [Habsent|[message Hfail]].
  - by rewrite Habsent.
  - destruct (truthy_text metadataJson); [|reflexivity].
    simpl. by rewrite Hfail.
Qed.

Lemma usage_events_unusable (card : Card) :
  fst (parseMetadata (metadata card)) = emptyMetadata ->
  usage_events [card] = Some [].
Proof. intros Hempty. rewrite usage_events_cons. by rewrite Hempty. Qed.

Lemma usage_events_skip (pre post : list Card) (card : Card) :
  usage_events [card] = Some [] ->
  usage_events (pre ++ card :: post) = usage_events (pre ++ post).
Proof.
  intros Hcard.
  change (card :: post) with ([card] ++ post).
  rewrite !usage_events_app, Hcard.
  destruct (usage_events pre), (usage_events post); reflexivity.
Qed.

Lemma extractAllDistractions_app (l1 l2 : list Card) :
  extractAllDistractions (l1 ++ l2)
  = (fst (extractAllDistractions l1) ++ fst (extractAllDistractions l2),
     snd (extractAllDistractions l1) ++ snd (extractAllDistractions l2)).
Proof.
  induction l1 as [|card l1 IH]; simpl.
  - by destruct (extractAllDistractions l2).
  - rewrite IH.
    destruct (parseMetadata (metadata card)) as [m warned].
    destruct (extractAllDistractions l1) as [ds warned']. simpl.
    by rewrite !app_assoc.
Qed.

Lemma extractAllDistractions_one (card : Card) :
  extractAllDistractions [card]
  = (map (fun d => mkCardDistraction d (start card) (end_ card))
         (distractions (fst (parseMetadata (metadata card)))),
     snd (parseMetadata (metadata card))).
Proof.
  simpl. destruct (parseMetadata (metadata card)) as [m warned]. simpl.
  by rewrite !app_nil_r.
Qed.

(** C8.  For a card whose metadata is absent or does not parse,
    [parseMetadata] returns the empty metadata and throws nothing; it
    warns once when the text does not parse and not at all when it is
    absent.  The card alone gives an empty application usage, and in any
    list of cards the application usage and the distractions are what
    they are with the metadata of that card absent, and what they are
    without the card. *)
Theorem unusable_metadata_contributes_nothing (card : Card) :
  (truthy_text (metadata card) = false
   \/ exists message,
        JSON_parse (default EmptyString (metadata card)) = inl message) ->
  fst (parseMetadata (metadata card)) = emptyMetadata
  /\ (truthy_text (metadata card) = false ->
      snd (parseMetadata (metadata card)) = [])
  /\ (forall message,
        truthy_text (metadata card) = true ->
        JSON_parse (default EmptyString (metadata card)) = inl message ->
        snd (parseMetadata (metadata card))
        = ["Failed to parse metadata: " +:+ message])
  /\ fst (aggregateAppUsage [card]) = Some []
  /\ forall pre post,
       fst (aggregateAppUsage (pre ++ card :: post))
       = fst (aggregateAppUsage (pre ++ without_metadata card :: post))
       /\ fst (aggregateAppUsage (pre ++ card :: post))
          = fst (aggregateAppUsage (pre ++ post))
       /\ fst (extractAllDistractions (pre ++ card :: post))
          = fst (extractAllDistractions (pre ++ without_metadata card :: post))
       /\ fst (extractAllDistractions (pre ++ card :: post))
          = fst (extractAllDistractions (pre ++ post))
       /\ snd (extractAllDistractions (pre ++ card :: post))
          = snd (extractAllDistractions pre)
            ++ snd (parseMetadata (metadata card))
            ++ snd (extractAllDistractions post).
Proof.
  intros Hunusable.
  pose proof (parseMetadata_unusable _ Hunusable) as Hempty.
  pose proof (usage_events_unusable card Hempty) as Hcard.
  assert (Hbare : usage_events [without_metadata card] = Some [])
    by reflexivity.
  split; [exact Hempty|].
  split; [intros Habsent; unfold parseMetadata; by rewrite Habsent|].
  split.
  { intros message Hpresent Hfail. unfold parseMetadata.
    rewrite Hpresent. simpl. by rewrite Hfail. }
  split; [by rewrite aggregateAppUsage_events, Hcard|].
  intros pre post.
  rewrite !aggregateAppUsage_events.
  rewrite (usage_events_skip pre post card Hcard).
  rewrite (usage_events_skip pre post (without_metadata card) Hbare).
  split; [reflexivity|]. split; [reflexivity|].
  change (card :: post) with ([card] ++ post).
  change (without_metadata card :: post)
    with ([without_metadata card] ++ post).
  rewrite !extractAllDistractions_app, !extractAllDistractions_one.
  simpl. rewrite Hempty. simpl.
  repeat split; reflexivity.
Qed.


(** ** The sync decision *)

Lemma findExistingNoteByDay_run (dayString directory : string) (w : World) :
  findExistingNoteByDay dayString directory w
  = (Val (match w_files w !! path_join directory (generateFilename dayString)
          with
          | Some _ => Some (path_join directory (generateFilename dayString))
          | None => None
          end), w).
Proof.
  unfold findExistingNoteByDay, try_catch, bind, fs_access, ret.
  by destruct (w_files w !! _).
Qed.

Lemma isDayComplete_run (dayString : string) (w : World) :
  exists complete, isDayComplete dayString w = (Val complete, advance w).
Proof. eexists. reflexivity. Qed.

Lemma getExistingCreatedAt_run (dayString directory : string) (w : World) :
  getExistingCreatedAt dayString directory w
  = (Val (recorded_created_at
            (w_files w !! path_join directory (generateFilename dayString))),
     w).
Proof.
  unfold getExistingCreatedAt, try_catch, bind, fs_readFile, ret,
    recorded_created_at.
  destruct (w_files w !! _) as [f|]; [|reflexivity].
  by destruct (f_readable f).
Qed.

Lemma buildFrontmatter_run (dayString : string) (cards : list Card)
  (journal : option Journal) (existingCreatedAt : option string) (w : World) :
  buildFrontmatter dayString cards journal existingCreatedAt w
  = (Val (if truthy_text existingCreatedAt
          then frontmatterObject dayString cards journal
                 (default EmptyString existingCreatedAt)
                 (toISOString (w_clock w (w_reads w)))
          else frontmatterObject dayString cards journal
                 (toISOString (w_clock w (w_reads w)))
                 (toISOString (w_clock w (S (w_reads w))))),
     if truthy_text existingCreatedAt then advance w
     else advance (advance w)).
Proof.
  unfold buildFrontmatter, bind, newDate, ret.
  by destruct (truthy_text existingCreatedAt).
Qed.

Lemma saveNote_run (filename content directory : string) (w : World) :
  w_write_ok w (path_join directory filename) = true ->
  saveNote filename content directory w
  = (Val (path_join directory filename),
     written w (path_join directory filename) content).
Proof.
  intros Hok.
  unfold saveNote, try_catch, bind, fs_writeFile, ret, written.
  by rewrite Hok.
Qed.

Lemma bind_ret {A B} (a : A) (k : A -> M B) (w : World) :
  bind (ret a) k w = k a w.
Proof. reflexivity. Qed.

Lemma bind_run {A B} (m : M A) (k : A -> M B) (w w' : World) (a : A) :
  m w = (Val a, w') -> bind m k w = k a w'.
Proof. intros H. unfold bind. by rewrite H. Qed.

Lemma try_catch_run {A} (m : M A) (handler : string -> M A) (w w' : World)
  (a : A) :
  m w = (Val a, w') -> try_catch m handler w = (Val a, w').
Proof. intros H. unfold try_catch. by rewrite H. Qed.

Lemma is_Some_path (file : option FileEntry) (path : string) :
  bool_decide (is_Some (match file with
                        | Some _ => Some path
                        | None => None
                        end))
  = bool_decide (is_Some file).
Proof.
  destruct file; apply bool_decide_ext; split; intros [? ?];
    (eauto || discriminate).
Qed.

(** The note [processDay] writes when it does not skip the day: the
    creation timestamp is the one found in the existing note when there
    is one to find and the run is not forced, and the reading of the
    clock otherwise. *)
Lemma processDay_writes (db : Database) (dayString : string) (w : World)
  (complete : bool) (rows : list Card) (journal : option Journal)
  (sections : string) :
  let path := path_join OUTPUT_DIR (generateFilename dayString) in
  let cards := filter (fun card => isFailed card = false) rows in
  let found :=
    if negb FORCE then recorded_created_at (w_files w !! path) else None in
  let fm :=
    if truthy_text found
    then frontmatterObject dayString cards journal
           (default EmptyString found)
           (toISOString (w_clock w (S (w_reads w))))
    else frontmatterObject dayString cards journal
           (toISOString (w_clock w (S (w_reads w))))
           (toISOString (w_clock w (S (S (w_reads w))))) in
  let w' :=
    if truthy_text found then advance (advance w)
    else advance (advance (advance w)) in
  fst (isDayComplete dayString w) = Val complete ->
  negb FORCE && bool_decide (is_Some (w_files w !! path)) && complete = false ->
  timeline_cards db dayString INCLUDE_DELETED = inr rows ->
  journal_entries db dayString = inr journal ->
  cards <> [] \/ journal <> None ->
  renderSections dayString cards journal = inr sections ->
  w_write_ok w path = true ->
  processDay db dayString w
  = (Val (if bool_decide (is_Some (w_files w !! path))
          then Updated (generateFilename dayString) (length cards)
          else Created (generateFilename dayString) (length cards)),
     written w' path (frontmatterText fm +:+ nl +:+ sections)).
Proof.
  intros path cards found fm w' Hcomplete Hrow1 Hrows Hjournal Hdata
    Hsections Hok.
  destruct (isDayComplete_run dayString w) as [complete' Hrun].
  rewrite Hrun in Hcomplete. simpl in Hcomplete.
  injection Hcomplete as ->.
  unfold processDay. apply try_catch_run.
  erewrite bind_run by apply findExistingNoteByDay_run.
  erewrite bind_run by exact Hrun.
  fold path. rewrite !is_Some_path, Hrow1.
  unfold fetchTimelineCardsForDay, fetchJournalEntryForDay.
  rewrite Hrows, Hjournal, !bind_ret.
  fold cards.
  replace (bool_decide (length cards = 0%nat)
           && negb (bool_decide (is_Some journal))) with false.
  2:{ symmetry. apply andb_false_iff.
      destruct Hdata as [Hcards|Hj].
      - left. apply bool_decide_eq_false_2.
        destruct cards; [contradiction|discriminate].
      - right. destruct journal; [|contradiction].
        rewrite bool_decide_eq_true_2 by eauto. reflexivity. }
  assert (Hfound :
    (if negb FORCE && bool_decide (is_Some (w_files w !! path))
     then getExistingCreatedAt dayString OUTPUT_DIR
     else ret None) (advance w)
    = (Val found, advance w)).
  { subst found. destruct FORCE; simpl; [reflexivity|].
    destruct (w_files w !! path) as [f|] eqn:Hfile.
    - rewrite bool_decide_eq_true_2 by eauto.
      rewrite getExistingCreatedAt_run. fold path. simpl.
      by rewrite Hfile.
    - rewrite bool_decide_eq_false_2 by (intros [? ?]; discriminate).
      reflexivity. }
  erewrite bind_run by exact Hfound.
  assert (Hnote :
    generateMarkdownNote dayString cards journal found (advance w)
    = (Val (frontmatterText fm +:+ nl +:+ sections), w')).
  { unfold generateMarkdownNote, generateFrontmatter.
    erewrite bind_run
      by (erewrite bind_run by apply buildFrontmatter_run; reflexivity).
    rewrite Hsections. subst fm w'. simpl.
    by destruct (truthy_text found). }
  erewrite bind_run by exact Hnote.
  erewrite bind_run.
  - reflexivity.
  - rewrite saveNote_run; [reflexivity|].
    subst w'. by destruct (truthy_text found).
Qed.

Lemma processDay_skips_complete (db : Database) (dayString : string)
  (w : World) (complete : bool) :
  let path := path_join OUTPUT_DIR (generateFilename dayString) in
  fst (isDayComplete dayString w) = Val complete ->
  negb FORCE && bool_decide (is_Some (w_files w !! path)) && complete = true ->
  processDay db dayString w = (Val SkippedComplete, advance w).
Proof.
  intros path Hcomplete Hrow1.
  destruct (isDayComplete_run dayString w) as [complete' Hrun].
  rewrite Hrun in Hcomplete. simpl in Hcomplete.
  injection Hcomplete as ->.
  unfold processDay. apply try_catch_run.
  erewrite bind_run by apply findExistingNoteByDay_run.
  erewrite bind_run by exact Hrun.
  fold path. by rewrite !is_Some_path, Hrow1.
Qed.

Lemma processDay_skips_empty (db : Database) (dayString : string)
  (w : World) (complete : bool) (rows : list Card) :
  let path := path_join OUTPUT_DIR (generateFilename dayString) in
  fst (isDayComplete dayString w) = Val complete ->
  negb FORCE && bool_decide (is_Some (w_files w !! path)) && complete = false ->
  timeline_cards db dayString INCLUDE_DELETED = inr rows ->
  journal_entries db dayString = inr None ->
  filter (fun card => isFailed card = false) rows = [] ->
  processDay db dayString w = (Val SkippedEmpty, advance w).
Proof.
  intros path Hcomplete Hrow1 Hrows Hjournal Hcards.
  destruct (isDayComplete_run dayString w) as [complete' Hrun].
  rewrite Hrun in Hcomplete. simpl in Hcomplete.
  injection Hcomplete as ->.
  unfold processDay. apply try_catch_run.
  erewrite bind_run by apply findExistingNoteByDay_run.
  erewrite bind_run by exact Hrun.
  fold path. rewrite !is_Some_path, Hrow1.
  unfold fetchTimelineCardsForDay, fetchJournalEntryForDay.
  rewrite Hrows, Hjournal, !bind_ret, Hcards.
  reflexivity.
Qed.

(** C1.  With [complete] the answer of [isDayComplete], which for the
    text of a calendar date [D] of the years 1 to 9999 tells whether the
    clock has reached 04:00 on [D + 1]: when the run is not forced, the
    note exists and the day is complete, the day is skipped as complete
    and nothing is fetched or written.  Otherwise, with the rows the two
    queries return: when no card is left after the failed-processing
    cards are dropped and there is no journal entry, the day is skipped
    as empty, whatever the force flag and the completeness; otherwise
    the note is written, as an update when it exists and as a creation
    when it does not. *)
Theorem sync_decision_table (db : Database) (dayString : string) (w : World)
  (complete : bool) :
  let path := path_join OUTPUT_DIR (generateFilename dayString) in
  let artifactExists := bool_decide (is_Some (w_files w !! path)) in
  fst (isDayComplete dayString w) = Val complete ->
  (forall D,
     1 <= yearOf D <= 9999 ->
     dayString = format_date D ->
     complete = (makeLocal (D + 1) 4 0 0 0 <=? w_clock w (w_reads w)))
  /\ (negb FORCE && artifactExists && complete = true ->
      processDay db dayString w = (Val SkippedComplete, advance w))
  /\ (negb FORCE && artifactExists && complete = false ->
      forall rows journal,
        timeline_cards db dayString INCLUDE_DELETED = inr rows ->
        journal_entries db dayString = inr journal ->
        let cards := filter (fun card => isFailed card = false) rows in
        (cards = [] -> journal = None ->
         processDay db dayString w = (Val SkippedEmpty, advance w))
        /\ (cards <> [] \/ journal <> None ->
            forall sections,
              renderSections dayString cards journal = inr sections ->
              w_write_ok w path = true ->
              fst (processDay db dayString w)
              = Val (if artifactExists
                     then Updated (generateFilename dayString) (length cards)
                     else Created (generateFilename dayString)
                                  (length cards)))).
Proof.
  intros path artifactExists Hcomplete.
  split; [|split].
  - intros D Hyear ->.
    rewrite (isDayComplete_next_boundary D w Hyear) in Hcomplete.
    by injection Hcomplete.
  - intros Hrow1. by eapply processDay_skips_complete.
  - intros Hrow1 rows journal Hrows Hjournal cards.
    split.
    + intros Hcards ->. by eapply processDay_skips_empty.
    + intros Hdata sections Hsections Hok.
      by erewrite processDay_writes.
Qed.

Lemma lookup_written (w : World) (path content : string) :
  w_files (written w path content) !! path
  = Some (mkFile content match w_files w !! path with
                         | Some f => f_readable f
                         | None => true
                         end).
Proof. unfold written. simpl. apply lookup_insert_eq. Qed.

(** C4, amended.  For a note that exists and a day with data: when the
    run is not forced and the day is not complete, and the note can be
    read and holds a creation timestamp that the pattern finds and that
    is not blank, the note written in its place carries that creation
    timestamp; when the run is forced, the note written carries the
    reading of the clock as its creation timestamp. *)
Theorem creation_timestamp_on_update (db : Database) (dayString : string)
  (w : World) (f : FileEntry) (complete : bool) (rows : list Card)
  (journal : option Journal) (sections : string) :
  let path := path_join OUTPUT_DIR (generateFilename dayString) in
  let cards := filter (fun card => isFailed card = false) rows in
  let now := toISOString (w_clock w (S (w_reads w))) in
  let later := toISOString (w_clock w (S (S (w_reads w)))) in
  let note := fun fm =>
    mkFile (frontmatterText fm +:+ nl +:+ sections) (f_readable f) in
  w_files w !! path = Some f ->
  fst (isDayComplete dayString w) = Val complete ->
  timeline_cards db dayString INCLUDE_DELETED = inr rows ->
  journal_entries db dayString = inr journal ->
  cards <> [] \/ journal <> None ->
  renderSections dayString cards journal = inr sections ->
  w_write_ok w path = true ->
  (FORCE = false -> complete = false ->
   forall v,
     f_readable f = true ->
     match_created_at (f_content f) = Some v ->
     trim v <> EmptyString ->
     let fm := frontmatterObject dayString cards journal (trim v) now in
     w_files (snd (processDay db dayString w)) !! path = Some (note fm)
     /\ created_at fm = trim v)
  /\ (FORCE = true ->
      let fm := frontmatterObject dayString cards journal now later in
      w_files (snd (processDay db dayString w)) !! path = Some (note fm)
      /\ created_at fm = now).
Proof.
  intros path cards now later note Hfile Hcomplete Hrows Hjournal Hdata
    Hsections Hok.
  split.
  - intros Hforce -> v Hreadable Hmatch Hblank fm.
    split; [|reflexivity].
    erewrite processDay_writes; try eassumption;
      [|by rewrite Hforce, andb_false_r].
    cbn [snd]. rewrite lookup_written. fold path.
    rewrite Hforce, Hfile. simpl. rewrite Hreadable, Hmatch. simpl.
    destruct (trim v) eqn:Htrim; [contradiction|]. simpl.
    by rewrite Hfile.
  - intros Hforce fm.
    split; [|reflexivity].
    erewrite processDay_writes; try eassumption;
      [|by rewrite Hforce].
    cbn [snd]. rewrite lookup_written. fold path.
    rewrite Hforce. simpl. by rewrite Hfile.
Qed.

(** C9.  For a note that exists, a day that is not complete and has
    data, and a run that is not forced: when the note cannot be read, or
    nothing in it matches the pattern, [getExistingCreatedAt] returns
    null without an error, and the note written in its place carries the
    reading of the clock as its creation timestamp. *)
Theorem creation_timestamp_lost_when_not_found (db : Database)
  (dayString : string) (w : World) (f : FileEntry) (rows : list Card)
  (journal : option Journal) (sections : string) :
  let path := path_join OUTPUT_DIR (generateFilename dayString) in
  let cards := filter (fun card => isFailed card = false) rows in
  let now := toISOString (w_clock w (S (w_reads w))) in
  let later := toISOString (w_clock w (S (S (w_reads w)))) in
  let fm := frontmatterObject dayString cards journal now later in
  FORCE = false ->
  w_files w !! path = Some f ->
  fst (isDayComplete dayString w) = Val false ->
  timeline_cards db dayString INCLUDE_DELETED = inr rows ->
  journal_entries db dayString = inr journal ->
  cards <> [] \/ journal <> None ->
  renderSections dayString cards journal = inr sections ->
  w_write_ok w path = true ->
  f_readable f = false \/ match_created_at (f_content f) = None ->
  getExistingCreatedAt dayString OUTPUT_DIR w = (Val None, w)
  /\ fst (processDay db dayString w)
     = Val (Updated (generateFilename dayString) (length cards))
  /\ w_files (snd (processDay db dayString w)) !! path
     = Some (mkFile (frontmatterText fm +:+ nl +:+ sections) (f_readable f))
  /\ created_at fm = now.
Proof.
  intros path cards now later fm Hforce Hfile Hcomplete Hrows Hjournal Hdata
    Hsections Hok Hlost.
  assert (Hnone : recorded_created_at (w_files w !! path) = None).
  { rewrite Hfile. simpl.
    destruct Hlost as [->| ->]; [reflexivity|].
    by destruct (f_readable f). }
  split.
  { rewrite getExistingCreatedAt_run. fold path. by rewrite Hnone. }
  erewrite processDay_writes; try eassumption;
    [|by rewrite andb_false_r].
  cbn [fst snd]. rewrite lookup_written. fold path.
  rewrite Hforce. simpl. rewrite Hnone, Hfile. simpl. rewrite Hfile.
  repeat split; reflexivity.
Qed.


(** * Further properties *)

(** ** Logical days *)

(** The logical day of an instant, by the calendar date four hours
    earlier. *)
Lemma getDayInfo_logical_day (date : Z) :
  getDayInfoFor4AMBoundary date
  = {| dayString := format_date (localDay (date - 4 * msPerHour));
       startOfDay := makeLocal (localDay (date - 4 * msPerHour)) 4 0 0 0;
       endOfDay := makeLocal (localDay (date - 4 * msPerHour) + 1) 4 0 0 0 |}.
Proof.
  destruct (Z.lt_ge_cases date (makeLocal (localDay date) 4 0 0 0)) as [H|H].
  - rewrite (getDayInfo_before_boundary date H).
    replace (localDay (date - 4 * msPerHour)) with (localDay date - 1)
      by (revert H; unfold_time; intros H; div_mod_lia).
    do 2 f_equal. lia.
  - rewrite (getDayInfo_from_boundary date H).
    replace (localDay (date - 4 * msPerHour)) with (localDay date)
      by (revert H; unfold_time; intros H; div_mod_lia).
    reflexivity.
Qed.

Lemma getDayInfo_holds_instant (date : Z) :
  startOfDay (getDayInfoFor4AMBoundary date) <= date
  < endOfDay (getDayInfoFor4AMBoundary date).
Proof.
  rewrite getDayInfo_logical_day. simpl. unfold_time. div_mod_lia.
Qed.

(** X1.  The logical day of an instant is a half-open interval of 24
    hours that holds the instant and starts at 04:00:00.000 local
    time. *)
Theorem logical_day_contains_instant (date : Z) :
  let info := getDayInfoFor4AMBoundary date in
  startOfDay info <= date < endOfDay info
  /\ endOfDay info = startOfDay info + msPerDay
  /\ (startOfDay info + tzOffset) mod msPerDay = 4 * msPerHour.
Proof.
  intros info. subst info.
  split; [apply getDayInfo_holds_instant|].
  rewrite getDayInfo_logical_day. simpl.
  split.
  - unfold_time. lia.
  - apply makeLocal_4AM_time_of_day.
Qed.

(** X2.  Every instant of the logical day of an instant has that same
    logical day: the same identifier, start and end. *)
Theorem logical_day_constant (date t : Z) :
  let info := getDayInfoFor4AMBoundary date in
  startOfDay info <= t < endOfDay info ->
  getDayInfoFor4AMBoundary t = info.
Proof.
  intros info Ht. subst info.
  rewrite getDayInfo_logical_day in Ht. simpl in Ht.
  rewrite (getDayInfo_logical_day t), (getDayInfo_logical_day date).
  replace (localDay (t - 4 * msPerHour))
    with (localDay (date - 4 * msPerHour)); [reflexivity|].
  revert Ht. unfold_time. intros Ht. div_mod_lia.
Qed.

(** X3.  In a zone with a fixed UTC offset, where a day of the calendar
    is 24 hours: going back whole days moves the logical day back by as
    many calendar dates, and its start and end by as many times 24
    hours, so that the logical days follow one another without gap or
    overlap. *)
Theorem logical_day_days_earlier (date i : Z) :
  let info := getDayInfoFor4AMBoundary date in
  getDayInfoFor4AMBoundary (subDays date i)
  = {| dayString := format_date (localDay (date - 4 * msPerHour) - i);
       startOfDay := startOfDay info - i * msPerDay;
       endOfDay := endOfDay info - i * msPerDay |}.
Proof.
  intros info. subst info.
  rewrite (getDayInfo_logical_day (subDays date i)),
    (getDayInfo_logical_day date), localDay_subDays.
  simpl. f_equal; unfold_time; lia.
Qed.

(** X4.  For a logical day of the years 1 to 9999, [isDayComplete] on
    its identifier tells whether the clock has reached the end of the
    day; at the instant itself the day is not complete. *)
Theorem day_complete_from_its_end (date : Z) (w : World) :
  let info := getDayInfoFor4AMBoundary date in
  1 <= yearOf (localDay (date - 4 * msPerHour)) <= 9999 ->
  isDayComplete (dayString info) w
  = (Val (endOfDay info <=? w_clock w (w_reads w)), advance w)
  /\ (w_clock w (w_reads w) = date ->
      fst (isDayComplete (dayString info) w) = Val false).
Proof.
  intros info Hyear.
  assert (Hrun : isDayComplete (dayString info) w
                 = (Val (endOfDay info <=? w_clock w (w_reads w)),
                    advance w)).
  { subst info. rewrite getDayInfo_logical_day. simpl.
    apply isDayComplete_next_boundary, Hyear. }
  split; [exact Hrun|].
  intros Hnow. rewrite Hrun. simpl. f_equal.
  apply Z.leb_gt. rewrite Hnow.
  apply (getDayInfo_holds_instant date).
Qed.

(** ** The list of days, exactly *)

Lemma format_date_inj (D1 D2 : Z) :
  1 <= yearOf D1 <= 9999 -> 1 <= yearOf D2 <= 9999 ->
  format_date D1 = format_date D2 -> D1 = D2.
Proof using tzOffset.
  intros H1 H2 Heq.
  pose proof (parse_formatted_date D1 H1) as P1.
  pose proof (parse_formatted_date D2 H2) as P2.
  rewrite Heq, P2 in P1. injection P1. unfold_time. lia.
Qed.

Lemma calculateDateRange_run (days : Z) (w : World) :
  calculateDateRange days w
  = (Val (first_seen
            (map (fun i => dayString (getDayInfoFor4AMBoundary
                                        (subDays (w_clock w (w_reads w))
                                                 (Z.of_nat i))))
                 (seq 0 (Z.to_nat days)))),
     advance w).
Proof.
  unfold calculateDateRange, bind, newDate, ret, advance. simpl. do 2 f_equal.
  rewrite Set_of_first_seen, dateRangeLoop_fold, fold_left_add_new.
  simpl. rewrite filter_all
    by (apply Forall_forall; intros y _; apply not_elem_of_nil).
  by rewrite first_seen_NoDup by apply NoDup_first_seen.
Qed.

Lemma calculateDateRange_days (days : Z) (w : World) :
  let L := localDay (w_clock w (w_reads w) - 4 * msPerHour) in
  (forall i, 0 <= i < days -> 1 <= yearOf (L - i) <= 9999) ->
  calculateDateRange days w
  = (Val (map (fun i => format_date (L - Z.of_nat i))
              (seq 0 (Z.to_nat days))),
     advance w).
Proof.
  intros L Hyears.
  rewrite calculateDateRange_run. do 2 f_equal.
  rewrite (map_ext _ (fun i => format_date (L - Z.of_nat i))).
  2:{ intros i. by rewrite dayString_logical_day, localDay_subDays. }
  apply first_seen_NoDup.
  apply (NoDup_fmap_2_strong (fun i => format_date (L - Z.of_nat i)));
    [|apply NoDup_seq].
  intros i j Hi Hj Heq.
  apply elem_of_seq in Hi, Hj.
  apply format_date_inj in Heq; [lia| |]; apply Hyears; lia.
Qed.



(** ** Categories and totals *)

(** X6.  The categories of a day are the categories of its cards that are
    not empty, each once, in order of first appearance. *)
Theorem extractCategories_distinct (cards : list Card) :
  extractCategories cards
  = first_seen
      (omap (fun card =>
               if truthy_text (category card) then category card else None)
            cards)
  /\ NoDup (extractCategories cards)
  /\ forall c,
       c ∈ extractCategories cards
       <-> c <> EmptyString
           /\ exists card, card ∈ cards /\ category card = Some c.
Proof.
  forget_parameters.
  unfold extractCategories. rewrite Set_of_first_seen.
  split; [reflexivity|]. split; [apply NoDup_first_seen|].
  intros c. rewrite elem_of_first_seen, list_elem_of_omap.
  split.
  - intros (card & Hin & Hcat). unfold truthy_text in Hcat.
    destruct (category card) as [s|] eqn:Hc; [|discriminate].
    destruct s; simpl in Hcat; [discriminate|].
    injection Hcat as <-. split; [discriminate|eauto].
  - intros (Hne & card & Hin & Hcat).
    exists card. split; [exact Hin|]. rewrite Hcat. simpl.
    by destruct c.
Qed.

Lemma calculateDuration_bounds (startTs endTs : Z) :
  60 * calculateDuration startTs endTs - 30 <= endTs - startTs
  < 60 * calculateDuration startTs endTs + 30.
Proof.
  rewrite calculateDuration_div.
  pose proof (Z.div_mod (endTs - startTs + 30) 60 ltac:(lia)) as Hdm.
  pose proof (Z.mod_pos_bound (endTs - startTs + 30) 60 ltac:(lia)) as Hb.
  lia.
Qed.

(** X7.  The total, in seconds, differs from the sum of the lengths of
    the cards by at most 30 seconds for each card. *)
Theorem totalDuration_rounding_error (cards : list Card) :
  let seconds :=
    foldr Z.add 0 (map (fun card => end_ts card - start_ts card) cards) in
  let n := Z.of_nat (length cards) in
  - 30 * n <= 60 * calculateTotalMinutes cards - seconds <= 30 * n.
Proof.
  intros seconds n. subst seconds n.
  rewrite calculateTotalMinutes_sum.
  induction cards as [|card cards IH]; simpl; [lia|].
  pose proof (calculateDuration_bounds (start_ts card) (end_ts card)).
  lia.
Qed.

(** X8.  When no card ends before it starts the total is not negative,
    and cards shorter than 30 seconds add nothing to it. *)
Theorem totalDuration_nonnegative (cards : list Card) :
  (Forall (fun card => start_ts card <= end_ts card) cards ->
   0 <= calculateTotalMinutes cards)
  /\ (Forall (fun card => 0 <= end_ts card - start_ts card < 30) cards ->
      calculateTotalMinutes cards = 0).
Proof.
  rewrite calculateTotalMinutes_sum.
  split; induction 1 as [|card cards Hcard _ IH]; simpl; try lia;
    pose proof (calculateDuration_bounds (start_ts card) (end_ts card)); lia.
Qed.

(** ** Sums of the application usage *)

Lemma sum_split_name (h : string -> Z) (l : list string) (a : string) :
  NoDup l ->
  foldr Z.add 0 (map h l)
  = (if bool_decide (a ∈ l) then h a else 0)
    + foldr Z.add 0 (map h (filter (fun n => n <> a) l)).
Proof.
  forget_parameters.
  induction 1 as [|n l Hn _ IH]; [reflexivity|].
  cbn [map foldr]. rewrite IH, filter_cons.
  destruct (decide (n = a)) as [->|Hne].
  - rewrite decide_False by tauto.
    rewrite (bool_decide_eq_true_2 (a ∈ a :: l)) by (by left).
    rewrite (bool_decide_eq_false_2 (a ∈ l)) by assumption. lia.
  - rewrite decide_True by assumption. cbn [map foldr].
    rewrite (bool_decide_ext (a ∈ n :: l) (a ∈ l)); [lia|].
    rewrite elem_of_cons. naive_solver.
Qed.

Lemma sum_by_name (g : string * Z -> Z) (events : list (string * Z)) :
  foldr Z.add 0
    (map (fun name =>
            foldr Z.add 0 (map g (filter (fun e => fst e = name) events)))
         (first_seen (map fst events)))
  = foldr Z.add 0 (map g events).
Proof.
  forget_parameters.
  induction events as [|[a d] events IH]; [reflexivity|].
  cbn [map fst first_seen foldr].
  rewrite filter_cons_True by reflexivity. cbn [map foldr].
  rewrite <- IH.
  rewrite (sum_split_name _ (first_seen (map fst events)) a)
    by apply NoDup_first_seen.
  rewrite (map_ext_in
             (fun name => foldr Z.add 0
                (map g (filter (fun e => fst e = name) ((a, d) :: events))))
             (fun name => foldr Z.add 0
                (map g (filter (fun e => fst e = name) events)))).
  2:{ intros name Hname. apply list_elem_of_In, list_elem_of_filter in Hname.
      rewrite filter_cons_False; [reflexivity|]. simpl. naive_solver. }
  destruct (bool_decide_reflect (a ∈ first_seen (map fst events)))
    as [Hin|Hnin]; [lia|].
  rewrite filter_name_absent; [simpl; lia|].
  by rewrite <- elem_of_first_seen.
Qed.

Lemma foldr_add_perm (l l' : list Z) :
  l ≡ₚ l' -> foldr Z.add 0 l = foldr Z.add 0 l'.
Proof. induction 1; simpl; lia. Qed.

Lemma length_as_sum {A} (l : list A) :
  Z.of_nat (length l) = foldr Z.add 0 (map (fun _ => 1) l).
Proof. induction l as [|x l IH]; simpl; lia. Qed.

(** X9.  When every slot gives a property key and none names a property
    every object inherits, the sessions of the result add up to the
    number of filled slots, and its total minutes to the durations of
    the cards counted once for each filled slot: a card with both slots
    filled counts twice. *)
Theorem applicationUsage_sums (cards : list Card)
  (events : list (string * Z)) :
  usage_events cards = Some events ->
  (forall e, e ∈ events -> inherited (fst e) = false) ->
  exists result,
    fst (aggregateAppUsage cards) = Some result
    /\ foldr Z.add 0 (map (fun u => sessions (stats u)) result)
       = Z.of_nat (length events)
    /\ foldr Z.add 0 (map (fun u => totalMinutes (stats u)) result)
       = foldr Z.add 0 (map snd events).
Proof.
  intros Hevents Hinh.
  eexists. split; [by apply aggregateAppUsage_table|].
  assert (Hperm : sort_by_totalMinutes (Object_entries (usage_table events))
                  ≡ₚ usage_table events)
    by (by rewrite sort_by_totalMinutes_perm, Object_entries_perm).
  rewrite !map_map. simpl.
  split.
  - rewrite (foldr_add_perm _ (map (fun e => sessions (snd e))
                                   (usage_table events)))
      by (by apply Permutation_map).
    unfold usage_table. rewrite map_map. simpl.
    rewrite length_as_sum, <- (sum_by_name (fun _ => 1) events).
    f_equal. apply map_ext. intros name. unfold sessions_of.
    apply length_as_sum.
  - rewrite (foldr_add_perm _ (map (fun e => totalMinutes (snd e))
                                   (usage_table events)))
      by (by apply Permutation_map).
    unfold usage_table. rewrite map_map. simpl.
    by rewrite <- (sum_by_name snd events).
Qed.

(** ** Metadata of other shapes *)

(** X10.  The application slots [parseMetadata] returns are always a
    truthy value, so that reading a slot never fails.  A payload that
    is JSON but no object gives the empty metadata: with a warning for
    the value null, silently for any other value. *)
Theorem parseMetadata_other_shapes :
  (forall metadataJson,
     truthy (appSites (fst (parseMetadata metadataJson))) = true)
  /\ (forall text v,
        text <> EmptyString ->
        JSON_parse text = inr v ->
        (forall fields, v <> JObj fields) ->
        parseMetadata (Some text)
        = (emptyMetadata,
           match v with
           | JNull =>
               ["Failed to parse metadata: " +:+ null_property_message]
           | _ => []
           end)).
Proof.
  split.
  - intros metadataJson. unfold parseMetadata.
    destruct (truthy_text metadataJson); [|reflexivity]. simpl.
    destruct (JSON_parse _) as [message|parsed]; [reflexivity|].
    destruct parsed; try reflexivity. simpl.
    destruct (assoc "appSites" fields) as [v|]; [|reflexivity].
    by destruct (truthy v) eqn:Hv.
  - intros text v Htext Hparse Hshape. unfold parseMetadata.
    destruct text; [contradiction|]. simpl. rewrite Hparse.
    destruct v; try reflexivity. by destruct (Hshape fields).
Qed.

Lemma usage_events_all_unusable (cards : list Card) :
  Forall unusable_metadata cards -> usage_events cards = Some [].
Proof.
  induction 1 as [|card cards Hcard _ IH]; [reflexivity|].
  rewrite usage_events_cons.
  rewrite (parseMetadata_unusable _ Hcard), IH. reflexivity.
Qed.

(** X11.  For cards whose metadata is absent or does not parse, the
    application usage is empty and its section of the note says that no
    usage is recorded, and there is no distraction. *)
Theorem sections_without_metadata (cards : list Card) :
  Forall unusable_metadata cards ->
  fst (aggregateAppUsage cards) = Some []
  /\ fst (generateAppUsageSection cards)
     = Some ("## App Usage Summary" +:+ nl +:+ "*No app usage recorded*"
             +:+ nl)
  /\ fst (extractAllDistractions cards) = [].
Proof.
  intros Hall.
  assert (Husage : fst (aggregateAppUsage cards) = Some [])
    by (by rewrite aggregateAppUsage_events, usage_events_all_unusable).
  split; [exact Husage|]. split.
  - unfold generateAppUsageSection.
    destruct (aggregateAppUsage cards) as [usage warned].
    simpl in *. by rewrite Husage.
  - clear Husage.
    induction Hall as [|card cards Hcard _ IH]; [reflexivity|].
    change (card :: cards) with ([card] ++ cards).
    rewrite extractAllDistractions_app, extractAllDistractions_one.
    simpl. by rewrite (parseMetadata_unusable _ Hcard), IH.
Qed.


(** ** The loop over the days *)

Lemma existingCreatedAt_run (dayString : string) (w : World) (b : bool) :
  (if b then getExistingCreatedAt dayString OUTPUT_DIR else ret None) w
  = (Val (if b
          then recorded_created_at
                 (w_files w !! note_path OUTPUT_DIR dayString)
          else None), w).
Proof. destruct b; [apply getExistingCreatedAt_run|reflexivity]. Qed.

Lemma bind_throw {A B} (m : M A) (k : A -> M B) (w w' : World)
  (message : string) :
  m w = (Throw message, w') -> bind m k w = (Throw message, w').
Proof. intros H. unfold bind. by rewrite H. Qed.

Lemma generateMarkdownNote_run (dayString : string) (cards : list Card)
  (journal : option Journal) (found : option string) (w : World) :
  generateMarkdownNote dayString cards journal found w
  = (match renderSections dayString cards journal with
     | inr sections =>
         Val (frontmatterText
                (if truthy_text found
                 then frontmatterObject dayString cards journal
                        (default EmptyString found)
                        (toISOString (w_clock w (w_reads w)))
                 else frontmatterObject dayString cards journal
                        (toISOString (w_clock w (w_reads w)))
                        (toISOString (w_clock w (S (w_reads w)))))
              +:+ nl +:+ sections)
     | inl message => Throw message
     end,
     if truthy_text found then advance w else advance (advance w)).
Proof.
  unfold generateMarkdownNote, generateFrontmatter.
  erewrite bind_run
    by (erewrite bind_run by apply buildFrontmatter_run; reflexivity).
  by destruct (renderSections dayString cards journal).
Qed.

Lemma saveNote_refused (filename content directory : string) (w : World) :
  w_write_ok w (path_join directory filename) = false ->
  saveNote filename content directory w = (Exit 1, w).
Proof.
  intros Hno.
  unfold saveNote, try_catch, bind, fs_writeFile, process_exit.
  by rewrite Hno.
Qed.

(** The three ways an iteration of the loop ends: the day is skipped or
    fails and no file changes; the write is refused and the process
    ends; the note of the day is written. *)
Lemma processDay_outcome (db : Database) (dayString : string) (w : World) :
  let path := note_path OUTPUT_DIR dayString in
  exists n,
    (w_reads w < n)%nat
    /\ ((exists r,
           processDay db dayString w = (Val r, at_reading w n)
           /\ (r = SkippedComplete \/ r = SkippedEmpty
               \/ exists message, r = Failed message))
        \/ (processDay db dayString w = (Exit 1, at_reading w n)
            /\ w_write_ok w path = false)
        \/ (exists content cards,
              processDay db dayString w
              = (Val (if bool_decide (is_Some (w_files w !! path))
                      then Updated (generateFilename dayString) cards
                      else Created (generateFilename dayString) cards),
                 written (at_reading w n) path content)
              /\ w_write_ok w path = true)).
Proof.
  forget_data_parameters.
  intros path.
  destruct (isDayComplete_run dayString w) as [complete Hrun].
  unfold processDay, try_catch.
  erewrite bind_run by apply findExistingNoteByDay_run.
  erewrite bind_run by exact Hrun.
  fold (note_path OUTPUT_DIR dayString). fold path. rewrite !is_Some_path.
  set (existing := bool_decide (is_Some (w_files w !! path))).
  destruct (negb FORCE && existing && complete).
  { exists (S (w_reads w)). split; [lia|]. left.
    exists SkippedComplete. split; [reflexivity|tauto]. }
  unfold fetchTimelineCardsForDay.
  destruct (timeline_cards db dayString INCLUDE_DELETED) as [message|rows].
  { exists (S (w_reads w)). split; [lia|]. left.
    exists (Failed message). split; [reflexivity|eauto]. }
  rewrite bind_ret. unfold fetchJournalEntryForDay.
  destruct (journal_entries db dayString) as [message|journal].
  { exists (S (w_reads w)). split; [lia|]. left.
    exists (Failed message). split; [reflexivity|eauto]. }
  rewrite bind_ret.
  set (cards := filter (fun card => isFailed card = false) rows).
  destruct (bool_decide (length cards = 0%nat)
            && negb (bool_decide (is_Some journal))).
  { exists (S (w_reads w)). split; [lia|]. left.
    exists SkippedEmpty. split; [reflexivity|tauto]. }
  erewrite bind_run by apply existingCreatedAt_run.
  set (found := if negb FORCE && existing then _ else None).
  pose proof (generateMarkdownNote_run dayString cards journal found
                (advance w)) as Hnote.
  set (n := if truthy_text found then S (S (w_reads w))
            else S (S (S (w_reads w)))).
  replace (if truthy_text found then advance (advance w)
           else advance (advance (advance w)))
    with (at_reading w n) in Hnote
    by (subst n; by destruct (truthy_text found)).
  assert (Hn : (w_reads w < n)%nat)
    by (subst n; destruct (truthy_text found); lia).
  exists n. split; [exact Hn|].
  destruct (renderSections dayString cards journal) as [message|sections].
  { left. exists (Failed message). split; [|eauto].
    by erewrite bind_throw by exact Hnote. }
  erewrite bind_run by exact Hnote.
  destruct (w_write_ok w path) eqn:Hok.
  - right. right. eexists _, (length cards).
    split; [|reflexivity].
    erewrite bind_run by (apply saveNote_run; exact Hok).
    reflexivity.
  - right. left. split; [|reflexivity].
    unfold bind. rewrite saveNote_refused by exact Hok. reflexivity.
Qed.

Lemma length_append (s t : string) :
  String.length (s +:+ t) = (String.length s + String.length t)%nat.
Proof.
  induction s as [|c s IH]; [reflexivity|].
  rewrite append_cons. simpl. by rewrite IH.
Qed.

Lemma append_inj_l (p s1 s2 : string) : p +:+ s1 = p +:+ s2 -> s1 = s2.
Proof.
  induction p as [|c p IH]; [trivial|].
  rewrite !append_cons. intros H. injection H as H. by apply IH.
Qed.

Lemma append_inj_r (s1 s2 t : string) : s1 +:+ t = s2 +:+ t -> s1 = s2.
Proof.
  revert s2.
  induction s1 as [|c s1 IH]; intros [|c2 s2] H.
  - reflexivity.
  - apply (f_equal String.length) in H.
    rewrite append_cons, append_nil in H. simpl in H.
    rewrite length_append in H. lia.
  - apply (f_equal String.length) in H.
    rewrite append_cons, append_nil in H. simpl in H.
    rewrite length_append in H. lia.
  - rewrite !append_cons in H. injection H as -> H. f_equal. by apply IH.
Qed.

Lemma generateFilename_inj (d1 d2 : string) :
  generateFilename d1 = generateFilename d2 -> d1 = d2.
Proof.
  unfold generateFilename. intros H.
  by apply append_inj_l, append_inj_r in H.
Qed.

Lemma note_path_inj (directory d1 d2 : string) :
  note_path directory d1 = note_path directory d2 -> d1 = d2.
Proof.
  unfold note_path, path_join. intros H.
  apply append_inj_l, append_inj_l in H.
  by apply generateFilename_inj.
Qed.

(** X12.  An iteration of the loop never lets an error through: it
    returns what it printed for the day or ends the process with status
    1, and it ends the process only when the write of the note is
    refused. *)
Theorem processDay_never_throws (db : Database) (dayString : string)
  (w : World) :
  match fst (processDay db dayString w) with
  | Val _ => True
  | Throw _ => False
  | Exit code =>
      code = 1 /\ w_write_ok w (note_path OUTPUT_DIR dayString) = false
  end.
Proof.
  forget_data_parameters.
  destruct (processDay_outcome db dayString w)
    as (n & _ & [(r & -> & _)|[[-> Hno]|(content & cards & -> & _)]]);
    simpl; auto.
Qed.

(** X13.  An iteration of the loop changes no file other than the note
    of its day, so the notes of the other days stay as they are; it
    changes the note of its day only when it reports a creation or an
    update, a creation only when there was no note and an update only
    when there was one; and it reads the clock at least once and changes
    neither the clock nor what the file system accepts. *)
Theorem processDay_touches_one_note (db : Database) (dayString : string)
  (w : World) :
  let path := note_path OUTPUT_DIR dayString in
  let r := fst (processDay db dayString w) in
  let w' := snd (processDay db dayString w) in
  (forall p, p <> path -> w_files w' !! p = w_files w !! p)
  /\ (forall other,
        other <> dayString ->
        w_files w' !! note_path OUTPUT_DIR other
        = w_files w !! note_path OUTPUT_DIR other)
  /\ match r with
     | Val (Created filename _) =>
         filename = generateFilename dayString
         /\ w_files w !! path = None /\ is_Some (w_files w' !! path)
     | Val (Updated filename _) =>
         filename = generateFilename dayString
         /\ is_Some (w_files w !! path) /\ is_Some (w_files w' !! path)
     | _ => w_files w' = w_files w
     end
  /\ w_clock w' = w_clock w
  /\ w_write_ok w' = w_write_ok w
  /\ (w_reads w < w_reads w')%nat.
Proof.
  forget_data_parameters.
  intros path r w'.
  assert (Hframe : forall p, p <> path -> w_files w' !! p = w_files w !! p).
  { intros p Hp. subst w'.
    destruct (processDay_outcome db dayString w)
      as (n & _ & [(r0 & -> & _)|[[-> _]|(content & cards & -> & _)]]);
      simpl; [reflexivity..|].
    by apply lookup_insert_ne. }
  split; [exact Hframe|]. split.
  { intros other Hother. apply Hframe.
    intros Heq. by apply note_path_inj in Heq. }
  subst r w'.
  destruct (processDay_outcome db dayString w)
    as (n & Hn & [(r0 & -> & Hr)|[[-> _]|(content & cards & -> & _)]]);
    simpl.
  - split; [|by auto].
    destruct Hr as [->|[->|[message ->]]]; reflexivity.
  - by auto.
  - split; [|by auto]. fold path.
    destruct (w_files w !! path) as [f|] eqn:Hfile.
    + rewrite bool_decide_eq_true_2 by eauto.
      rewrite lookup_insert_eq. eauto.
    + rewrite bool_decide_eq_false_2 by (intros [? ?]; discriminate).
      rewrite lookup_insert_eq. eauto.
Qed.


(** ** Failures, refusals and the counters *)

(** The iteration up to the point where the note is made. *)
Lemma processDay_fetches (db : Database) (dayString : string) (w : World)
  (complete : bool) :
  let path := note_path OUTPUT_DIR dayString in
  fst (isDayComplete dayString w) = Val complete ->
  negb FORCE && bool_decide (is_Some (w_files w !! path)) && complete = false ->
  forall message,
    timeline_cards db dayString INCLUDE_DELETED = inl message
    \/ (exists rows,
          timeline_cards db dayString INCLUDE_DELETED = inr rows
          /\ journal_entries db dayString = inl message) ->
    processDay db dayString w = (Val (Failed message), advance w).
Proof.
  forget_data_parameters.
  intros path Hcomplete Hrow1 message Hfail.
  destruct (isDayComplete_run dayString w) as [complete' Hrun].
  rewrite Hrun in Hcomplete. simpl in Hcomplete.
  injection Hcomplete as ->.
  unfold processDay, try_catch.
  erewrite bind_run by apply findExistingNoteByDay_run.
  erewrite bind_run by exact Hrun.
  fold (note_path OUTPUT_DIR dayString). fold path.
  rewrite !is_Some_path, Hrow1.
  unfold fetchTimelineCardsForDay, fetchJournalEntryForDay.
  destruct Hfail as [->|(rows & -> & ->)]; reflexivity.
Qed.

(** The iteration from the point where the note is made, for a day
    that is not skipped. *)
Lemma processDay_reaches_note (db : Database) (dayString : string)
  (w : World) (complete : bool) (rows : list Card)
  (journal : option Journal) :
  let path := note_path OUTPUT_DIR dayString in
  let cards := filter (fun card => isFailed card = false) rows in
  let existing := bool_decide (is_Some (w_files w !! path)) in
  let found :=
    if negb FORCE && existing
    then recorded_created_at (w_files w !! path) else None in
  fst (isDayComplete dayString w) = Val complete ->
  negb FORCE && existing && complete = false ->
  timeline_cards db dayString INCLUDE_DELETED = inr rows ->
  journal_entries db dayString = inr journal ->
  cards <> [] \/ journal <> None ->
  processDay db dayString w
  = try_catch
      (bind! markdown :=
         generateMarkdownNote dayString cards journal found in
       bind! _ := saveNote (generateFilename dayString) markdown OUTPUT_DIR in
       ret (if existing
            then Updated (generateFilename dayString) (length cards)
            else Created (generateFilename dayString) (length cards)))
      (fun message => ret (Failed message))
      (advance w).
Proof.
  forget_data_parameters.
  intros path cards existing found Hcomplete Hrow1 Hrows Hjournal Hdata.
  destruct (isDayComplete_run dayString w) as [complete' Hrun].
  rewrite Hrun in Hcomplete. simpl in Hcomplete.
  injection Hcomplete as ->.
  unfold processDay, try_catch.
  erewrite bind_run by apply findExistingNoteByDay_run.
  erewrite bind_run by exact Hrun.
  fold (note_path OUTPUT_DIR dayString). fold path.
  rewrite !is_Some_path. fold existing. rewrite Hrow1.
  unfold fetchTimelineCardsForDay, fetchJournalEntryForDay.
  rewrite Hrows, Hjournal, !bind_ret.
  fold cards.
  replace (bool_decide (length cards = 0%nat)
           && negb (bool_decide (is_Some journal))) with false.
  2:{ symmetry. apply andb_false_iff.
      destruct Hdata as [Hcards|Hj].
      - left. apply bool_decide_eq_false_2.
        destruct cards; [contradiction|discriminate].
      - right. destruct journal; [|contradiction].
        rewrite bool_decide_eq_true_2 by eauto. reflexivity. }
  erewrite bind_run by apply existingCreatedAt_run.
  reflexivity.
Qed.

Lemma processDay_render_fails (db : Database) (dayString : string)
  (w : World) (complete : bool) (rows : list Card)
  (journal : option Journal) (message : string) :
  let path := note_path OUTPUT_DIR dayString in
  let cards := filter (fun card => isFailed card = false) rows in
  fst (isDayComplete dayString w) = Val complete ->
  negb FORCE && bool_decide (is_Some (w_files w !! path)) && complete = false ->
  timeline_cards db dayString INCLUDE_DELETED = inr rows ->
  journal_entries db dayString = inr journal ->
  cards <> [] \/ journal <> None ->
  renderSections dayString cards journal = inl message ->
  exists n,
    processDay db dayString w = (Val (Failed message), at_reading w n).
Proof.
  forget_data_parameters.
  intros path cards Hcomplete Hrow1 Hrows Hjournal Hdata Hsections.
  erewrite processDay_reaches_note by eassumption.
  fold path cards.
  set (found := if negb FORCE && _ then _ else None).
  pose proof (generateMarkdownNote_run dayString cards journal found
                (advance w)) as Hnote.
  rewrite Hsections in Hnote.
  unfold try_catch. erewrite bind_throw by exact Hnote.
  destruct (truthy_text found); eexists; reflexivity.
Qed.

Lemma processDay_refused (db : Database) (dayString : string)
  (w : World) (complete : bool) (rows : list Card)
  (journal : option Journal) (sections : string) :
  let path := note_path OUTPUT_DIR dayString in
  let cards := filter (fun card => isFailed card = false) rows in
  fst (isDayComplete dayString w) = Val complete ->
  negb FORCE && bool_decide (is_Some (w_files w !! path)) && complete = false ->
  timeline_cards db dayString INCLUDE_DELETED = inr rows ->
  journal_entries db dayString = inr journal ->
  cards <> [] \/ journal <> None ->
  renderSections dayString cards journal = inr sections ->
  w_write_ok w path = false ->
  exists n, processDay db dayString w = (Exit 1, at_reading w n).
Proof.
  forget_data_parameters.
  intros path cards Hcomplete Hrow1 Hrows Hjournal Hdata Hsections Hno.
  erewrite processDay_reaches_note by eassumption.
  fold path cards.
  set (found := if negb FORCE && _ then _ else None).
  pose proof (generateMarkdownNote_run dayString cards journal found
                (advance w)) as Hnote.
  rewrite Hsections in Hnote.
  unfold try_catch. erewrite bind_run by exact Hnote.
  unfold bind. rewrite saveNote_refused by (by destruct (truthy_text found)).
  destruct (truthy_text found); eexists; reflexivity.
Qed.

(** X14.  An error of a query or of a section generator is caught in
    the iteration: the day is reported as failed with the message of the
    error, no file changes, the day counts as skipped, and the loop goes
    on with the days that are left. *)
Theorem failure_of_a_day_is_contained (db : Database) (dayString : string)
  (rest : list string) (c : Counts) (w : World) (complete : bool)
  (message : string) :
  let path := note_path OUTPUT_DIR dayString in
  fst (isDayComplete dayString w) = Val complete ->
  negb FORCE && bool_decide (is_Some (w_files w !! path)) && complete = false ->
  timeline_cards db dayString INCLUDE_DELETED = inl message
  \/ (exists rows,
        timeline_cards db dayString INCLUDE_DELETED = inr rows
        /\ (journal_entries db dayString = inl message
            \/ exists journal,
                 journal_entries db dayString = inr journal
                 /\ (filter (fun card => isFailed card = false) rows <> []
                     \/ journal <> None)
                 /\ renderSections dayString
                      (filter (fun card => isFailed card = false) rows)
                      journal
                    = inl message)) ->
  exists n,
    processDay db dayString w = (Val (Failed message), at_reading w n)
    /\ syncDays db (dayString :: rest) c w
       = syncDays db rest
           (mkCounts (savedCount c) (updatedCount c) (skippedCount c + 1))
           (at_reading w n).
Proof.
  forget_data_parameters.
  intros path Hcomplete Hrow1 Hfail.
  assert (Hrun : exists n,
            processDay db dayString w
            = (Val (Failed message), at_reading w n)).
  { destruct Hfail as [Hrows|(rows & Hrows & [Hjournal|Hrender])].
    - exists (S (w_reads w)).
      apply (processDay_fetches db dayString w complete Hcomplete Hrow1).
      by left.
    - exists (S (w_reads w)).
      apply (processDay_fetches db dayString w complete Hcomplete Hrow1).
      right. eauto.
    - destruct Hrender as (journal & Hjournal & Hdata & Hsections).
      by eapply processDay_render_fails. }
  destruct Hrun as [n Hrun]. exists n. split; [exact Hrun|].
  cbn [syncDays]. by erewrite bind_run by exact Hrun.
Qed.

(** X15.  When the file system refuses the write of the note of a day
    that is not skipped, the process ends with status 1 in that
    iteration: no file has changed and the days that are left are not
    processed. *)
Theorem refused_write_ends_the_run (db : Database) (dayString : string)
  (rest : list string) (c : Counts) (w : World) (complete : bool)
  (rows : list Card) (journal : option Journal) (sections : string) :
  let path := note_path OUTPUT_DIR dayString in
  let cards := filter (fun card => isFailed card = false) rows in
  fst (isDayComplete dayString w) = Val complete ->
  negb FORCE && bool_decide (is_Some (w_files w !! path)) && complete = false ->
  timeline_cards db dayString INCLUDE_DELETED = inr rows ->
  journal_entries db dayString = inr journal ->
  cards <> [] \/ journal <> None ->
  renderSections dayString cards journal = inr sections ->
  w_write_ok w path = false ->
  exists n,
    processDay db dayString w = (Exit 1, at_reading w n)
    /\ syncDays db (dayString :: rest) c w = (Exit 1, at_reading w n).
Proof.
  forget_data_parameters.
  intros path cards Hcomplete Hrow1 Hrows Hjournal Hdata Hsections Hno.
  destruct (processDay_refused db dayString w complete rows journal sections)
    as [n Hrun]; try assumption.
  exists n. split; [exact Hrun|].
  cbn [syncDays]. unfold bind. by rewrite Hrun.
Qed.

(** What the loop leaves behind, by induction on the days. *)
Lemma syncDays_outcome (db : Database) (dates : list string) (c : Counts)
  (w : World) :
  exists r n files,
    syncDays db dates c w
    = (r, mkWorld (w_clock w) n files (w_write_ok w))
    /\ (w_reads w <= n)%nat
    /\ (forall p,
          (forall d, d ∈ dates -> p <> note_path OUTPUT_DIR d) ->
          files !! p = w_files w !! p)
    /\ match r with
       | Val c' =>
           counted c' = counted c + Z.of_nat (length dates)
           /\ savedCount c <= savedCount c'
           /\ updatedCount c <= updatedCount c'
           /\ skippedCount c <= skippedCount c'
           /\ (w_reads w + length dates <= n)%nat
       | Throw _ => False
       | Exit code =>
           code = 1
           /\ exists d, d ∈ dates
                        /\ w_write_ok w (note_path OUTPUT_DIR d) = false
       end.
Proof.
  forget_data_parameters.
  revert c w.
  induction dates as [|d dates IH]; intros c w.
  - exists (Val c), (w_reads w), (w_files w).
    split; [by destruct w|]. split; [lia|]. split; [done|].
    simpl. lia.
  - cbn [syncDays].
    destruct (processDay_outcome db d w)
      as (n & Hn & [(r & Hrun & Hr)|[[Hrun Hno]|(content & m & Hrun & Hok)]]).
    + erewrite bind_run by exact Hrun.
      destruct (IH (count c r) (at_reading w n))
        as (r' & n' & files & Hrest & Hn' & Hframe & Hres).
      exists r', n', files. simpl in *.
      split; [exact Hrest|]. split; [lia|]. split.
      { intros p Hp. apply Hframe. intros d' Hd'. apply Hp. by right. }
      destruct r' as [c'| |code]; [|exact Hres|].
      * destruct Hr as [->|[->|[message ->]]];
          unfold counted in *; simpl in *; lia.
      * destruct Hres as (-> & d' & Hd' & Hno). split; [reflexivity|].
        exists d'. split; [by right|exact Hno].
    + unfold bind. rewrite Hrun.
      exists (Exit 1), n, (w_files w). simpl.
      split; [reflexivity|]. split; [lia|]. split; [done|].
      split; [reflexivity|]. exists d. split; [by left|exact Hno].
    + erewrite bind_run by exact Hrun.
      set (r := if bool_decide _ then _ else _) in *.
      destruct (IH (count c r) (written (at_reading w n)
                                        (note_path OUTPUT_DIR d) content))
        as (r' & n' & files & Hrest & Hn' & Hframe & Hres).
      exists r', n', files. simpl in *.
      split; [exact Hrest|]. split; [lia|]. split.
      { intros p Hp. rewrite Hframe.
        - apply lookup_insert_ne. intros Heq. by apply (Hp d); [left|].
        - intros d' Hd'. apply Hp. by right. }
      destruct r' as [c'| |code]; [|exact Hres|].
      * subst r. destruct (bool_decide _);
          unfold counted in *; simpl in *; lia.
      * destruct Hres as (-> & d' & Hd' & Hno). split; [reflexivity|].
        exists d'. split; [by right|exact Hno].
Qed.

(** X16.  The loop never lets an error through and ends the process
    only with status 1, on a refused write.  When it comes to its end,
    the three counters have grown by the number of days in all, none has
    gone down, and the clock was read at least once for each day. *)
Theorem syncDays_accounts_for_every_day (db : Database)
  (dates : list string) (c : Counts) (w : World) :
  match fst (syncDays db dates c w) with
  | Val c' =>
      counted c' = counted c + Z.of_nat (length dates)
      /\ savedCount c <= savedCount c'
      /\ updatedCount c <= updatedCount c'
      /\ skippedCount c <= skippedCount c'
      /\ (w_reads w + length dates
          <= w_reads (snd (syncDays db dates c w)))%nat
  | Throw _ => False
  | Exit code =>
      code = 1
      /\ exists d, d ∈ dates
                   /\ w_write_ok w (note_path OUTPUT_DIR d) = false
  end.
Proof.
  forget_data_parameters.
  destruct (syncDays_outcome db dates c w)
    as (r & n & files & -> & _ & _ & Hres).
  exact Hres.
Qed.

(** X17.  The loop changes no file other than the notes of the days it
    is given, and changes neither the clock nor what the file system
    accepts. *)
Theorem syncDays_touches_only_listed_notes (db : Database)
  (dates : list string) (c : Counts) (w : World) :
  let w' := snd (syncDays db dates c w) in
  (forall p,
     (forall d, d ∈ dates -> p <> note_path OUTPUT_DIR d) ->
     w_files w' !! p = w_files w !! p)
  /\ (forall other,
        other ∉ dates ->
        w_files w' !! note_path OUTPUT_DIR other
        = w_files w !! note_path OUTPUT_DIR other)
  /\ w_clock w' = w_clock w
  /\ w_write_ok w' = w_write_ok w.
Proof.
  forget_data_parameters.
  intros w'. subst w'.
  destruct (syncDays_outcome db dates c w)
    as (r & n & files & -> & _ & Hframe & _).
  simpl. split; [exact Hframe|]. split; [|done].
  intros other Hother. apply Hframe.
  intros d Hd Heq. apply note_path_inj in Heq. by subst.
Qed.

Lemma fs_mkdir_run (directory : string) (w : World) :
  fs_mkdir directory w
  = (if w_write_ok w directory then Val tt
     else Throw ("EACCES: permission denied, mkdir '" +:+ directory +:+ "'"),
     w).
Proof. unfold fs_mkdir. by destruct (w_write_ok w directory). Qed.

Lemma syncDayflowData_run (db : Database) (w : World)
  (dates : list string) :
  calculateDateRange DAYS w = (Val dates, advance w) ->
  syncDayflowData db w
  = if w_write_ok w OUTPUT_DIR
    then syncDays db dates (mkCounts 0 0 0) (advance w)
    else (Throw ("EACCES: permission denied, mkdir '"
                 +:+ OUTPUT_DIR +:+ "'"), advance w).
Proof.
  intros Hrange. unfold syncDayflowData.
  erewrite bind_run by exact Hrange.
  unfold bind. rewrite fs_mkdir_run. simpl.
  by destruct (w_write_ok w OUTPUT_DIR).
Qed.

(** X18.  On an open database, in a zone with a fixed UTC offset, with
    [L] the logical day of the first clock reading and the days [L],
    ..., [L - DAYS + 1] of the years 1 to 9999.  When the output
    directory cannot be made, the run throws after its first clock
    reading, before any day is processed, and the top level of the
    script ends the process with status 1.  When it can be made, the
    run lets no error through and ends the process only with status 1,
    and the top level adds nothing to it; when it comes to its end the
    three counters are not negative and add up to the number of days
    asked for, none when that number is not positive.  In both cases
    the run changes no file other than the notes of these days. *)
Theorem run_accounts_for_the_days (db : Database) (w : World) :
  let L := localDay (w_clock w (w_reads w) - 4 * msPerHour) in
  let w' := snd (syncDayflowData db w) in
  (forall i, 0 <= i < DAYS -> 1 <= yearOf (L - i) <= 9999) ->
  (w_write_ok w OUTPUT_DIR = false ->
   (exists message, syncDayflowData db w = (Throw message, advance w))
   /\ main db w = (Exit 1, advance w))
  /\ (w_write_ok w OUTPUT_DIR = true ->
      match fst (syncDayflowData db w) with
      | Val c => counted c = Z.max 0 DAYS
                 /\ 0 <= savedCount c /\ 0 <= updatedCount c
                 /\ 0 <= skippedCount c
      | Throw _ => False
      | Exit code => code = 1
      end
      /\ main db w = syncDayflowData db w
      /\ (DAYS <= 0 ->
          syncDayflowData db w = (Val (mkCounts 0 0 0), advance w)))
  /\ (forall p,
        (forall i, 0 <= i < DAYS ->
                   p <> note_path OUTPUT_DIR (format_date (L - i))) ->
        w_files w' !! p = w_files w !! p).
Proof.
  clear ToPropertyKey_string ToPropertyKey JSON_parse.
  intros L w' Hyears. subst w'.
  pose proof (calculateDateRange_days DAYS w Hyears) as Hrange.
  cbv zeta in Hrange. fold L in Hrange.
  unfold main, try_catch.
  rewrite (syncDayflowData_run db w _ Hrange).
  set (dates := map _ (seq 0 (Z.to_nat DAYS))).
  assert (Hlen : Z.of_nat (length dates) = Z.max 0 DAYS)
    by (subst dates; rewrite length_map, length_seq; lia).
  destruct (w_write_ok w OUTPUT_DIR).
  - split; [discriminate|].
    destruct (syncDays_outcome db dates (mkCounts 0 0 0) (advance w))
      as (r & n & files & Hrun & _ & Hframe & Hres).
    rewrite Hrun. cbn [fst snd w_files].
    split.
    + intros _. split; [|split].
      * destruct r as [c| |code]; [|exact Hres|tauto].
        unfold counted in *. simpl in Hres. lia.
      * by destruct r.
      * intros Hdays. rewrite <- Hrun. subst dates.
        by replace (Z.to_nat DAYS) with 0%nat by lia.
    + intros p Hp. rewrite Hframe; [reflexivity|].
      intros d Hd. subst dates.
      apply list_elem_of_fmap in Hd as (i & -> & Hi).
      apply elem_of_seq in Hi. apply Hp. lia.
  - split; [|split; [discriminate|reflexivity]].
    intros _. split; [by eexists|reflexivity].
Qed.


(** ** Later runs *)

(** X19.  Once an iteration has written the note of a day, a later run
    that is not forced and finds that note skips the day as soon as the
    day is complete, whatever the database holds then, and leaves every
    file as it is. *)
Theorem written_note_is_kept_once_complete (db db' : Database)
  (dayString : string) (w w2 : World) :
  let path := note_path OUTPUT_DIR dayString in
  FORCE = false ->
  (exists filename cards,
     fst (processDay db dayString w) = Val (Created filename cards)
     \/ fst (processDay db dayString w) = Val (Updated filename cards)) ->
  w_files w2 !! path = w_files (snd (processDay db dayString w)) !! path ->
  fst (isDayComplete dayString w2) = Val true ->
  processDay db' dayString w2 = (Val SkippedComplete, advance w2).
Proof.
  forget_data_parameters.
  intros path Hforce (filename & cards & Hwrote) Hsame Hcomplete.
  assert (Hnote : is_Some (w_files w2 !! path)).
  { rewrite Hsame.
    destruct (processDay_outcome db dayString w)
      as (n & _ & [(r & Hrun & Hr)|[[Hrun _]|(content & m & Hrun & _)]]);
      rewrite Hrun in *; simpl in *.
    - destruct Hr as [->|[->|[message ->]]];
        destruct Hwrote; discriminate.
    - destruct Hwrote; discriminate.
    - fold path. rewrite lookup_insert_eq. eauto. }
  eapply processDay_skips_complete; [exact Hcomplete|].
  rewrite Hforce. simpl. rewrite andb_true_r.
  by apply bool_decide_eq_true_2.
Qed.

Lemma toISOString_truthy (date : Z) :
  truthy_text (Some (toISOString date)) = true.
Proof.
  forget_parameters.
  unfold toISOString.
  destruct (civil_from_days (date / msPerDay)) as [[y m] d].
  set (year := if (0 <=? y) && (y <=? 9999) then _ else _).
  rewrite (append_cons "-"), append_nil.
  simpl. by destruct year.
Qed.

(** X20.  The creation timestamp survives an update.  A run that is not
    forced creates the note of a day; when the pattern of
    [getExistingCreatedAt] reads the creation timestamp back from the
    note as it was written, a later run that is not forced and updates
    the note writes that same creation timestamp and a new update
    timestamp. *)
Theorem creation_timestamp_survives_update (db db' : Database)
  (dayString : string) (w w2 : World) (rows rows' : list Card)
  (journal journal' : option Journal) (sections sections' : string) :
  let path := note_path OUTPUT_DIR dayString in
  let cards := filter (fun card => isFailed card = false) rows in
  let cards' := filter (fun card => isFailed card = false) rows' in
  let created := toISOString (w_clock w (S (w_reads w))) in
  let fm :=
    frontmatterObject dayString cards journal created
      (toISOString (w_clock w (S (S (w_reads w))))) in
  let fm' :=
    frontmatterObject dayString cards' journal' created
      (toISOString (w_clock w2 (S (w_reads w2)))) in
  let note := frontmatterText fm +:+ nl +:+ sections in
  FORCE = false ->
  w_files w !! path = None ->
  timeline_cards db dayString INCLUDE_DELETED = inr rows ->
  journal_entries db dayString = inr journal ->
  cards <> [] \/ journal <> None ->
  renderSections dayString cards journal = inr sections ->
  w_write_ok w path = true ->
  trim <$> match_created_at note = Some created ->
  w_files w2 !! path = w_files (snd (processDay db dayString w)) !! path ->
  fst (isDayComplete dayString w2) = Val false ->
  timeline_cards db' dayString INCLUDE_DELETED = inr rows' ->
  journal_entries db' dayString = inr journal' ->
  cards' <> [] \/ journal' <> None ->
  renderSections dayString cards' journal' = inr sections' ->
  w_write_ok w2 path = true ->
  fst (processDay db dayString w)
  = Val (Created (generateFilename dayString) (length cards))
  /\ w_files (snd (processDay db dayString w)) !! path
     = Some (mkFile note true)
  /\ fst (processDay db' dayString w2)
     = Val (Updated (generateFilename dayString) (length cards'))
  /\ w_files (snd (processDay db' dayString w2)) !! path
     = Some (mkFile (frontmatterText fm' +:+ nl +:+ sections') true)
  /\ created_at fm' = created_at fm.
Proof.
  forget_data_parameters.
  intros path cards cards' created fm fm' note Hforce Hnew Hrows Hjournal
    Hdata Hsections Hok Hback Hsame Hcomplete Hrows' Hjournal' Hdata'
    Hsections' Hok'.
  destruct (isDayComplete_run dayString w) as [complete Hrun].
  assert (Hfirst :
    processDay db dayString w
    = (Val (Created (generateFilename dayString) (length cards)),
       written (advance (advance (advance w))) path note)).
  { erewrite processDay_writes; try eassumption.
    - fold (note_path OUTPUT_DIR dayString). fold path.
      by rewrite Hforce, Hnew.
    - by rewrite Hrun.
    - fold (note_path OUTPUT_DIR dayString). fold path.
      by rewrite Hforce, Hnew. }
  rewrite Hfirst in Hsame |- *. cbn [fst snd] in Hsame |- *.
  rewrite lookup_written in Hsame |- *. simpl in Hsame |- *.
  rewrite Hnew in Hsame |- *.
  split; [reflexivity|]. split; [reflexivity|].
  erewrite processDay_writes; try eassumption.
  2:{ fold (note_path OUTPUT_DIR dayString). fold path.
      by rewrite andb_false_r. }
  fold (note_path OUTPUT_DIR dayString). fold path.
  cbn [fst snd]. rewrite lookup_written.
  rewrite Hforce, Hsame.
  unfold recorded_created_at. cbn [negb f_readable f_content].
  rewrite Hback. subst created.
  rewrite toISOString_truthy.
  rewrite bool_decide_eq_true_2 by eauto.
  cbn [advance w_files]. rewrite Hsame.
  repeat split; reflexivity.
Qed.

(** ** The pattern that finds the creation timestamp *)

Lemma takeWhile_forall (p : ascii -> bool) (s : string) :
  string_forall p (takeWhile p s) = true.
Proof.
  induction s as [|c s IH]; [reflexivity|]. simpl.
  destruct (p c) eqn:Hc; [|reflexivity].
  unfold string_forall in *. simpl. by rewrite Hc.
Qed.

Lemma takeWhile_append (p : ascii -> bool) (v rest : string) :
  string_forall p v = true ->
  head_is p rest = false ->
  takeWhile p (v +:+ rest) = v.
Proof.
  unfold string_forall.
  induction v as [|c v IH]; intros Hv Hrest.
  - rewrite append_nil. destruct rest as [|c rest]; [reflexivity|].
    simpl in *. by rewrite Hrest.
  - rewrite append_cons. simpl in *.
    apply andb_true_iff in Hv as [-> Hv]. by rewrite IH.
Qed.

Lemma match_value_shape (r v : string) :
  match_value r = Some v ->
  v <> EmptyString /\ string_forall is_value_char v = true.
Proof.
  unfold match_value.
  set (r' := match r with String c t => _ | EmptyString => _ end).
  destruct (takeWhile is_value_char r') as [|c t] eqn:Htake;
    [discriminate|].
  simpl. intros [= <-]. split; [discriminate|].
  rewrite <- Htake. apply takeWhile_forall.
Qed.

Lemma match_after_key_shape (r v : string) :
  match_after_key r = Some v ->
  v <> EmptyString /\ string_forall is_value_char v = true.
Proof.
  induction r as [|c r IH]; simpl.
  - apply match_value_shape.
  - destruct (is_space c); [|apply match_value_shape].
    destruct (match_after_key r) as [v'|].
    + intros [= <-]. by apply IH.
    + apply match_value_shape.
Qed.

Lemma match_created_at_eq (content : string) :
  match_created_at content
  = match (if String.prefix "created_at:" content
           then match_after_key (dropChars 11 content) else None) with
    | Some v => Some v
    | None =>
        match content with
        | String _ r => match_created_at r
        | EmptyString => None
        end
    end.
Proof. by destruct content. Qed.

Lemma includes_eq (s needle : string) :
  includes s needle
  = String.prefix needle s
    || match s with
       | String _ r => includes r needle
       | EmptyString => false
       end.
Proof. by destruct s. Qed.

(** X21.  What the pattern finds is never empty and holds no quote and
    no line feed, and it finds something only in a text that holds the
    key [created_at:]. *)
Theorem created_at_pattern_result (content v : string) :
  match_created_at content = Some v ->
  v <> EmptyString
  /\ string_forall is_value_char v = true
  /\ includes content "created_at:" = true.
Proof.
  forget_parameters.
  induction content as [|c content IH]; [discriminate|].
  rewrite match_created_at_eq, includes_eq.
  destruct (String.prefix "created_at:" (String c content)) eqn:Hkey.
  - destruct (match_after_key _) as [v'|] eqn:Hafter.
    + intros [= <-]. apply match_after_key_shape in Hafter. tauto.
    + intros Hrest. apply IH in Hrest. tauto.
  - intros Hrest. apply IH in Hrest.
    destruct Hrest as (? & ? & ->). by rewrite orb_true_r.
Qed.

Lemma match_value_reads (q v rest : string) :
  q = EmptyString \/ (exists c, q = String c EmptyString /\ is_quote c = true) ->
  v <> EmptyString ->
  string_forall is_value_char v = true ->
  head_is is_value_char rest = false ->
  match_value (q +:+ v +:+ rest) = Some v.
Proof.
  intros Hq Hv Hall Hrest. unfold match_value.
  assert (Hstrip :
    match q +:+ v +:+ rest with
    | String c t => if is_quote c then t else q +:+ v +:+ rest
    | EmptyString => q +:+ v +:+ rest
    end = v +:+ rest).
  { destruct Hq as [->|(c & -> & Hc)].
    - rewrite append_nil. destruct v as [|c v]; [contradiction|].
      rewrite append_cons. unfold string_forall in Hall. simpl in Hall.
      apply andb_true_iff in Hall as [Hc _].
      unfold is_value_char in Hc. apply negb_true_iff in Hc.
      apply orb_false_iff in Hc as [-> _]. reflexivity.
    - rewrite append_cons, append_nil. by rewrite Hc. }
  rewrite Hstrip, (takeWhile_append _ _ _ Hall Hrest).
  by destruct v.
Qed.

Lemma match_after_key_reads (spaces t v : string) :
  string_forall is_space spaces = true ->
  head_is is_space t = false ->
  match_value t = Some v ->
  match_after_key (spaces +:+ t) = Some v.
Proof.
  unfold string_forall.
  induction spaces as [|c spaces IH]; intros Hspaces Hhead Hvalue.
  - rewrite append_nil. destruct t as [|c t]; [exact Hvalue|].
    simpl in *. by rewrite Hhead.
  - rewrite append_cons. simpl in *.
    apply andb_true_iff in Hspaces as [-> Hspaces].
    by rewrite IH.
Qed.

Lemma prefix_append (s r : string) : String.prefix s (s +:+ r) = true.
Proof.
  induction s as [|c s IH]; [by destruct r|].
  rewrite append_cons. simpl.
  by destruct (ascii_dec c c).
Qed.

Lemma match_created_at_skips (prefix tail : string) :
  absent_before "created_at:" (String.length prefix) (prefix +:+ tail) = true ->
  match_created_at (prefix +:+ tail) = match_created_at tail.
Proof.
  induction prefix as [|c prefix IH]; [reflexivity|].
  rewrite append_cons. cbn [String.length absent_before].
  intros Habsent. apply andb_true_iff in Habsent as [Hkey Habsent].
  apply negb_true_iff in Hkey.
  rewrite match_created_at_eq, Hkey. by apply IH.
Qed.

(** X22.  The pattern reads the first entry [created_at:] of a text:
    when the key occurs nowhere before it, and it is followed by white
    space, an optional quote and a value that is not empty, holds no
    quote and no line feed and ends at a quote, a line feed or the end
    of the text, that value is what is found; without a quote the value
    is taken not to start with white space. *)
Theorem created_at_pattern_reads_first_entry
  (prefix spaces q v rest : string) :
  let entry := "created_at:" +:+ spaces +:+ q +:+ v +:+ rest in
  absent_before "created_at:" (String.length prefix) (prefix +:+ entry)
  = true ->
  string_forall is_space spaces = true ->
  q = EmptyString \/ (exists c, q = String c EmptyString /\ is_quote c = true) ->
  v <> EmptyString ->
  string_forall is_value_char v = true ->
  head_is is_space (q +:+ v) = false ->
  head_is is_value_char rest = false ->
  match_created_at (prefix +:+ entry) = Some v.
Proof.
  forget_parameters.
  intros entry Habsent Hspaces Hq Hv Hall Hhead Hrest.
  rewrite (match_created_at_skips _ _ Habsent).
  subst entry. rewrite match_created_at_eq, prefix_append.
  change (dropChars 11 ("created_at:" +:+ spaces +:+ q +:+ v +:+ rest))
    with (spaces +:+ q +:+ v +:+ rest).
  rewrite (match_after_key_reads spaces (q +:+ v +:+ rest) v);
    [reflexivity|exact Hspaces| |by apply match_value_reads].
  destruct Hq as [->|(c & -> & Hc)].
  - rewrite append_nil in *. destruct v; [contradiction|exact Hhead].
  - exact Hhead.
Qed.


(** ** The journal sections and the headline date *)

Lemma append_empty (a b : string) :
  a +:+ b = EmptyString <-> a = EmptyString /\ b = EmptyString.
Proof.
  forget_parameters.
  destruct a as [|c a].
  - rewrite append_nil. tauto.
  - rewrite append_cons. split; [discriminate|]. by intros [? _].
Qed.

Lemma isEmpty_true (s : string) : isEmpty s = true <-> s = EmptyString.
Proof. by destruct s. Qed.

Lemma journal_block_empty (heading : string) (text : option string) :
  heading <> EmptyString ->
  journal_block heading text = EmptyString <-> truthy_text text = false.
Proof.
  forget_parameters.
  intros Hheading. unfold journal_block.
  destruct (truthy_text text); [|tauto].
  split; [|discriminate].
  intros H. apply append_empty in H as [H _]. contradiction.
Qed.

Lemma ruled_section_empty (section : string) :
  (if isEmpty section then EmptyString
   else section +:+ "---" +:+ nl +:+ nl) = EmptyString
  <-> section = EmptyString.
Proof.
  forget_parameters.
  destruct section as [|c section]; [tauto|].
  simpl. rewrite append_cons. split; discriminate.
Qed.

(** X23.  The journal section is empty exactly when the entry is absent
    or its intentions, goals and notes are all empty or null, and the
    reflection section exactly when the entry is absent or its
    reflections and summary are; a section that is not empty is its
    blocks followed by a rule.  An entry whose texts are all empty gives
    two empty sections, while the front matter still says that the day
    has a journal. *)
Theorem journal_sections_present_iff (j : Journal) :
  (generateJournalSection (Some j) = EmptyString
   <-> truthy_text (intentions j) = false
       /\ truthy_text (goals j) = false
       /\ truthy_text (notes j) = false)
  /\ (generateJournalReflectionSection (Some j) = EmptyString
      <-> truthy_text (reflections j) = false
          /\ truthy_text (journal_summary j) = false)
  /\ (generateJournalSection (Some j) <> EmptyString ->
      generateJournalSection (Some j)
      = journal_block "## Morning Intentions" (intentions j)
        +:+ journal_block "## Daily Goals" (goals j)
        +:+ journal_block "## Journal Notes" (notes j)
        +:+ "---" +:+ nl +:+ nl)
  /\ generateJournalSection None = EmptyString
  /\ generateJournalReflectionSection None = EmptyString
  /\ (forall dayString cards createdAt updatedAt,
        has_journal
          (frontmatterObject dayString cards (Some j) createdAt updatedAt)
        = true).
Proof.
  forget_parameters.
  split; [|split; [|split]].
  - unfold generateJournalSection. cbv zeta.
    rewrite ruled_section_empty, !append_empty.
    by rewrite !journal_block_empty by discriminate.
  - unfold generateJournalReflectionSection. cbv zeta.
    rewrite ruled_section_empty, !append_empty.
    by rewrite !journal_block_empty by discriminate.
  - unfold generateJournalSection. cbv zeta.
    destruct (isEmpty _) eqn:Hempty; [contradiction|].
    intros _. by rewrite !append_assoc.
  - repeat split.
Qed.

(** Reading a date and the time 00:00:00 from texts of four, two and
    two digits. *)
Lemma parse_date_at_midnight (ys ms ds : string) (y m d : Z) :
  read_digits 4 0 ys = Some (y, EmptyString) ->
  read_digits 2 0 ms = Some (m, EmptyString) ->
  read_digits 2 0 ds = Some (d, EmptyString) ->
  parseLocalDateTime
    ((ys +:+ "-" +:+ ms +:+ "-" +:+ ds) +:+ "T00:00:00")
  = if (1 <=? m) && (m <=? 12) && (1 <=? d) && (d <=? 31)
    then Some (makeLocal (days_from_civil y m d) 0 0 0 0)
    else None.
Proof.
  intros Hy Hm Hd. unfold parseLocalDateTime.
  rewrite !append_assoc.
  rewrite (read_digits_append _ _ _ _ _ Hy). cbn [mbind option_bind].
  rewrite append_cons, append_nil, expect_head. cbn [mbind option_bind].
  rewrite (read_digits_append _ _ _ _ _ Hm). cbn [mbind option_bind].
  rewrite append_cons, append_nil, expect_head. cbn [mbind option_bind].
  rewrite (read_digits_append _ _ _ _ _ Hd). cbn [mbind option_bind].
  simpl.
  by destruct ((1 <=? m) && (m <=? 12) && (1 <=? d) && (d <=? 31)).
Qed.

Lemma parse_formatted_date_at_midnight (D : Z) :
  1 <= yearOf D <= 9999 ->
  parseLocalDateTime (format_date D +:+ "T00:00:00")
  = Some (makeLocal D 0 0 0 0).
Proof.
  unfold yearOf, format_date.
  pose proof (civil_round_trip D) as Hcivil.
  destruct (civil_from_days D) as [[y m] d]. cbn [fst].
  destruct Hcivil as (Hday & Hm & Hd). intros Hy.
  replace (0 <? y) with true by (symmetry; apply Z.ltb_lt; lia).
  rewrite (parse_date_at_midnight _ _ _ y m d).
  - replace (1 <=? m) with true by (symmetry; apply Z.leb_le; lia).
    replace (m <=? 12) with true by (symmetry; apply Z.leb_le; lia).
    replace (1 <=? d) with true by (symmetry; apply Z.leb_le; lia).
    replace (d <=? 31) with true by (symmetry; apply Z.leb_le; lia).
    simpl. by rewrite Hday.
  - apply (read_padded 4 (Z.to_nat 10000)); [apply digits4_ok|lia].
  - apply (read_padded 2 (Z.to_nat 100)); [apply digits2_ok|lia].
  - apply (read_padded 2 (Z.to_nat 100)); [apply digits2_ok|lia].
Qed.

Lemma localDay_midnight (D : Z) : localDay (makeLocal D 0 0 0 0) = D.
Proof. unfold_time. div_mod_lia. Qed.

(** X24.  The headline of a note names the calendar date of its day
    identifier, whatever the time zone: for a date of the years 1 to
    9999, [formatDayString] on the identifier of the date gives the long
    text of that same date, and so does it on the identifier of the
    logical day of an instant. *)
Theorem formatDayString_same_calendar_date (D : Z) :
  1 <= yearOf D <= 9999 ->
  formatDayString (format_date D) = inr (format_long_date D)
  /\ forall date,
       localDay (date - 4 * msPerHour) = D ->
       formatDayString (dayString (getDayInfoFor4AMBoundary date))
       = inr (format_long_date D).
Proof.
  intros Hyear.
  assert (Hdate : formatDayString (format_date D)
                  = inr (format_long_date D)).
  { unfold formatDayString.
    by rewrite (parse_formatted_date_at_midnight D Hyear), localDay_midnight. }
  split; [exact Hdate|].
  intros date <-. by rewrite getDayInfo_logical_day.
Qed.

(** ** Distractions and warnings, card by card *)

Lemma forEachCard_warned (cards : list Card) (appStats : AppStats) :
  is_Some (fst (forEachCard cards appStats)) ->
  snd (forEachCard cards appStats)
  = flat_map (fun card => snd (parseMetadata (metadata card))) cards.
Proof.
  revert appStats.
  induction cards as [|card cards IH]; intros appStats; [reflexivity|].
  cbn [forEachCard flat_map].
  destruct (parseMetadata (metadata card)) as [m warned]. cbn [snd].
  destruct (forEachApp _ _ appStats) as [appStats'|];
    [|by intros [? ?]].
  specialize (IH appStats').
  destruct (forEachCard cards appStats') as [result warned'].
  simpl in *. intros Hsome. by rewrite IH.
Qed.

(** X25.  The distractions of a day are those of its cards in the order
    of the cards, each with the start and end of its card.  Each pass
    over the cards parses the metadata again: the pass for the
    distractions warns once for each card whose metadata is not usable
    JSON, in the order of the cards, and the pass for the application
    usage, when it comes to its end, warns the same lines again. *)
Theorem distractions_and_warnings_by_card (cards : list Card) :
  fst (extractAllDistractions cards)
  = flat_map (fun card =>
                map (fun d => mkCardDistraction d (start card) (end_ card))
                    (distractions (fst (parseMetadata (metadata card)))))
             cards
  /\ snd (extractAllDistractions cards)
     = flat_map (fun card => snd (parseMetadata (metadata card))) cards
  /\ (length (snd (extractAllDistractions cards)) <= length cards)%nat
  /\ (is_Some (fst (aggregateAppUsage cards)) ->
      snd (aggregateAppUsage cards) = snd (extractAllDistractions cards)).
Proof.
  assert (Hwarned : snd (extractAllDistractions cards)
                    = flat_map (fun card => snd (parseMetadata (metadata card)))
                               cards).
  { induction cards as [|card cards IH]; [reflexivity|].
    cbn [extractAllDistractions flat_map].
    destruct (parseMetadata (metadata card)) as [m warned].
    destruct (extractAllDistractions cards) as [more warned'].
    simpl in *. by rewrite IH. }
  split; [|split; [exact Hwarned|split]].
  - clear Hwarned.
    induction cards as [|card cards IH]; [reflexivity|].
    cbn [extractAllDistractions flat_map].
    destruct (parseMetadata (metadata card)) as [m warned].
    destruct (extractAllDistractions cards) as [more warned'].
    simpl in *. by rewrite IH.
  - rewrite Hwarned. clear Hwarned.
    induction cards as [|card cards IH]; [reflexivity|].
    cbn [flat_map]. rewrite length_app. cbn [length].
    assert (length (snd (parseMetadata (metadata card))) <= 1)%nat; [|lia].
    unfold parseMetadata.
    destruct (negb (truthy_text (metadata card))); [simpl; lia|].
    destruct (JSON_parse _) as [message|parsed]; [simpl; lia|].
    destruct parsed; simpl; lia.
  - rewrite Hwarned. unfold aggregateAppUsage.
    pose proof (forEachCard_warned cards []) as Hpass.
    destruct (forEachCard cards []) as [result warned].
    simpl in *. intros Hsome. apply Hpass.
    destruct result; [eauto|]. by destruct Hsome.
Qed.


(** ** What a report tells *)

(** X26.  What an iteration reports tells why: a day is skipped as
    complete only in a run that is not forced, with its note there and
    the day complete; as empty only when the queries return no journal
    entry and no card other than failed-processing cards; it is reported
    as failed only with the message of an error of a query or of a
    section generator; and a note is written, or its write refused, only
    for a day with data whose sections were made, the count reported
    being that of the cards that are left. *)
Theorem day_report_tells_its_cause (db : Database) (dayString : string)
  (w : World) :
  let path := note_path OUTPUT_DIR dayString in
  let kept := filter (fun card => isFailed card = false) in
  let has_data := fun n =>
    exists rows journal sections,
      timeline_cards db dayString INCLUDE_DELETED = inr rows
      /\ journal_entries db dayString = inr journal
      /\ (kept rows <> [] \/ journal <> None)
      /\ renderSections dayString (kept rows) journal = inr sections
      /\ n = length (kept rows) in
  match fst (processDay db dayString w) with
  | Val SkippedComplete =>
      FORCE = false /\ is_Some (w_files w !! path)
      /\ fst (isDayComplete dayString w) = Val true
  | Val SkippedEmpty =>
      exists rows,
        timeline_cards db dayString INCLUDE_DELETED = inr rows
        /\ kept rows = []
        /\ journal_entries db dayString = inr None
  | Val (Failed message) =>
      timeline_cards db dayString INCLUDE_DELETED = inl message
      \/ journal_entries db dayString = inl message
      \/ exists rows journal,
           timeline_cards db dayString INCLUDE_DELETED = inr rows
           /\ journal_entries db dayString = inr journal
           /\ renderSections dayString (kept rows) journal = inl message
  | Val (Created _ n) =>
      w_files w !! path = None /\ w_write_ok w path = true /\ has_data n
  | Val (Updated _ n) =>
      is_Some (w_files w !! path) /\ w_write_ok w path = true /\ has_data n
  | Throw _ => False
  | Exit _ => w_write_ok w path = false /\ exists n, has_data n
  end.
Proof.
  forget_data_parameters.
  intros path kept has_data.
  destruct (isDayComplete_run dayString w) as [complete Hrun].
  unfold processDay, try_catch.
  erewrite bind_run by apply findExistingNoteByDay_run.
  erewrite bind_run by exact Hrun.
  fold (note_path OUTPUT_DIR dayString). fold path. rewrite !is_Some_path.
  destruct (negb FORCE && bool_decide (is_Some (w_files w !! path))
            && complete) eqn:Hskip.
  { cbn [fst ret].
    apply andb_true_iff in Hskip as [Hskip ->].
    apply andb_true_iff in Hskip as [Hforce Hnote].
    apply negb_true_iff in Hforce. apply bool_decide_eq_true_1 in Hnote.
    by rewrite Hrun. }
  clear Hskip.
  unfold fetchTimelineCardsForDay.
  destruct (timeline_cards db dayString INCLUDE_DELETED)
    as [message|rows] eqn:Hrows.
  { cbn. by left. }
  rewrite bind_ret. unfold fetchJournalEntryForDay.
  destruct (journal_entries db dayString) as [message|journal] eqn:Hjournal.
  { cbn. right. by left. }
  rewrite bind_ret. fold (kept rows).
  destruct (bool_decide (length (kept rows) = 0%nat)
            && negb (bool_decide (is_Some journal))) eqn:Hempty.
  { cbn. exists rows.
    apply andb_true_iff in Hempty as [Hlen Hj].
    apply bool_decide_eq_true_1 in Hlen.
    apply negb_true_iff, bool_decide_eq_false_1 in Hj.
    split; [reflexivity|]. split.
    - by destruct (kept rows).
    - destruct journal; [|reflexivity]. exfalso. apply Hj. eauto. }
  assert (Hdata : kept rows <> [] \/ journal <> None).
  { apply andb_false_iff in Hempty as [Hlen|Hj].
    - left. apply bool_decide_eq_false_1 in Hlen.
      intros Hnil. apply Hlen. by rewrite Hnil.
    - right. apply negb_false_iff, bool_decide_eq_true_1 in Hj.
      intros ->. by destruct Hj. }
  clear Hempty.
  erewrite bind_run by apply existingCreatedAt_run.
  set (found := if negb FORCE && _ then _ else None).
  pose proof (generateMarkdownNote_run dayString (kept rows) journal found
                (advance w)) as Hnote.
  destruct (renderSections dayString (kept rows) journal)
    as [message|sections] eqn:Hsections.
  { erewrite bind_throw by exact Hnote. cbn.
    right. right. by exists rows, journal. }
  erewrite bind_run by exact Hnote.
  assert (Hdone : has_data (length (kept rows)))
    by (by exists rows, journal, sections).
  destruct (w_write_ok w path) eqn:Hok.
  - erewrite bind_run
      by (apply saveNote_run; by destruct (truthy_text found)).
    cbn [fst ret].
    destruct (bool_decide_reflect (is_Some (w_files w !! path)))
      as [Hthere|Hnew].
    + by auto.
    + split; [|by auto].
      destruct (w_files w !! path); [|reflexivity].
      exfalso. apply Hnew. eauto.
  - unfold bind.
    rewrite saveNote_refused by (by destruct (truthy_text found)).
    cbn. split; [reflexivity|]. by exists (length (kept rows)).
Qed.

End Dayflow.

(** * Instances on the sample data *)

Lemma sample_ToPropertyKey_string (s : string) :
  sample_ToPropertyKey (JStr s) = Some s.
Proof. reflexivity. Qed.

(** The day boundary at 02:00 and at 04:00 on 2024-12-20. *)
Lemma resolveDay_at_boundary_witness :
  (sample_now < makeLocal 0 (localDay 0 sample_now) 4 0 0 0
   /\ getDayInfoFor4AMBoundary 0 sample_now
      = {| dayString := "2024-12-19";
           startOfDay := 1734580800000;
           endOfDay := 1734667200000 |})
  /\ (makeLocal 0 (localDay 0 1734667200000) 4 0 0 0 <= 1734667200000
      /\ getDayInfoFor4AMBoundary 0 1734667200000
         = {| dayString := "2024-12-20";
              startOfDay := 1734667200000;
              endOfDay := 1734753600000 |}).
Proof.
  split; (split; [vm_compute; congruence|]).
  - apply (proj1 (proj2 (resolveDay_at_boundary 0 sample_now))).
    reflexivity.
  - apply (proj2 (proj2 (resolveDay_at_boundary 0 1734667200000))).
    vm_compute. congruence.
Defined.

Lemma listDays_witness :
  0 < 3
  /\ fst (calculateDateRange 0 3 (sample_world ∅))
     = Val ["2024-12-19"; "2024-12-18"; "2024-12-17"]%string.
Proof.
  split; [lia|].
  destruct (listDays_first_seen_newest_first 0 3 (sample_world ∅)
              ltac:(lia)) as (dates & Hrun & -> & _).
  rewrite Hrun. reflexivity.
Defined.

Lemma totalDuration_permutation_witness :
  Permutation [card_A30; card_A45] [card_A45; card_A30]
  /\ calculateTotalMinutes [card_A30; card_A45]
     = calculateTotalMinutes [card_A45; card_A30].
Proof.
  split; [apply perm_swap|].
  apply totalDuration_permutation_invariant, perm_swap.
Defined.

(** The note of 2024-12-20 does not exist and is created. *)
Lemma sync_decision_table_witness :
  fst (processDay 0 sample_yaml_dump sample_renderSections false false
         sample_dir (sample_db [card_A30] None) "2024-12-20"
         (sample_world {[ sample_path := mkFile sample_note true ]}))
  = Val (Created "Dayflow_2024-12-20.md" 1).
Proof.
  assert (Hcomplete :
    fst (isDayComplete 0 "2024-12-20"
           (sample_world {[ sample_path := mkFile sample_note true ]}))
    = Val false) by (vm_compute; reflexivity).
  pose proof (proj2 (proj2 (sync_decision_table 0 sample_yaml_dump
                              sample_renderSections false false sample_dir
                              (sample_db [card_A30] None) "2024-12-20" _
                              false Hcomplete))) as H.
  cbv zeta in H.
  specialize (H ltac:(vm_compute; reflexivity) [card_A30] None
                eq_refl eq_refl).
  apply proj2 in H.
  specialize (H ltac:(left; vm_compute; discriminate) _ eq_refl
                ltac:(vm_compute; reflexivity)).
  rewrite H. vm_compute. reflexivity.
Defined.

(** The note of 2024-12-19 can be read: its creation timestamp is
    kept. *)
Lemma creation_timestamp_on_update_witness :
  w_files
    (snd (processDay 0 sample_yaml_dump sample_renderSections false false
            sample_dir (sample_db [card_A30] None) "2024-12-19"
            (sample_world {[ sample_path := mkFile sample_note true ]})))
  !! sample_path
  = Some (mkFile
            (frontmatterText sample_yaml_dump
               (frontmatterObject "2024-12-19" [card_A30] None
                  "2024-12-19T21:30:00.000Z" "2024-12-20T02:00:00.001Z")
             +:+ nl +:+ "# Dayflow: 2024-12-19" +:+ nl)
            true).
Proof.
  assert (Hcomplete :
    fst (isDayComplete 0 "2024-12-19"
           (sample_world {[ sample_path := mkFile sample_note true ]}))
    = Val false) by (vm_compute; reflexivity).
  assert (Hfile :
    w_files (sample_world {[ sample_path := mkFile sample_note true ]})
    !! path_join sample_dir (generateFilename "2024-12-19")
    = Some (mkFile sample_note true)) by (vm_compute; reflexivity).
  pose proof (proj1 (creation_timestamp_on_update 0 sample_yaml_dump
                       sample_renderSections false false sample_dir
                       (sample_db [card_A30] None) "2024-12-19" _ _ false
                       [card_A30] None _ Hfile Hcomplete eq_refl eq_refl
                       ltac:(left; vm_compute; discriminate) eq_refl
                       ltac:(vm_compute; reflexivity))) as H.
  cbv zeta in H.
  specialize (H eq_refl eq_refl "2024-12-19T21:30:00.000Z"%string eq_refl
                ltac:(vm_compute; reflexivity)
                ltac:(vm_compute; discriminate)).
  destruct H as [H _].
  change (path_join sample_dir (generateFilename "2024-12-19"))
    with sample_path in H.
  rewrite H. vm_compute. reflexivity.
Defined.

(** The same note cannot be read: its creation timestamp is lost. *)
Lemma creation_timestamp_lost_witness :
  w_files
    (snd (processDay 0 sample_yaml_dump sample_renderSections false false
            sample_dir (sample_db [card_A30] None) "2024-12-19"
            (sample_world {[ sample_path := mkFile sample_note false ]})))
  !! sample_path
  = Some (mkFile
            (frontmatterText sample_yaml_dump
               (frontmatterObject "2024-12-19" [card_A30] None
                  "2024-12-20T02:00:00.001Z" "2024-12-20T02:00:00.002Z")
             +:+ nl +:+ "# Dayflow: 2024-12-19" +:+ nl)
            false).
Proof.
  assert (Hcomplete :
    fst (isDayComplete 0 "2024-12-19"
           (sample_world {[ sample_path := mkFile sample_note false ]}))
    = Val false) by (vm_compute; reflexivity).
  assert (Hfile :
    w_files (sample_world {[ sample_path := mkFile sample_note false ]})
    !! path_join sample_dir (generateFilename "2024-12-19")
    = Some (mkFile sample_note false)) by (vm_compute; reflexivity).
  pose proof (creation_timestamp_lost_when_not_found 0 sample_yaml_dump
                sample_renderSections false false sample_dir
                (sample_db [card_A30] None) "2024-12-19" _ _
                [card_A30] None _ eq_refl Hfile Hcomplete eq_refl eq_refl
                ltac:(left; vm_compute; discriminate) eq_refl
                ltac:(vm_compute; reflexivity)
                ltac:(left; reflexivity)) as H.
  cbv zeta in H.
  destruct H as (_ & _ & H & _).
  change (path_join sample_dir (generateFilename "2024-12-19"))
    with sample_path in H.
  rewrite H. vm_compute. reflexivity.
Defined.

(** C4 as stated fails.  The note of 2024-12-19 exists and records its
    creation on 2024-12-19 at 21:30, but cannot be read; the day is not
    complete and the run is not forced.  The note is written again, and
    the creation timestamp that is read back from it is the time of the
    run. *)
Lemma creation_timestamp_counterexample :
  let w := sample_world {[ sample_path := mkFile sample_note false ]} in
  let run := processDay 0 sample_yaml_dump sample_renderSections false false
               sample_dir (sample_db [card_A30] None) "2024-12-19" w in
  fst (isDayComplete 0 "2024-12-19" w) = Val false
  /\ match_created_at sample_note = Some "2024-12-19T21:30:00.000Z"%string
  /\ fst run = Val (Updated "Dayflow_2024-12-19.md" 1)
  /\ (match_created_at ∘ f_content) <$> (w_files (snd run) !! sample_path)
     = Some (Some "2024-12-20T02:00:00.001Z"%string).
Proof. vm_compute. repeat split; reflexivity. Qed.



(** A card whose metadata does not parse, between two cards. *)
Lemma unusable_metadata_witness :
  fst (aggregateAppUsage sample_JSON_parse sample_ToPropertyKey
         ([card_A30] ++ card_broken :: [card_BB]))
  = fst (aggregateAppUsage sample_JSON_parse sample_ToPropertyKey
           ([card_A30] ++ [card_BB]))
  /\ snd (parseMetadata sample_JSON_parse (metadata card_broken))
     = ["Failed to parse metadata: Unexpected token in JSON at position 0"
       ]%string.
Proof.
  pose proof (unusable_metadata_contributes_nothing
                sample_JSON_parse sample_ToPropertyKey card_broken
                ltac:(right; eexists; vm_compute; reflexivity))
    as (_ & _ & Hwarn & _ & Hlists).
  split.
  - apply (Hlists [card_A30] [card_BB]).
  - apply Hwarn; vm_compute; reflexivity.
Defined.

(** A card that names B in both slots, after a card that names
    constructor in both slots. *)
Lemma same_application_witness :
  exists result,
    fst (aggregateAppUsage sample_JSON_parse sample_ToPropertyKey
           ([card_constructor] ++ card_BB :: []))
    = Some result
    /\ NoDup (map app_ result)
    /\ mkAppUsage "B" (mkStats 2 40) ∈ result.
Proof.
  apply (same_application_in_both_slots
           sample_JSON_parse sample_ToPropertyKey
           sample_ToPropertyKey_string
           [card_constructor] [] card_BB "B"
           [("constructor", 20); ("constructor", 20)]%string);
    try (vm_compute; reflexivity).
  discriminate.
Defined.

(** C10 as stated fails.  A card that names the application constructor
    in both slots gives it no session at all: the name is a property
    every object inherits.  A card whose two slots hold the empty name
    gives no session either. *)
Lemma same_application_counterexample :
  let usage := aggregateAppUsage sample_JSON_parse sample_ToPropertyKey in
  let slot card name := assoc name (usage_record sample_JSON_parse card) in
  (slot card_constructor "primary" = Some (JStr "constructor")
   /\ slot card_constructor "secondary" = Some (JStr "constructor")
   /\ fst (usage [card_constructor]) = Some [])
  /\ (slot card_blank "primary" = Some (JStr "")
      /\ slot card_blank "secondary" = Some (JStr "")
      /\ fst (usage [card_blank]) = Some []).
Proof. vm_compute. repeat split; reflexivity. Qed.

(** * Instances of the further properties *)

(** An hour later, at 03:00, the logical day is the same. *)
Lemma logical_day_constant_witness :
  startOfDay (getDayInfoFor4AMBoundary 0 sample_now) <= sample_now + 3600000
  < endOfDay (getDayInfoFor4AMBoundary 0 sample_now)
  /\ getDayInfoFor4AMBoundary 0 (sample_now + 3600000)
     = getDayInfoFor4AMBoundary 0 sample_now.
Proof.
  assert (H : startOfDay (getDayInfoFor4AMBoundary 0 sample_now)
              <= sample_now + 3600000
              < endOfDay (getDayInfoFor4AMBoundary 0 sample_now))
    by (vm_compute; split; congruence).
  split; [exact H|].
  exact (logical_day_constant 0 sample_now (sample_now + 3600000) H).
Defined.

(** At 02:00 on 2024-12-20 the day 2024-12-19 is not complete. *)
Lemma day_complete_from_its_end_witness :
  1 <= yearOf (localDay 0 (sample_now - 4 * msPerHour)) <= 9999
  /\ fst (isDayComplete 0
            (dayString (getDayInfoFor4AMBoundary 0 sample_now))
            (sample_world ∅))
     = Val false.
Proof.
  assert (H : 1 <= yearOf (localDay 0 (sample_now - 4 * msPerHour)) <= 9999)
    by (vm_compute; split; congruence).
  split; [exact H|].
  apply (proj2 (day_complete_from_its_end 0 sample_now (sample_world ∅) H)).
  vm_compute. reflexivity.
Defined.


Lemma extractCategories_distinct_witness :
  extractCategories [card_A30; card_2048; card_A45]
  = ["Work"; "Play"]%string.
Proof.
  rewrite (proj1 (extractCategories_distinct [card_A30; card_2048; card_A45])).
  vm_compute. reflexivity.
Defined.

Lemma totalDuration_nonnegative_witness :
  Forall (fun card => start_ts card <= end_ts card) [card_A30; card_A45]
  /\ 0 <= calculateTotalMinutes [card_A30; card_A45].
Proof.
  assert (H : Forall (fun card => start_ts card <= end_ts card)
                     [card_A30; card_A45])
    by (repeat constructor; vm_compute; congruence).
  split; [exact H|].
  exact (proj1 (totalDuration_nonnegative [card_A30; card_A45]) H).
Defined.

(** A card of application A and a card that names B in both slots. *)
Lemma applicationUsage_sums_witness :
  exists result,
    fst (aggregateAppUsage sample_JSON_parse sample_ToPropertyKey
           [card_A30; card_BB])
    = Some result
    /\ foldr Z.add 0 (map (fun u => sessions (stats u)) result) = 3
    /\ foldr Z.add 0 (map (fun u => totalMinutes (stats u)) result) = 70.
Proof.
  destruct (applicationUsage_sums sample_JSON_parse sample_ToPropertyKey
              [card_A30; card_BB]
              [("A", 30); ("B", 20); ("B", 20)]%string
              ltac:(vm_compute; reflexivity)
              ltac:(intros e He;
                    repeat (apply elem_of_cons in He as [->|He];
                            [reflexivity|]);
                    by apply not_elem_of_nil in He))
    as (result & Hrun & Hsessions & Hminutes).
  exists result. split; [exact Hrun|]. split; assumption.
Defined.

(** The payload [null]. *)
Lemma parseMetadata_other_shapes_witness :
  parseMetadata sample_JSON_parse (Some "null"%string)
  = (emptyMetadata,
     ["Failed to parse metadata: " +:+ null_property_message]).
Proof.
  apply (proj2 (parseMetadata_other_shapes sample_JSON_parse)
           "null"%string JNull);
    [discriminate|vm_compute; reflexivity|discriminate].
Defined.

Lemma sections_without_metadata_witness :
  Forall (unusable_metadata sample_JSON_parse) [card_broken; card_bare]
  /\ fst (generateAppUsageSection sample_JSON_parse sample_ToPropertyKey
            [card_broken; card_bare])
     = Some ("## App Usage Summary" +:+ nl +:+ "*No app usage recorded*"
             +:+ nl).
Proof.
  assert (H : Forall (unusable_metadata sample_JSON_parse)
                     [card_broken; card_bare]).
  { constructor; [|constructor; [|constructor]].
    - right. eexists. vm_compute. reflexivity.
    - left. reflexivity. }
  split; [exact H|].
  exact (proj1 (proj2 (sections_without_metadata sample_JSON_parse
                         sample_ToPropertyKey [card_broken; card_bare] H))).
Defined.

(** Proves the next hypothesis of [H] by [tac]. *)
Ltac provide H tac :=
  match type of H with
  | ?A -> _ => let Hp := fresh in assert (Hp : A) by tac; specialize (H Hp)
  end.

(** The note of 2024-12-20 is created; the note of 2024-12-19 stays as
    it is. *)
Lemma processDay_touches_one_note_witness :
  w_files
    (snd (processDay 0 sample_yaml_dump sample_renderSections false false
            sample_dir (sample_db [card_A30] None) "2024-12-20"
            (sample_world {[ sample_path := mkFile sample_note true ]})))
  !! sample_path
  = Some (mkFile sample_note true).
Proof.
  pose proof (proj1 (proj2 (processDay_touches_one_note 0 sample_yaml_dump
                              sample_renderSections false false sample_dir
                              (sample_db [card_A30] None) "2024-12-20"
                              (sample_world
                                 {[ sample_path := mkFile sample_note true ]}))))
    as H.
  cbv zeta in H.
  specialize (H "2024-12-19"%string ltac:(discriminate)).
  change (note_path sample_dir "2024-12-19") with sample_path in H.
  rewrite H. vm_compute. reflexivity.
Defined.

(** The timeline query fails. *)
Lemma failure_of_a_day_is_contained_witness :
  fst (processDay 0 sample_yaml_dump sample_renderSections false false
         sample_dir broken_db "2024-12-19" (sample_world ∅))
  = Val (Failed "database disk image is malformed").
Proof.
  destruct (failure_of_a_day_is_contained 0 sample_yaml_dump
              sample_renderSections false false sample_dir broken_db
              "2024-12-19" [] (mkCounts 0 0 0) (sample_world ∅) false
              "database disk image is malformed"
              ltac:(vm_compute; reflexivity)
              ltac:(vm_compute; reflexivity)
              ltac:(left; reflexivity))
    as (n & Hrun & _).
  rewrite Hrun. reflexivity.
Defined.

(** The file system refuses the write of the first of two days. *)
Lemma refused_write_ends_the_run_witness :
  fst (syncDays 0 sample_yaml_dump sample_renderSections false false
         sample_dir (sample_db [card_A30] None)
         ["2024-12-19"; "2024-12-18"]%string (mkCounts 0 0 0)
         (readonly_world ∅))
  = Exit 1.
Proof.
  destruct (refused_write_ends_the_run 0 sample_yaml_dump
              sample_renderSections false false sample_dir
              (sample_db [card_A30] None) "2024-12-19"
              ["2024-12-18"]%string (mkCounts 0 0 0) (readonly_world ∅)
              false [card_A30] None ("# Dayflow: 2024-12-19" +:+ nl)
              ltac:(vm_compute; reflexivity)
              ltac:(vm_compute; reflexivity)
              eq_refl eq_refl
              ltac:(left; vm_compute; discriminate)
              eq_refl eq_refl)
    as (n & _ & Hrun).
  rewrite Hrun. reflexivity.
Defined.

(** The loop over the day 2024-12-20 leaves the note of 2024-12-19. *)
Lemma syncDays_touches_only_listed_notes_witness :
  w_files
    (snd (syncDays 0 sample_yaml_dump sample_renderSections false false
            sample_dir (sample_db [card_A30] None) ["2024-12-20"]%string
            (mkCounts 0 0 0)
            (sample_world {[ sample_path := mkFile sample_note true ]})))
  !! sample_path
  = Some (mkFile sample_note true).
Proof.
  pose proof (proj1 (proj2 (syncDays_touches_only_listed_notes 0
                              sample_yaml_dump sample_renderSections
                              false false sample_dir
                              (sample_db [card_A30] None)
                              ["2024-12-20"]%string (mkCounts 0 0 0)
                              (sample_world
                                 {[ sample_path := mkFile sample_note true ]}))))
    as H.
  cbv zeta in H.
  specialize (H "2024-12-19"%string).
  change (note_path sample_dir "2024-12-19") with sample_path in H.
  rewrite H; [vm_compute; reflexivity|].
  intros Hin. apply list_elem_of_singleton in Hin. discriminate.
Defined.

(** A run over three days, and a run on a file system that refuses
    every write. *)
Lemma run_accounts_for_the_days_witness :
  match fst (syncDayflowData 0 sample_yaml_dump sample_renderSections
               false false sample_dir 3 (sample_db [card_A30] None)
               (sample_world ∅)) with
  | Val c => counted c = 3
  | Throw _ => False
  | Exit code => code = 1
  end
  /\ main 0 sample_yaml_dump sample_renderSections false false sample_dir 3
       (sample_db [card_A30] None) (readonly_world ∅)
     = (Exit 1, advance (readonly_world ∅)).
Proof.
  assert (H : forall w, w_clock w (w_reads w) = sample_now ->
              forall i, 0 <= i < 3 ->
                1 <= yearOf (localDay 0 (w_clock w (w_reads w)
                                         - 4 * msPerHour) - i) <= 9999).
  { intros w -> i Hi.
    assert (Hcases : i = 0 \/ i = 1 \/ i = 2) by lia.
    destruct Hcases as [->|[->| ->]]; vm_compute; split; congruence. }
  split.
  - pose proof (run_accounts_for_the_days 0 sample_yaml_dump
                  sample_renderSections false false sample_dir 3
                  (sample_db [card_A30] None) (sample_world ∅)) as R.
    cbv zeta in R.
    specialize (R (H (sample_world ∅) eq_refl)).
    destruct R as (_ & R & _). specialize (R eq_refl).
    apply proj1 in R.
    assert (E : fst (syncDayflowData 0 sample_yaml_dump
                       sample_renderSections false false sample_dir 3
                       (sample_db [card_A30] None) (sample_world ∅))
                = Val (mkCounts 3 0 0)) by (vm_compute; reflexivity).
    rewrite E in R |- *.
    exact (proj1 R).
  - pose proof (run_accounts_for_the_days 0 sample_yaml_dump
                  sample_renderSections false false sample_dir 3
                  (sample_db [card_A30] None) (readonly_world ∅)) as R.
    cbv zeta in R.
    specialize (R (H (readonly_world ∅) eq_refl)).
    destruct R as (R & _). specialize (R eq_refl).
    exact (proj2 R).
Defined.

(** The note of 2024-12-19 is created at 02:00; at 05:00 the day is
    complete and the note is left alone. *)
Lemma written_note_is_kept_witness :
  let w2 :=
    snd (processDay 0 sample_yaml_dump sample_renderSections false false
           sample_dir (sample_db [card_A30] None) "2024-12-19"
           (late_world ∅)) in
  processDay 0 sample_yaml_dump sample_renderSections false false
    sample_dir (sample_db [card_A30; card_A45] None) "2024-12-19" w2
  = (Val SkippedComplete, advance w2).
Proof.
  intros w2.
  apply (written_note_is_kept_once_complete 0 sample_yaml_dump
           sample_renderSections false false sample_dir
           (sample_db [card_A30] None) (sample_db [card_A30; card_A45] None)
           "2024-12-19" (late_world ∅) w2 eq_refl).
  - exists "Dayflow_2024-12-19.md"%string, 1%nat. left.
    vm_compute. reflexivity.
  - reflexivity.
  - vm_compute. reflexivity.
Defined.

(** The note of 2024-12-19 is created and then updated with one more
    card: the creation timestamp is that of the first run. *)
Lemma creation_timestamp_survives_update_witness :
  let w2 :=
    snd (processDay 0 sample_yaml_dump sample_renderSections false false
           sample_dir (sample_db [card_A30] None) "2024-12-19"
           (sample_world ∅)) in
  w_files
    (snd (processDay 0 sample_yaml_dump sample_renderSections false false
            sample_dir (sample_db [card_A30; card_A45] None) "2024-12-19"
            w2))
  !! sample_path
  = Some (mkFile
            (frontmatterText sample_yaml_dump
               (frontmatterObject "2024-12-19" [card_A30; card_A45] None
                  "2024-12-20T02:00:00.001Z" "2024-12-20T02:00:00.004Z")
             +:+ nl +:+ "# Dayflow: 2024-12-19" +:+ nl)
            true).
Proof.
  intros w2.
  pose proof (creation_timestamp_survives_update 0 sample_yaml_dump
                sample_renderSections false false sample_dir
                (sample_db [card_A30] None)
                (sample_db [card_A30; card_A45] None)
                "2024-12-19" (sample_world ∅) w2
                [card_A30] [card_A30; card_A45] None None
                ("# Dayflow: 2024-12-19" +:+ nl)
                ("# Dayflow: 2024-12-19" +:+ nl)) as H.
  cbv zeta in H.
  specialize (H eq_refl).
  provide H ltac:(vm_compute; reflexivity).
  specialize (H eq_refl eq_refl).
  provide H ltac:(left; vm_compute; discriminate).
  specialize (H eq_refl).
  provide H ltac:(vm_compute; reflexivity).
  provide H ltac:(vm_compute; reflexivity).
  provide H ltac:(reflexivity).
  provide H ltac:(vm_compute; reflexivity).
  specialize (H eq_refl eq_refl).
  provide H ltac:(left; vm_compute; discriminate).
  specialize (H eq_refl).
  provide H ltac:(vm_compute; reflexivity).
  destruct H as (_ & _ & _ & H & _).
  change (note_path sample_dir "2024-12-19") with sample_path in H.
  rewrite H. vm_compute. reflexivity.
Defined.

Lemma created_at_pattern_result_witness :
  string_forall is_value_char "2024-12-19T21:30:00.000Z" = true
  /\ includes sample_note "created_at:" = true.
Proof.
  exact (proj2 (created_at_pattern_result sample_note
                  "2024-12-19T21:30:00.000Z"
                  ltac:(vm_compute; reflexivity))).
Defined.

(** The entry of a front matter, after the entry of the day. *)
Lemma created_at_pattern_reads_first_entry_witness :
  match_created_at
    ((("---" +:+ nl +:+ "dayflow_day: 2024-12-19" +:+ nl)
      +:+ "created_at:" +:+ " " +:+ String APOSTROPHE EmptyString
      +:+ "2024-12-19T21:30:00.000Z"
      +:+ String APOSTROPHE nl))
  = Some "2024-12-19T21:30:00.000Z"%string.
Proof.
  apply (created_at_pattern_reads_first_entry
           ("---" +:+ nl +:+ "dayflow_day: 2024-12-19" +:+ nl)
           " " (String APOSTROPHE EmptyString)
           "2024-12-19T21:30:00.000Z" (String APOSTROPHE nl)).
  - vm_compute. reflexivity.
  - reflexivity.
  - right. exists APOSTROPHE. split; reflexivity.
  - discriminate.
  - vm_compute. reflexivity.
  - reflexivity.
  - reflexivity.
Defined.

(** An entry with intentions, empty goals and no notes. *)
Lemma journal_sections_present_witness :
  generateJournalSection (Some sample_journal)
  = "## Morning Intentions" +:+ nl +:+ "Write the report" +:+ nl +:+ nl
    +:+ "---" +:+ nl +:+ nl.
Proof.
  rewrite (proj1 (proj2 (proj2 (journal_sections_present_iff sample_journal)))
             ltac:(vm_compute; discriminate)).
  vm_compute. reflexivity.
Defined.

(** The headline of the note of 2024-12-19, five hours west of UTC. *)
Lemma formatDayString_witness :
  1 <= yearOf 20076 <= 9999
  /\ formatDayString (-18000000) "2024-12-19" = inr "December 19, 2024"%string.
Proof.
  assert (H : 1 <= yearOf 20076 <= 9999) by (vm_compute; split; congruence).
  split; [exact H|].
  pose proof (proj1 (formatDayString_same_calendar_date (-18000000) 20076 H))
    as R.
  vm_compute in R. vm_compute. exact R.
Defined.

(** A card whose metadata does not parse, before a card of
    application A: each pass warns once. *)
Lemma distractions_and_warnings_witness :
  snd (aggregateAppUsage sample_JSON_parse sample_ToPropertyKey
         [card_broken; card_A30])
  = ["Failed to parse metadata: Unexpected token in JSON at position 0"
    ]%string.
Proof.
  rewrite (proj2 (proj2 (proj2 (distractions_and_warnings_by_card
                                  sample_JSON_parse sample_ToPropertyKey
                                  [card_broken; card_A30])))
             ltac:(vm_compute; eexists; reflexivity)).
  vm_compute. reflexivity.
Defined.
